(** * Gocator surface logger: the data callback of ReceiveSurfaceAsync.c

    A shallow embedding of [onData] and of [main] around it, together with
    the properties of the binary surface file and of the measurement log
    that follow from the code.

    - machine integers ([k32u], [k64u], [k16s], ...) are [Z] with the
      wrap-around written out;
    - [k64f] is IEEE binary64, modelled by [spec_float] with
      [prec = 53], [emax = 1024];
    - the C library calls ([fopen], [fwrite], [fprintf], [printf],
      [GetSystemTime]) act on an explicit [World]; their failures are read
      from a script of replies carried by the world;
    - the program includes Windows.h, so [long] is 32 bits wide and objects
      are stored little-endian. *)

From Stdlib Require Import ZArith Lia List String Ascii.
From Stdlib Require Import Floats.SpecFloat.
From coqutil Require Import Byte Word.LittleEndianList.
From stdpp Require Import gmap strings.
Import ListNotations.
Local Open Scope string_scope.
Local Open Scope list_scope.
Local Open Scope Z_scope.

(** ** Machine integers *)

Module Int.

Definition wrap (bits : Z) (z : Z) : Z := z mod 2 ^ bits.

(** The value of a [bits]-wide object read as a signed integer. *)
Definition signed (bits : Z) (z : Z) : Z :=
  let u := wrap bits z in
  if u <? 2 ^ (bits - 1) then u else u - 2 ^ bits.

Definition k32u_max : Z := 2 ^ 32 - 1.

(** [x++] on a [k32u]. *)
Definition incr32 (z : Z) : Z := wrap 32 (z + 1).

End Int.

(** ** Doubles *)

Module K64f.

Definition prec : Z := 53.
Definition emax : Z := 1024.

Definition of_Z (z : Z) : spec_float := binary_normalize prec emax z 0 false.
Definition div : spec_float -> spec_float -> spec_float := SFdiv prec emax.
Definition mul : spec_float -> spec_float -> spec_float := SFmul prec emax.

Definition sign_bit (s : bool) : Z := if s then 2 ^ 63 else 0.

(** The 64-bit object representation of a double.  [spec_float] keeps no
    NaN payload; the quiet NaN with an empty payload stands for all. *)
Definition bits (f : spec_float) : Z :=
  match f with
  | S754_zero s => sign_bit s
  | S754_infinity s => sign_bit s + 2047 * 2 ^ 52
  | S754_nan => 2047 * 2 ^ 52 + 2 ^ 51
  | S754_finite s m e =>
      if 2 ^ 52 <=? Z.pos m
      then sign_bit s + (e + 1075) * 2 ^ 52 + (Z.pos m - 2 ^ 52)
      else sign_bit s + Z.pos m
  end.

Definition one : spec_float := S754_finite false (2 ^ 52) (-52).

End K64f.

Abbreviation k64f := spec_float (only parsing).

(** [#define NM_TO_MM(VALUE) (((k64f)(VALUE))/1000000.0)] *)
Definition NM_TO_MM (VALUE : Z) : k64f := K64f.div (K64f.of_Z VALUE) (K64f.of_Z 1000000).

(** [#define UM_TO_MM(VALUE) (((k64f)(VALUE))/1000.0)] *)
Definition UM_TO_MM (VALUE : Z) : k64f := K64f.div (K64f.of_Z VALUE) (K64f.of_Z 1000).

Definition ROOTFOLDER : string := "D:\GocatorDataOutput\".
Definition DATAFILENAMESUFFIX : string := "GocatorSurface.bin".
Definition MEASFILENAMESUFFIX : string := "GocatorMeasurement.txt".
Definition HEADERTEXT : string := "MHSKJELV VER0001".
Definition HEADERTEXTSIZE : Z := 16.

(** ** The printf family *)

Module Printf.

Inductive arg :=
| Int (z : Z)          (* an [int] or [long] argument *)
| UInt (z : Z)         (* an [unsigned] argument *)
| Double (f : k64f)
| Str (s : string).

Definition digit_char (d : Z) : ascii := ascii_of_nat (48 + Z.to_nat d).

Fixpoint dec_aux (fuel : nat) (n : Z) (acc : string) : string :=
  match fuel with
  | O => acc
  | S fuel' =>
      let acc' := String (digit_char (n mod 10)) acc in
      if n <? 10 then acc' else dec_aux fuel' (n / 10) acc'
  end.

(** Decimal digits of a natural number, most significant first. *)
Definition dec (n : Z) : string := dec_aux (S (Z.to_nat (Z.log2 n))) n "".

Fixpoint replicate_char (n : nat) (c : ascii) : string :=
  match n with
  | O => ""
  | S n' => String c (replicate_char n' c)
  end.

Definition pad_left (width : nat) (c : ascii) (s : string) : string :=
  replicate_char (width - String.length s) c +:+ s.

(** Digits of an integer conversion: at least [precision] digits (one
    when no precision is given); the value zero under precision zero has
    no digits at all. *)
Definition int_digits (precision : option nat) (n : Z) : string :=
  match precision with
  | Some O => if n =? 0 then "" else dec n
  | Some p => pad_left p "0" (dec n)
  | None => dec n
  end.

Record spec := { zero_flag : bool; width : nat; precision : option nat }.

Definition no_spec : spec := {| zero_flag := false; width := 0; precision := None |}.

(** [%d] and [%u]: sign, digits, padding up to the field width.  The [0]
    flag pads with zeros after the sign and is ignored when a precision
    is given. *)
Definition fmt_int (sp : spec) (z : Z) : string :=
  let sgn := if z <? 0 then "-" else "" in
  let ds := int_digits (precision sp) (Z.abs z) in
  match zero_flag sp, precision sp with
  | true, None => sgn +:+ pad_left (width sp - String.length sgn) "0" ds
  | _, _ => pad_left (width sp) " " (sgn +:+ ds)
  end.

(** The integer nearest to [m * 2^e * 10^p], ties to even. *)
Definition scaled_round (m : positive) (e : Z) (p : nat) : Z :=
  let n := Z.pos m * 10 ^ Z.of_nat p in
  if 0 <=? e then n * 2 ^ e
  else
    let d := 2 ^ (- e) in
    let q := n / d in
    let r := n mod d in
    match 2 * r ?= d with
    | Lt => q
    | Gt => q + 1
    | Eq => if Z.even q then q else q + 1
    end.

(** [%f]: fixed notation with [precision] decimals (six by default). *)
Definition fmt_f (sp : spec) (f : k64f) : string :=
  let p := match precision sp with Some p => p | None => 6%nat end in
  let body :=
    match f with
    | S754_nan => "nan"
    | S754_infinity s => (if s then "-" else "") +:+ "inf"
    | S754_zero s =>
        (if s then "-" else "") +:+ "0" +:+
        match p with O => "" | _ => "." +:+ replicate_char p "0" end
    | S754_finite s m e =>
        let n := scaled_round m e p in
        (if s then "-" else "") +:+ dec (n / 10 ^ Z.of_nat p) +:+
        match p with
        | O => ""
        | _ => "." +:+ pad_left p "0" (dec (n mod 10 ^ Z.of_nat p))
        end
    end in
  pad_left (width sp) (if zero_flag sp then "0" else " ") body.

Definition convert (sp : spec) (conv : ascii) (a : arg) : string :=
  match conv, a with
  | "d"%char, Int z => fmt_int sp z
  | "u"%char, UInt z => fmt_int sp z
  | "f"%char, Double f => fmt_f sp f
  | "s"%char, Str s => pad_left (width sp) " " s
  | _, _ => ""
  end.

Definition digit_of (c : ascii) : option nat :=
  let n := nat_of_ascii c in
  if ((48 <=? n) && (n <=? 57))%nat then Some (n - 48)%nat else None.

(** Where the scanner stands inside a conversion specification. *)
Inductive phase := Flags | Width | Precision.

Inductive state := Text | Directive (sp : spec) (ph : phase).

Definition add_digit (sp : spec) (ph : phase) (d : nat) : state :=
  match ph with
  | Flags =>
      match d with
      | O => Directive {| zero_flag := true; width := 0; precision := precision sp |} Flags
      | _ => Directive {| zero_flag := zero_flag sp; width := d; precision := precision sp |} Width
      end
  | Width =>
      Directive {| zero_flag := zero_flag sp; width := 10 * width sp + d;
                   precision := precision sp |} Width
  | Precision =>
      Directive {| zero_flag := zero_flag sp; width := width sp;
                   precision := Some (10 * default 0%nat (precision sp) + d)%nat |} Precision
  end.

Fixpoint run (st : state) (fmt : string) (args : list arg) : string :=
  match fmt with
  | EmptyString => ""
  | String c rest =>
      match st with
      | Text =>
          if Ascii.eqb c "%" then run (Directive no_spec Flags) rest args
          else String c (run Text rest args)
      | Directive sp ph =>
          match digit_of c with
          | Some d => run (add_digit sp ph d) rest args
          | None =>
              if Ascii.eqb c "." then
                run (Directive {| zero_flag := zero_flag sp; width := width sp;
                                  precision := Some 0%nat |} Precision) rest args
              else if Ascii.eqb c "l" then run (Directive sp ph) rest args
              else
                match args with
                | a :: args' => convert sp c a +:+ run Text rest args'
                | [] => run Text rest []
                end
          end
      end
  end.

(** The characters a call [printf(fmt, args...)] produces. *)
Definition sprintf (fmt : string) (args : list arg) : string := run Text fmt args.

End Printf.

Definition CRLF : string := String (ascii_of_nat 13) (String (ascii_of_nat 10) EmptyString).
Definition LF : string := String (ascii_of_nat 10) EmptyString.

(** ** The world the callback runs in *)

Record SYSTEMTIME := {
  wYear : Z; wMonth : Z; wDay : Z; wHour : Z; wMinute : Z; wSecond : Z
}.

(** What the C library answers to one [fopen] or [fwrite] call: success,
    or failure after [written] bytes reached the file. *)
Inductive io_reply := IoOk | IoFail (written : nat).

(** An open stream is known by the path it was opened on. *)
Definition FILE : Type := string.

Record World := {
  files : gmap string (list byte);   (* binary files, by path *)
  console : list string;             (* one entry per printf call *)
  measLog : list string;             (* one entry per fprintf on measFilePointer *)
  clock : list SYSTEMTIME;           (* the readings GetSystemTime will give *)
  replies : list io_reply;           (* the answers fopen / fwrite will get *)
  destroyed : nat                    (* datasets released by GoDestroy *)
}.

Definition set_files (f : gmap string (list byte) -> gmap string (list byte)) (w : World) : World :=
  {| files := f (files w); console := console w; measLog := measLog w;
     clock := clock w; replies := replies w; destroyed := destroyed w |}.

Definition set_console (f : list string -> list string) (w : World) : World :=
  {| files := files w; console := f (console w); measLog := measLog w;
     clock := clock w; replies := replies w; destroyed := destroyed w |}.

Definition set_measLog (f : list string -> list string) (w : World) : World :=
  {| files := files w; console := console w; measLog := f (measLog w);
     clock := clock w; replies := replies w; destroyed := destroyed w |}.

Definition set_clock (f : list SYSTEMTIME -> list SYSTEMTIME) (w : World) : World :=
  {| files := files w; console := console w; measLog := measLog w;
     clock := f (clock w); replies := replies w; destroyed := destroyed w |}.

Definition set_replies (f : list io_reply -> list io_reply) (w : World) : World :=
  {| files := files w; console := console w; measLog := measLog w;
     clock := clock w; replies := f (replies w); destroyed := destroyed w |}.

Definition set_destroyed (f : nat -> nat) (w : World) : World :=
  {| files := files w; console := console w; measLog := measLog w;
     clock := clock w; replies := replies w; destroyed := f (destroyed w) |}.

(** Computations that read and change the world. *)
Definition IO (A : Type) : Type := World -> A * World.

#[global] Instance io_ret : MRet IO := fun A a w => (a, w).

#[global] Instance io_bind : MBind IO :=
  fun A B k m w => let (a, w') := m w in k a w'.

Definition epoch : SYSTEMTIME :=
  {| wYear := 1601; wMonth := 1; wDay := 1; wHour := 0; wMinute := 0; wSecond := 0 |}.

Definition GetSystemTime : IO SYSTEMTIME :=
  fun w => (hd epoch (clock w), set_clock (@tl _) w).

Definition printf (fmt : string) (args : list Printf.arg) : IO unit :=
  fun w => (tt, set_console (fun c => c ++ [Printf.sprintf fmt args]) w).

(** [fprintf(context->measFilePointer, fmt, args...)]: the characters
    handed to the stream.  The stream is opened in text mode; what the C
    runtime makes of a line end on its way to the disk is below this model. *)
Definition fprintf_meas (fmt : string) (args : list Printf.arg) : IO unit :=
  fun w => (tt, set_measLog (fun l => l ++ [Printf.sprintf fmt args]) w).

(** [fopen(name, "wb")]: on success the file exists and is empty. *)
Definition fopen (name : string) : IO (option FILE) :=
  fun w =>
    match replies w with
    | IoFail _ :: _ => (None, set_replies (@tl _) w)
    | _ => (Some name, set_files (insert name []) (set_replies (@tl _) w))
    end.

Definition append_to (f : FILE) (bs : list byte) (w : World) : World :=
  set_files (alter (fun old => old ++ bs) f) w.

(** [fwrite(ptr, size, 1, f)]: [ptr] is the object pointed to, as bytes.
    The result is the number of complete items written, 1 or 0; a request
    of size zero writes nothing and returns 0. *)
Definition fwrite (ptr : list byte) (size : nat) (f : FILE) : IO Z :=
  fun w =>
    match size with
    | O => (0, w)
    | S size' =>
        match replies w with
        | IoFail k :: _ =>
            (0, append_to f (firstn (Nat.min k size') ptr) (set_replies (@tl _) w))
        | _ => (1, append_to f (firstn size ptr) (set_replies (@tl _) w))
        end
    end.

Definition fclose (f : FILE) : IO unit := mret tt.

Definition GoDestroy_dataset : IO unit := fun w => (tt, set_destroyed S w).

(** ** Messages of the Gocator SDK *)

Record GoStamp := { timestamp : Z }.

Record GoSurfaceMsg := {
  Width : Z;            (* k32u, columns *)
  Length : Z;           (* k32u, rows *)
  XResolution : Z;      (* k32u, nm *)
  YResolution : Z;
  ZResolution : Z;
  XOffset : Z;          (* k32s, um *)
  YOffset : Z;
  ZOffset : Z;
  rows : list (list Z)  (* k16s samples, what RowAt points to *)
}.

Definition RowAt (msg : GoSurfaceMsg) (rowIdx : nat) : list Z := nth rowIdx (rows msg) [].

Record GoMeasurementData := { value : k64f; decision : Z }.

Record GoMeasurementMsg := {
  Id : Z;
  measurements : list GoMeasurementData
}.

Inductive GoDataMsg :=
| GO_DATA_MESSAGE_TYPE_STAMP (stampMsg : list GoStamp)
| GO_DATA_MESSAGE_TYPE_SURFACE (surfaceMsg : GoSurfaceMsg)
| GO_DATA_MESSAGE_TYPE_MEASUREMENT (measurementMsg : GoMeasurementMsg)
| GO_DATA_MESSAGE_TYPE_OTHER (type : Z).

(** A surface message as the sensor sends it: [Length] rows of [Width]
    samples each. *)
Definition surface_wf (s : GoSurfaceMsg) : Prop :=
  0 <= Width s /\ 0 <= Length s /\
  length (rows s) = Z.to_nat (Length s) /\
  Forall (fun r => length r = Z.to_nat (Width s)) (rows s).

(** ** The callback *)

(** [measFilePointer] is the stream behind [measLog]; it stays open for the
    whole session. *)
Record DataContext := {
  count : Z;           (* k32u *)
  timeStamp : Z;       (* k64u *)
  frameRate : k64f;
  exposureTime : k64f
}.

Definition set_count (c : Z) (ctx : DataContext) : DataContext :=
  {| count := c; timeStamp := timeStamp ctx;
     frameRate := frameRate ctx; exposureTime := exposureTime ctx |}.

Definition set_timeStamp (t : Z) (ctx : DataContext) : DataContext :=
  {| count := count ctx; timeStamp := t;
     frameRate := frameRate ctx; exposureTime := exposureTime ctx |}.

(** How a [case] of the switch ends: at its [break], or by [return;]. *)
Inductive flow := Break | Return.

Inductive kStatus := kOK.

(** The bytes of the objects handed to [fwrite]. *)
Definition bytes_of_chars (s : string) : list byte := list_byte_of_string s.
Definition bytes_k64u (v : Z) : list byte := le_split 8 v.
Definition bytes_k32u (v : Z) : list byte := le_split 4 v.
Definition bytes_k64f (f : k64f) : list byte := le_split 8 (K64f.bits f).
Definition bytes_k16s (v : Z) : list byte := le_split 2 v.
Definition bytes_row (row : list Z) : list byte := flat_map bytes_k16s row.

Definition sizeof_k16s : Z := 2.

(** The string literal as an object: its characters and the terminator. *)
Definition literal_object (s : string) : list byte := bytes_of_chars s ++ [Byte.x00].
Definition sizeof_literal (s : string) : nat := S (String.length s).

Definition handle_stamp (context : DataContext) (stampMsg : list GoStamp) : DataContext :=
  fold_left (fun ctx stamp => set_timeStamp (timestamp stamp) ctx) stampMsg context.

Fixpoint write_rows (surfaceMsg : GoSurfaceMsg) (surfaceWidth : Z) (fptr : FILE)
    (rowIdxs : list nat) : IO unit :=
  match rowIdxs with
  | [] => mret tt
  | rowIdx :: rest =>
      let data := RowAt surfaceMsg rowIdx in
      fwriteStatus ← fwrite (bytes_row data) (Z.to_nat (surfaceWidth * sizeof_k16s)) fptr;
      (if fwriteStatus =? 1 then mret tt
       else printf ("WARNING: Error while writing surface to file" +:+ LF) []);;
      write_rows surfaceMsg surfaceWidth fptr rest
  end.

Definition data_filename (str_t : SYSTEMTIME) (count : Z) : string :=
  Printf.sprintf "%s%04d-%02d-%02d_%02d%02d%02d_%04ld_%s"
    [Printf.Str ROOTFOLDER;
     Printf.Int (wYear str_t); Printf.Int (wMonth str_t); Printf.Int (wDay str_t);
     Printf.Int (wHour str_t); Printf.Int (wMinute str_t); Printf.Int (wSecond str_t);
     Printf.Int (Int.signed 32 count); Printf.Str DATAFILENAMESUFFIX].

Definition handle_surface (context : DataContext) (surfaceMsg : GoSurfaceMsg)
    : IO (DataContext * flow) :=
  let surfaceWidth := Width surfaceMsg in
  let surfaceLength := Length surfaceMsg in
  let XResolution := NM_TO_MM (XResolution surfaceMsg) in
  let YResolution := NM_TO_MM (YResolution surfaceMsg) in
  let ZResolution := NM_TO_MM (ZResolution surfaceMsg) in
  let XOffset := UM_TO_MM (XOffset surfaceMsg) in
  let YOffset := UM_TO_MM (YOffset surfaceMsg) in
  let ZOffset := UM_TO_MM (ZOffset surfaceMsg) in
  let widthMm := K64f.mul (K64f.of_Z surfaceWidth) XResolution in
  let lengthMm := K64f.mul (K64f.of_Z surfaceLength) YResolution in
  let context := set_count (Int.incr32 (count context)) context in
  printf ("Surface %ld received. Dimensions: [%1.0f, %1.0f] mm " +:+ LF)
    [Printf.Int (Int.signed 32 (count context)); Printf.Double widthMm;
     Printf.Double lengthMm];;
  str_t ← GetSystemTime;
  let filename := data_filename str_t (count context) in
  opened ← fopen filename;
  match opened with
  | None => printf "Error opening file" [];; mret (context, Return)
  | Some fptr =>
      fwrite (literal_object HEADERTEXT) (sizeof_literal HEADERTEXT - 1) fptr;;
      fwrite (bytes_k64u (timeStamp context)) 8 fptr;;
      fwrite (bytes_k32u surfaceWidth) 4 fptr;;
      fwrite (bytes_k32u surfaceLength) 4 fptr;;
      fwrite (bytes_k64f XOffset) 8 fptr;;
      fwrite (bytes_k64f XResolution) 8 fptr;;
      fwrite (bytes_k64f YOffset) 8 fptr;;
      fwrite (bytes_k64f YResolution) 8 fptr;;
      fwrite (bytes_k64f ZOffset) 8 fptr;;
      fwrite (bytes_k64f ZResolution) 8 fptr;;
      fwrite (bytes_k64f (frameRate context)) 8 fptr;;
      fwrite (bytes_k64f (exposureTime context)) 8 fptr;;
      write_rows surfaceMsg surfaceWidth fptr (seq 0 (Z.to_nat (Length surfaceMsg)));;
      fclose fptr;;
      printf ("Surface written to file: %s" +:+ LF +:+ LF) [Printf.Str filename];;
      mret (context, Break)
  end.

Definition handle_measurement (context : DataContext) (measurementMsg : GoMeasurementMsg)
    : IO unit :=
  fold_left
    (fun acc measurementData =>
       acc;;
       fprintf_meas ("%4.0u;%4.0u; %.2f" +:+ CRLF)
         [Printf.UInt (count context); Printf.UInt (Id measurementMsg);
          Printf.Double (value measurementData)])
    (measurements measurementMsg) (mret tt).

(** One turn of the loop over the dataset: the [switch] on the message type. *)
Definition handle_msg (context : DataContext) (dataObj : GoDataMsg) : IO (DataContext * flow) :=
  match dataObj with
  | GO_DATA_MESSAGE_TYPE_STAMP stampMsg => mret (handle_stamp context stampMsg, Break)
  | GO_DATA_MESSAGE_TYPE_SURFACE surfaceMsg => handle_surface context surfaceMsg
  | GO_DATA_MESSAGE_TYPE_MEASUREMENT measurementMsg =>
      handle_measurement context measurementMsg;; mret (context, Break)
  | GO_DATA_MESSAGE_TYPE_OTHER _ => mret (context, Break)
  end.

Fixpoint dispatch (context : DataContext) (dataset : list GoDataMsg) : IO (DataContext * flow) :=
  match dataset with
  | [] => mret (context, Break)
  | dataObj :: rest =>
      r ← handle_msg context dataObj;
      match snd r with
      | Break => dispatch (fst r) rest
      | Return => mret r
      end
  end.

(** [onData]: the context after the call and the status returned; [None]
    is the [return;] that gives the caller no value. *)
Definition onData (context : DataContext) (dataset : list GoDataMsg)
    : IO (DataContext * option kStatus) :=
  r ← dispatch context dataset;
  match snd r with
  | Break => GoDestroy_dataset;; mret (fst r, Some kOK)
  | Return => mret (fst r, None)
  end.

(** ** The session around the callback *)

Definition set_camera (fr ex : k64f) (ctx : DataContext) : DataContext :=
  {| count := count ctx; timeStamp := timeStamp ctx; frameRate := fr; exposureTime := ex |}.

(** [fopen(measurementFileName, "w")]: the measurement stream starts empty. *)
Definition fopen_meas (name : string) : IO (option FILE) :=
  fun w =>
    match replies w with
    | IoFail _ :: _ => (None, set_replies (@tl _) w)
    | _ => (Some name, set_measLog (fun _ => []) (set_replies (@tl _) w))
    end.

Definition meas_filename (str_t : SYSTEMTIME) : string :=
  Printf.sprintf "%s%04d-%02d-%02d_%02d%02d%02d_%s"
    [Printf.Str ROOTFOLDER;
     Printf.Int (wYear str_t); Printf.Int (wMonth str_t); Printf.Int (wDay str_t);
     Printf.Int (wHour str_t); Printf.Int (wMinute str_t); Printf.Int (wSecond str_t);
     Printf.Str MEASFILENAMESUFFIX].

(** What [main] does to the context and the measurement file before it
    starts the sensor, once the sensor is connected.  [contextPointer] is a
    local declared without an initialiser: the argument is what the stack
    held.  [GoSetup_FrameRate] and [GoSetup_Exposure] are the two values read
    from the sensor.  The result is [None] when [main] gives up. *)
Definition main_setup (contextPointer : DataContext) (GoSetup_FrameRate GoSetup_Exposure : k64f)
    : IO (option DataContext) :=
  let contextPointer := set_count 0 contextPointer in
  let contextPointer := set_camera GoSetup_FrameRate GoSetup_Exposure contextPointer in
  str_t ← GetSystemTime;
  let measurementFileName := meas_filename str_t in
  printf ("Measurement output file: %s" +:+ LF +:+ LF) [Printf.Str measurementFileName];;
  opened ← fopen_meas measurementFileName;
  match opened with
  | None => printf "Error opening file" [];; mret None
  | Some _ =>
      fprintf_meas ("Surface number; Measurement ID; Measurement value" +:+ CRLF) [];;
      printf ("******** Nofima Gocator logger ********" +:+ LF +:+ LF) [];;
      printf ("Press ENTER key to start logging data. Press ENTER again to stop." +:+ LF) [];;
      printf ("Waiting for surface measurements from Gocator..." +:+ LF +:+ LF) [];;
      mret (Some contextPointer)
  end.

(** The sensor calls [onData] once per dataset, whatever the call before
    returned. *)
Fixpoint deliver (context : DataContext) (datasets : list (list GoDataMsg)) : IO DataContext :=
  match datasets with
  | [] => mret context
  | dataset :: rest =>
      r ← onData context dataset;
      deliver (fst r) rest
  end.

(** ** The artifact the callback is meant to produce *)

Definition header_bytes (context : DataContext) (s : GoSurfaceMsg) : list byte :=
  bytes_of_chars HEADERTEXT ++
  bytes_k64u (timeStamp context) ++
  bytes_k32u (Width s) ++
  bytes_k32u (Length s) ++
  bytes_k64f (UM_TO_MM (XOffset s)) ++
  bytes_k64f (NM_TO_MM (XResolution s)) ++
  bytes_k64f (UM_TO_MM (YOffset s)) ++
  bytes_k64f (NM_TO_MM (YResolution s)) ++
  bytes_k64f (UM_TO_MM (ZOffset s)) ++
  bytes_k64f (NM_TO_MM (ZResolution s)) ++
  bytes_k64f (frameRate context) ++
  bytes_k64f (exposureTime context).

Definition row_data (s : GoSurfaceMsg) : list byte := flat_map bytes_row (rows s).

Definition artifact (context : DataContext) (s : GoSurfaceMsg) : list byte :=
  header_bytes context s ++ row_data s.

(** Reading a file back: the [len] bytes at offset [off], and the integers
    they hold. *)
Definition field (off len : nat) (bs : list byte) : list byte := firstn len (skipn off bs).
Definition read_unsigned (off len : nat) (bs : list byte) : Z := le_combine (field off len bs).
Definition read_k16s (off : nat) (bs : list byte) : Z := Int.signed 16 (read_unsigned off 2 bs).

(** The first [n] calls to [fopen] / [fwrite] succeed. *)
Definition io_ok (n : nat) (rs : list io_reply) : Prop :=
  Forall (fun r => r = IoOk) (firstn n rs).

(** The path the callback opens for the surface it receives in context
    [context] and world [w]. *)
Definition surface_path (context : DataContext) (w : World) : string :=
  data_filename (hd epoch (clock w)) (Int.incr32 (count context)).

(** The messages of a dataset whose [case] was entered, in order. *)
Fixpoint handled (context : DataContext) (dataset : list GoDataMsg) (w : World)
    : list GoDataMsg :=
  match dataset with
  | [] => []
  | dataObj :: rest =>
      let r := handle_msg context dataObj w in
      dataObj ::
        match snd (fst r) with
        | Break => handled (fst (fst r)) rest (snd r)
        | Return => []
        end
  end.

Fixpoint handled_all (context : DataContext) (datasets : list (list GoDataMsg)) (w : World)
    : list GoDataMsg :=
  match datasets with
  | [] => []
  | dataset :: rest =>
      let r := onData context dataset w in
      handled context dataset w ++ handled_all (fst (fst r)) rest (snd r)
  end.

Definition is_surface (m : GoDataMsg) : bool :=
  match m with GO_DATA_MESSAGE_TYPE_SURFACE _ => true | _ => false end.

Definition surfaces_in (l : list GoDataMsg) : Z := Z.of_nat (length (List.filter is_surface l)).

(** The stamp records of a list of messages, in the order the loops visit
    them. *)
Definition stamp_records (l : list GoDataMsg) : list Z :=
  flat_map (fun m => match m with
                     | GO_DATA_MESSAGE_TYPE_STAMP stampMsg => map timestamp stampMsg
                     | _ => []
                     end) l.

(** ** Vocabulary of the properties *)

(** The run from [w] to [w'] appended [bs] to the file behind [f] and left
    the other files, the measurement log and the datasets alone. *)
Definition appended (f : FILE) (bs : list byte) (w w' : World) : Prop :=
  files w' = alter (fun old => old ++ bs) f (files w) /\
  measLog w' = measLog w /\ destroyed w' = destroyed w.

(** The next call to [fopen] fails. *)
Definition open_fails (w : World) : bool :=
  match replies w with
  | IoFail _ :: _ => true
  | _ => false
  end.

(** What the surface case prints first, for the counter value [count]
    it has just reached. *)
Definition received_line (count : Z) (s : GoSurfaceMsg) : string :=
  Printf.sprintf ("Surface %ld received. Dimensions: [%1.0f, %1.0f] mm " +:+ LF)
    [Printf.Int (Int.signed 32 count);
     Printf.Double (K64f.mul (K64f.of_Z (Width s)) (NM_TO_MM (XResolution s)));
     Printf.Double (K64f.mul (K64f.of_Z (Length s)) (NM_TO_MM (YResolution s)))].

(** The counter is a [k32u]. *)
Definition count_in_range (context : DataContext) : Prop := 0 <= count context < 2 ^ 32.

(** [#define INVALID_RANGE_16BIT ((signed short)0x8000)] *)
Definition INVALID_RANGE_16BIT : Z := Int.signed 16 32768.

(** Every sample is a [k16s]. *)
Definition samples_in_range (s : GoSurfaceMsg) : Prop :=
  Forall (Forall (fun v => - 32768 <= v < 32768)) (rows s).

Module Example.

(** A world where nothing fails; the clock gives [epoch]. *)
Definition quiet : World :=
  {| files := ∅; console := []; measLog := []; clock := []; replies := []; destroyed := 0 |}.

Definition failing (rs : list io_reply) : World :=
  {| files := ∅; console := []; measLog := []; clock := []; replies := rs; destroyed := 0 |}.

Definition armed : DataContext :=
  {| count := 0; timeStamp := 0; frameRate := K64f.of_Z 5; exposureTime := K64f.of_Z 100 |}.

(** Two rows of two samples, one of them invalid. *)
Definition grid : GoSurfaceMsg :=
  {| Width := 2; Length := 2;
     XResolution := 1000000; YResolution := 500000; ZResolution := 1000;
     XOffset := 1000; YOffset := -2000; ZOffset := 0;
     rows := [[1; -32768]; [3; 4]] |}.

(** The double nearest to 3.14159. *)
Definition pi_ish : k64f := K64f.div (K64f.of_Z 314159) (K64f.of_Z 100000).

Definition reading : GoMeasurementMsg :=
  {| Id := 7; measurements := [ {| value := pi_ish; decision := 1 |} ] |}.

(** What the stack of [main] may hold where [contextPointer] is put. *)
Definition stack : DataContext :=
  {| count := 3435973836; timeStamp := 14757395258967641292;
     frameRate := S754_nan; exposureTime := S754_nan |}.

End Example.

(** A stamp value is attached to output when a file created during the call
    carries it in the timestamp field of its header. *)
Definition attached_to_output (t : Z) (w w' : World) : Prop :=
  exists path bs,
    files w !! path = None /\ files w' !! path = Some bs /\ field 16 8 bs = bytes_k64u t.

(** No stamp record but the last one handled in a call is attached to any
    output of that call. *)
Definition earlier_stamps_unattached (context : DataContext) (dataset : list GoDataMsg)
    (w : World) : Prop :=
  forall t, In t (removelast (stamp_records (handled context dataset w))) ->
            ~ attached_to_output t w (snd (onData context dataset w)).

(** What a surface case leaves behind: either the whole artifact under the
    path of the surface, or no file there. *)
Definition all_or_nothing (context : DataContext) (s : GoSurfaceMsg) (w : World) : Prop :=
  let w' := snd (handle_surface context s w) in
  files w' !! surface_path context w = Some (artifact context s) \/
  files w' !! surface_path context w = None.

(** The conversion specifications of the format of a log line. *)
Definition four_wide : Printf.spec :=
  {| Printf.zero_flag := false; Printf.width := 4; Printf.precision := Some 0%nat |}.
Definition two_decimals : Printf.spec :=
  {| Printf.zero_flag := false; Printf.width := 0; Printf.precision := Some 2%nat |}.

Arguments data_filename : simpl never.

(** ** The whole of [main] *)

(** What a call into the sensor library answers: [kOK], or another status. *)
Inductive sdk_result := SdkOk | SdkError (status : Z).

(** The sensor as [main] meets it: the answer to each call it makes, and the
    datasets the sensor sends between start and stop. *)
Record Sensor := {
  GoSdk_Construct : sdk_result;
  GoSystem_Construct : sdk_result;
  GoSystem_FindSensorByIpAddress : sdk_result;
  GoSystem_Connect : sdk_result;
  GoSystem_EnableData : sdk_result;
  GoSystem_SetDataHandler : sdk_result;
  GoSensor_Setup : bool;               (* false: kNULL *)
  GoSetup_FrameRate : k64f;
  GoSetup_Exposure : k64f;
  GoSetup_ScanMode_is_surface : bool;  (* GoSetup_ScanMode(setup) == GO_MODE_SURFACE *)
  GoSetup_SetScanMode : sdk_result;
  GoSystem_Start : sdk_result;
  received : list (list GoDataMsg);
  GoSystem_Stop : sdk_result
}.

Definition DQUOTE : string := String (ascii_of_nat 34) EmptyString.

(** [if ((status = call) != kOK) { printf(fmt, status); return; }] followed
    by [rest]. *)
Definition or_return {A} (fmt : string) (r : sdk_result) (rest : IO (option A))
    : IO (option A) :=
  match r with
  | SdkOk => rest
  | SdkError status => printf fmt [Printf.Int status];; mret None
  end.

(** [main], from the construction of the library to the last message.  The
    argument [contextPointer] is what the stack held where the local of that
    name is put.  Parsing the address, flushing the sensor, waiting for the
    ENTER key and releasing the two handles at the end change nothing here.
    The result is the context at the end, or [None] when [main] returned
    early. *)
Definition main (sensor : Sensor) (contextPointer : DataContext) : IO (option DataContext) :=
  or_return ("Error: GoSdk_Construct:%d" +:+ LF) (GoSdk_Construct sensor) (
  or_return ("Error: GoSystem_Construct:%d" +:+ LF) (GoSystem_Construct sensor) (
  or_return ("Error: GoSystem_FindSensor:%d" +:+ LF) (GoSystem_FindSensorByIpAddress sensor) (
  or_return ("Error: GoSystem_Connect:%d" +:+ LF) (GoSystem_Connect sensor) (
  or_return ("Error: GoSensor_EnableData:%d" +:+ LF) (GoSystem_EnableData sensor) (
  or_return ("Error: GoSystem_SetDataHandler:%d" +:+ LF) (GoSystem_SetDataHandler sensor) (
  (if GoSensor_Setup sensor then mret tt
   else printf ("Error: GoSensor_Setup: Invalid Handle" +:+ LF) []);;
  let contextPointer := set_count 0 contextPointer in
  let contextPointer :=
    set_camera (GoSetup_FrameRate sensor) (GoSetup_Exposure sensor) contextPointer in
  or_return ("Error: GoSetup_SetScanMode:%d" +:+ LF)
    (if GoSetup_ScanMode_is_surface sensor then SdkOk else GoSetup_SetScanMode sensor) (
  (if GoSetup_ScanMode_is_surface sensor then mret tt
   else printf ("Note: Scan mode changed to " +:+ DQUOTE +:+ "surface" +:+ DQUOTE +:+
                " mode. " +:+ LF +:+ LF) []);;
  str_t ← GetSystemTime;
  let measurementFileName := meas_filename str_t in
  printf ("Measurement output file: %s" +:+ LF +:+ LF) [Printf.Str measurementFileName];;
  opened ← fopen_meas measurementFileName;
  match opened with
  | None => printf "Error opening file" [];; mret None
  | Some measFilePointer =>
      fprintf_meas ("Surface number; Measurement ID; Measurement value" +:+ CRLF) [];;
      printf ("******** Nofima Gocator logger ********" +:+ LF +:+ LF) [];;
      printf ("Press ENTER key to start logging data. Press ENTER again to stop." +:+ LF) [];;
      printf ("Waiting for surface measurements from Gocator..." +:+ LF +:+ LF) [];;
      or_return ("Error: GoSystem_Start:%d" +:+ LF) (GoSystem_Start sensor) (
      contextPointer ← deliver contextPointer (received sensor);
      or_return ("Error: GoSystem_Stop:%d" +:+ LF) (GoSystem_Stop sensor) (
      fclose measFilePointer;;
      printf ("Logging stopped - %ld surfaces logged in total. Press ENTER key to close." +:+ LF)
        [Printf.Int (Int.signed 32 (count contextPointer))];;
      mret (Some contextPointer)))
  end))))))).

(** The calls of [main] before the measurement file is opened all succeed. *)
Definition sensor_ready (sensor : Sensor) : Prop :=
  GoSdk_Construct sensor = SdkOk /\ GoSystem_Construct sensor = SdkOk /\
  GoSystem_FindSensorByIpAddress sensor = SdkOk /\ GoSystem_Connect sensor = SdkOk /\
  GoSystem_EnableData sensor = SdkOk /\ GoSystem_SetDataHandler sensor = SdkOk /\
  (GoSetup_ScanMode_is_surface sensor = true \/ GoSetup_SetScanMode sensor = SdkOk).

(** ** Vocabulary of the further properties *)

(** The counter after the messages [l], starting from [c]. *)
Definition count_after (c : Z) (l : list GoDataMsg) : Z :=
  fold_left (fun c m => if is_surface m then Int.incr32 c else c) l c.

(** The lines the measurement records of [l] give when the counter stands
    at [c] before the first message. *)
Fixpoint log_lines (c : Z) (l : list GoDataMsg) : list string :=
  match l with
  | [] => []
  | GO_DATA_MESSAGE_TYPE_SURFACE _ :: rest => log_lines (Int.incr32 c) rest
  | GO_DATA_MESSAGE_TYPE_MEASUREMENT m :: rest =>
      map (fun d => Printf.sprintf ("%4.0u;%4.0u; %.2f" +:+ CRLF)
                      [Printf.UInt c; Printf.UInt (Id m); Printf.Double (value d)])
          (measurements m) ++ log_lines c rest
  | _ :: rest => log_lines c rest
  end.

Definition has_no_surface (l : list GoDataMsg) : Prop :=
  Forall (fun m => is_surface m = false) l.

(** The lines of the surface case on the console. *)
Definition warning_line : string :=
  Printf.sprintf ("WARNING: Error while writing surface to file" +:+ LF) [].

Definition written_line (path : string) : string :=
  Printf.sprintf ("Surface written to file: %s" +:+ LF +:+ LF) [Printf.Str path].

Definition is_fail (r : io_reply) : bool :=
  match r with IoFail _ => true | IoOk => false end.

(** The rows whose [fwrite] does not return 1, for rows of [size] bytes and
    the replies [rs] that the row writes get: every row when the size is
    zero, and the rows that meet a failure otherwise. *)
Definition row_failures (size rows_ : nat) (rs : list io_reply) : nat :=
  match size with
  | O => rows_
  | S _ => length (List.filter is_fail (firstn rows_ rs))
  end.

(** Reading decimal digits: the number [a] continued by the digits of [s]. *)
Fixpoint read_digits (s : string) (a : Z) : Z :=
  match s with
  | EmptyString => a
  | String c s' => read_digits s' (10 * a + (Z.of_nat (nat_of_ascii c) - 48))
  end.

(** The conversion specification [%04d]. *)
Definition zero_padded_4 : Printf.spec :=
  {| Printf.zero_flag := true; Printf.width := 4; Printf.precision := None |}.
Definition zero_padded_2 : Printf.spec :=
  {| Printf.zero_flag := true; Printf.width := 2; Printf.precision := None |}.

(** What the name of a surface file begins with: the folder and the time. *)
Definition name_prefix (str_t : SYSTEMTIME) : string :=
  ROOTFOLDER +:+ Printf.fmt_int zero_padded_4 (wYear str_t) +:+ "-" +:+
  Printf.fmt_int zero_padded_2 (wMonth str_t) +:+ "-" +:+
  Printf.fmt_int zero_padded_2 (wDay str_t) +:+ "_" +:+
  Printf.fmt_int zero_padded_2 (wHour str_t) +:+
  Printf.fmt_int zero_padded_2 (wMinute str_t) +:+
  Printf.fmt_int zero_padded_2 (wSecond str_t) +:+ "_".

(** What [main] prints about the setup handle and the scan mode before it
    touches the context. *)
Definition setup_notes (sensor : Sensor) : list string :=
  (if GoSensor_Setup sensor then []
   else [Printf.sprintf ("Error: GoSensor_Setup: Invalid Handle" +:+ LF) []]) ++
  (if GoSetup_ScanMode_is_surface sensor then []
   else [Printf.sprintf ("Note: Scan mode changed to " +:+ DQUOTE +:+ "surface" +:+ DQUOTE +:+
                         " mode. " +:+ LF +:+ LF) []]).

(** The first line of the measurement file. *)
Definition log_header : string :=
  "Surface number; Measurement ID; Measurement value" +:+ CRLF.

(** The last line [main] prints, for the counter value [c]. *)
Definition stopped_line (c : Z) : string :=
  Printf.sprintf
    ("Logging stopped - %ld surfaces logged in total. Press ENTER key to close." +:+ LF)
    [Printf.Int (Int.signed 32 c)].

(** The context [main] hands to the callback. *)
Definition initial_context (sensor : Sensor) (contextPointer : DataContext) : DataContext :=
  set_camera (GoSetup_FrameRate sensor) (GoSetup_Exposure sensor) (set_count 0 contextPointer).

(** The world when [main] has opened the measurement file and written its
    first line, up to the console. *)
Definition logging_ready (w w1 : World) : Prop :=
  measLog w1 = [log_header] /\ files w1 = files w /\ replies w1 = tl (replies w) /\
  clock w1 = tl (clock w) /\ destroyed w1 = destroyed w.

Module Bench.

(** Two datasets: a stamp, the example surface and a measurement; then a
    measurement alone. *)
Definition datasets : list (list GoDataMsg) :=
  [[GO_DATA_MESSAGE_TYPE_STAMP [{| timestamp := 100 |}];
    GO_DATA_MESSAGE_TYPE_SURFACE Example.grid;
    GO_DATA_MESSAGE_TYPE_MEASUREMENT Example.reading];
   [GO_DATA_MESSAGE_TYPE_MEASUREMENT Example.reading]].

(** A sensor in profile mode with a null setup handle that answers the
    connection with [connect], the start with [start] and the stop with
    [stop], and delivers [datasets] when started. *)
Definition answering (connect start stop : sdk_result) : Sensor :=
  {| GoSdk_Construct := SdkOk;
     GoSystem_Construct := SdkOk;
     GoSystem_FindSensorByIpAddress := SdkOk;
     GoSystem_Connect := connect;
     GoSystem_EnableData := SdkOk;
     GoSystem_SetDataHandler := SdkOk;
     GoSensor_Setup := false;
     GoSetup_FrameRate := K64f.of_Z 5;
     GoSetup_Exposure := K64f.of_Z 100;
     GoSetup_ScanMode_is_surface := false;
     GoSetup_SetScanMode := SdkOk;
     GoSystem_Start := start;
     received := datasets;
     GoSystem_Stop := stop |}.

(** A surface of three columns and no rows. *)
Definition blank : GoSurfaceMsg :=
  {| Width := 3; Length := 0;
     XResolution := 1000000; YResolution := 500000; ZResolution := 1000;
     XOffset := 0; YOffset := 0; ZOffset := 0;
     rows := [] |}.

End Bench.

(** ** Doubles read back *)

(** Reading a double back from its 64 bits, IEEE 754 binary64: the sign in
    bit 63, the biased exponent in bits 52..62, the fraction below. *)
Definition k64f_of_bits (b : Z) : spec_float :=
  let s := 2 ^ 63 <=? b in
  let E := (b / 2 ^ 52) mod 2 ^ 11 in
  let F := b mod 2 ^ 52 in
  if E =? 0 then
    match F with
    | Z.pos m => S754_finite s m (- 1074)
    | _ => S754_zero s
    end
  else if E =? 2047 then
    (if F =? 0 then S754_infinity s else S754_nan)
  else
    match F + 2 ^ 52 with
    | Z.pos m => S754_finite s m (E - 1075)
    | _ => S754_nan
    end.

(** [f] is a normal double, or zero, at most half a unit in the last place
    away from the quotient [num / den], with the sign of [num]. *)
Definition nearest_to (f : spec_float) (num den : Z) : Prop :=
  match f with
  | S754_zero s => s = false /\ num = 0
  | S754_finite s m e =>
      s = (num <? 0) /\ 2 ^ 52 <= Z.pos m < 2 ^ 53 /\ - 1074 <= e <= 0 /\
      2 * Z.abs (Z.abs num * 2 ^ (- e) - Z.pos m * den) <= den
  | _ => False
  end.

Definition read_k64f (off : nat) (bs : list byte) : k64f := k64f_of_bits (read_unsigned off 8 bs).

(** A mantissa of exactly 53 bits. *)
Definition normal (m : positive) : Prop := 2 ^ 52 <= Z.pos m < 2 ^ 53.

(** What a location says about the remainder [r] of a division by [d]. *)
Definition loc_ok (d r : Z) (l : location) : Prop :=
  match l with
  | loc_Exact => r = 0
  | loc_Inexact Lt => 0 < r /\ 2 * r < d
  | loc_Inexact Eq => 2 * r = d
  | loc_Inexact Gt => d < 2 * r
  end.

(** * Properties *)

(** ** The monad *)

Lemma bind_eq {A B} (m : IO A) (k : A -> IO B) (w : World) :
  (m ≫= k) w = k (fst (m w)) (snd (m w)).
Proof. unfold mbind, io_bind. destruct (m w); reflexivity. Qed.

Lemma ret_eq {A} (a : A) (w : World) : (mret a : IO A) w = (a, w).
Proof. reflexivity. Qed.

(** ** Replies *)

Lemma io_ok_tl n rs : io_ok (S n) rs -> io_ok n (tl rs).
Proof.
  unfold io_ok. destruct rs as [|r rs]; simpl.
  - intros _. rewrite firstn_nil. constructor.
  - intros H. inversion H; assumption.
Qed.

Lemma io_ok_le n m rs : (m <= n)%nat -> io_ok n rs -> io_ok m rs.
Proof.
  unfold io_ok. revert m rs. induction n as [|n IH]; intros m rs Hle H.
  - replace m with 0%nat by lia. constructor.
  - destruct m as [|m]; [constructor|].
    destruct rs as [|r rs]; [constructor|].
    simpl in *. inversion H; subst. constructor; [reflexivity|].
    apply IH; [lia|assumption].
Qed.

(** ** Bytes appended to one file *)

Lemma appended_nil f w w' :
  files w' = files w -> measLog w' = measLog w -> destroyed w' = destroyed w ->
  appended f [] w w'.
Proof.
  intros Hf Hm Hd. repeat split; try assumption.
  rewrite Hf. symmetry. apply alter_id. intros x _. apply app_nil_r.
Qed.

Lemma appended_trans f bs1 bs2 w1 w2 w3 :
  appended f bs1 w1 w2 -> appended f bs2 w2 w3 -> appended f (bs1 ++ bs2) w1 w3.
Proof.
  intros (Hf1 & Hm1 & Hd1) (Hf2 & Hm2 & Hd2). repeat split; try congruence.
  rewrite Hf2, Hf1, alter_alter_eq. apply alter_ext.
  intros x _. simpl. symmetry. apply app_assoc.
Qed.

(** One [fwrite]: what reaches the file, and what is left of the replies. *)
Lemma fwrite_any p n f w :
  exists bs, appended f bs w (snd (fwrite p n f w)) /\
             (length bs <= n)%nat /\
             (forall k, io_ok (S k) (replies w) ->
                        io_ok k (replies (snd (fwrite p n f w))) /\ bs = firstn n p).
Proof.
  unfold fwrite. destruct n as [|n'].
  - exists []. split; [apply appended_nil; reflexivity|]. split; [simpl; lia|].
    intros k Hk. split; [|reflexivity]. cbn [snd]. eapply io_ok_le; [|exact Hk]. lia.
  - destruct (replies w) as [|[|k0] rs] eqn:E; cbn [snd].
    + eexists. split; [repeat split|]. split; [rewrite length_firstn; lia|].
      intros k Hk. split; [|reflexivity]. cbn. rewrite E. apply (io_ok_tl k []). exact Hk.
    + eexists. split; [repeat split|]. split; [rewrite length_firstn; lia|].
      intros k Hk. split; [|reflexivity]. cbn. rewrite E. apply (io_ok_tl k (IoOk :: rs)). exact Hk.
    + eexists. split; [repeat split|]. split; [rewrite length_firstn; lia|].
      intros k Hk. inversion Hk; discriminate.
Qed.

(** ** Writing the rows *)

Lemma length_bytes_row row : length (bytes_row row) = (2 * length row)%nat.
Proof.
  induction row as [|v row IH]; [reflexivity|].
  unfold bytes_row in *. cbn [flat_map]. rewrite length_app, IH.
  unfold bytes_k16s. rewrite length_le_split. simpl. lia.
Qed.

Lemma flat_map_nth_seq {A B} (g : A -> list B) (d : A) (l : list A) :
  flat_map (fun i => g (nth i l d)) (seq 0 (length l)) = flat_map g l.
Proof.
  induction l as [|a l IH]; [reflexivity|].
  cbn [length seq flat_map nth]. f_equal.
  rewrite <- seq_shift, flat_map_concat_map, map_map, <- flat_map_concat_map.
  exact IH.
Qed.

Lemma write_rows_any s surfaceWidth f idxs : forall w,
  exists bs,
    appended f bs w (snd (write_rows s surfaceWidth f idxs w)) /\
    (length bs <= length idxs * Z.to_nat (surfaceWidth * sizeof_k16s))%nat /\
    (io_ok (length idxs) (replies w) ->
     bs = flat_map (fun i => firstn (Z.to_nat (surfaceWidth * sizeof_k16s))
                               (bytes_row (RowAt s i))) idxs).
Proof.
  induction idxs as [|i idxs IH]; intros w.
  - exists []. split; [apply appended_nil; reflexivity|]. split; [simpl; lia|reflexivity].
  - cbn [write_rows]. rewrite !bind_eq.
    destruct (fwrite_any (bytes_row (RowAt s i))
                (Z.to_nat (surfaceWidth * sizeof_k16s)) f w) as (bs1 & H1 & Hl1 & Hok1).
    set (w1 := snd (fwrite _ _ f w)) in *.
    set (st := fst (fwrite _ _ f w)).
    set (w2 := snd ((if st =? 1 then mret tt else printf _ []) w1)).
    assert (H2 : appended f [] w1 w2 /\ replies w2 = replies w1).
    { subst w2. destruct (st =? 1); (split; [apply appended_nil|]; reflexivity). }
    destruct H2 as [H2 R2].
    destruct (IH w2) as (bs3 & H3 & Hl3 & Hok3).
    exists (bs1 ++ bs3). split; [|split].
    + eapply appended_trans; [exact H1|].
      change bs3 with ([] ++ bs3). eapply appended_trans; eassumption.
    + rewrite length_app. cbn [length]. lia.
    + intros Hok. cbn [length] in Hok. destruct (Hok1 _ Hok) as [Hok' ->].
      rewrite R2 in Hok3. rewrite (Hok3 Hok'). reflexivity.
Qed.

(** For a well-formed surface the rows the loop hands to [fwrite] are the
    whole grid, row after row. *)
Lemma rows_handed_over s :
  surface_wf s ->
  flat_map (fun i => firstn (Z.to_nat (Width s * sizeof_k16s)) (bytes_row (RowAt s i)))
           (seq 0 (Z.to_nat (Length s))) = row_data s.
Proof.
  intros (Hw & Hl & Hrows & Hall). unfold row_data, RowAt.
  rewrite <- Hrows.
  rewrite (flat_map_nth_seq (fun r => firstn (Z.to_nat (Width s * sizeof_k16s)) (bytes_row r))).
  rewrite !flat_map_concat_map. f_equal. apply map_ext_in.
  intros r Hr. rewrite Forall_forall in Hall. specialize (Hall r).
  rewrite firstn_all2; [reflexivity|].
  rewrite length_bytes_row, Hall by (apply list_elem_of_In; exact Hr).
  unfold sizeof_k16s. lia.
Qed.

(** ** Writing the header *)

Ltac step_fwrite w :=
  lazymatch goal with
  | |- context [fwrite ?p ?n ?f w] =>
      let b := fresh "b" in
      let A := fresh "A" in
      let L := fresh "L" in
      let E := fresh "E" in
      let w' := fresh "w" in
      destruct (fwrite_any p n f w) as (b & A & L & E);
      set (w' := snd (fwrite p n f w)) in *;
      step_fwrite w'
  | |- _ => idtac
  end.

Lemma firstn_le_split n v : firstn n (le_split n v) = le_split n v.
Proof. rewrite <- (length_le_split n v) at 1. apply firstn_all. Qed.

(** The twelve header writes, in a world where the file is open. *)
Lemma header_written (context : DataContext) (s : GoSurfaceMsg) (f : FILE) (w : World) :
  let w' :=
    snd (fwrite (bytes_k64f (exposureTime context)) 8 f
    (snd (fwrite (bytes_k64f (frameRate context)) 8 f
    (snd (fwrite (bytes_k64f (NM_TO_MM (ZResolution s))) 8 f
    (snd (fwrite (bytes_k64f (UM_TO_MM (ZOffset s))) 8 f
    (snd (fwrite (bytes_k64f (NM_TO_MM (YResolution s))) 8 f
    (snd (fwrite (bytes_k64f (UM_TO_MM (YOffset s))) 8 f
    (snd (fwrite (bytes_k64f (NM_TO_MM (XResolution s))) 8 f
    (snd (fwrite (bytes_k64f (UM_TO_MM (XOffset s))) 8 f
    (snd (fwrite (bytes_k32u (Length s)) 4 f
    (snd (fwrite (bytes_k32u (Width s)) 4 f
    (snd (fwrite (bytes_k64u (timeStamp context)) 8 f
    (snd (fwrite (literal_object HEADERTEXT) (sizeof_literal HEADERTEXT - 1) f w)))))))))))))))))))))))
  in
  exists bs, appended f bs w w' /\ (length bs <= 96)%nat /\
             (forall k, io_ok (12 + k) (replies w) ->
                        io_ok k (replies w') /\ bs = header_bytes context s).
Proof.
  intros w'. subst w'. step_fwrite w.
  exists (b ++ b0 ++ b1 ++ b2 ++ b3 ++ b4 ++ b5 ++ b6 ++ b7 ++ b8 ++ b9 ++ b10).
  split; [|split].
  - repeat (eapply appended_trans; [eassumption|]). assumption.
  - rewrite !length_app. cbn in L. lia.
  - intros k H. cbn [Nat.add] in H.
    repeat match goal with
    | Ek : forall k, io_ok (S k) (replies ?w) -> _, Hk : io_ok (S _) (replies ?w) |- _ =>
        let Hn := fresh "H" in
        destruct (Ek _ Hk) as [Hn ->]; clear Ek Hk
    end.
    split; [assumption|].
    unfold header_bytes, bytes_k64f, bytes_k64u, bytes_k32u.
    rewrite !firstn_le_split. reflexivity.
Qed.

(** ** One surface message *)

Lemma fopen_fail name w :
  open_fails w = true -> fopen name w = (None, set_replies (@tl _) w).
Proof.
  unfold open_fails, fopen. destruct (replies w) as [|[|k] rs]; try discriminate. reflexivity.
Qed.

Lemma fopen_ok name w :
  open_fails w = false ->
  fopen name w = (Some name, set_files (insert name []) (set_replies (@tl _) w)).
Proof.
  unfold open_fails, fopen. destruct (replies w) as [|[|k] rs]; try discriminate; reflexivity.
Qed.

Lemma io_ok_open n w : io_ok (S n) (replies w) -> open_fails w = false.
Proof.
  unfold open_fails, io_ok. destruct (replies w) as [|[|k] rs]; try reflexivity.
  intros H. inversion H; discriminate.
Qed.

Lemma handle_surface_fail context s w :
  open_fails w = true ->
  exists w',
    handle_surface context s w =
      ((set_count (Int.incr32 (count context)) context, Return), w') /\
    files w' = files w /\ measLog w' = measLog w /\ destroyed w' = destroyed w /\
    console w' =
      (console w ++ [received_line (Int.incr32 (count context)) s]) ++ ["Error opening file"].
Proof.
  intros Hfail. unfold handle_surface. rewrite !bind_eq.
  unfold printf, GetSystemTime. cbn [fst snd].
  rewrite fopen_fail by exact Hfail. cbn [fst snd].
  rewrite !bind_eq. cbn [fst snd]. rewrite ret_eq.
  eexists. split; [reflexivity|].
  split; [reflexivity|]. split; [reflexivity|]. split; [reflexivity|].
  unfold received_line.
  cbn [console set_console set_replies set_clock count set_count].
  f_equal.
Qed.

Lemma handle_surface_open context s w :
  open_fails w = false ->
  exists bs w',
    handle_surface context s w =
      ((set_count (Int.incr32 (count context)) context, Break), w') /\
    files w' = <[surface_path context w := bs]> (files w) /\
    (length bs <= 96 + Z.to_nat (Length s) * Z.to_nat (Width s * sizeof_k16s))%nat /\
    measLog w' = measLog w /\
    destroyed w' = destroyed w /\
    (surface_wf s -> io_ok (13 + Z.to_nat (Length s)) (replies w) -> bs = artifact context s).
Proof.
  intros Hopen. unfold handle_surface. rewrite !bind_eq.
  unfold printf, GetSystemTime, fclose. cbn [fst snd].
  rewrite fopen_ok by exact Hopen. cbn [fst snd].
  rewrite !bind_eq. rewrite !ret_eq. cbn [fst snd].
  set (ctx' := set_count _ context).
  set (path := data_filename _ _).
  set (w0 := set_files _ _) in *.
  destruct (header_written ctx' s path w0) as (hb & Ahdr & Lhdr & Ehdr).
  cbv zeta in *.
  match goal with
  | |- context [write_rows s (Width s) path ?idxs ?w] =>
      set (w3 := w) in *;
      destruct (write_rows_any s (Width s) path idxs w3) as (rb & Arows & Lrows & Erows);
      set (w4 := snd (write_rows s (Width s) path idxs w3)) in *
  end.
  exists (hb ++ rb). eexists. split; [reflexivity|].
  pose proof (appended_trans _ _ _ _ _ _ Ahdr Arows) as (Hf & Hm & Hd).
  change (files (set_console _ w4)) with (files w4).
  change (measLog (set_console _ w4)) with (measLog w4).
  change (destroyed (set_console _ w4)) with (destroyed w4).
  split; [|split; [|split; [|split]]].
  - rewrite Hf. subst w0. cbn [files set_files set_replies set_clock set_console].
    rewrite alter_insert_eq. unfold surface_path. subst path.
    change (hd epoch (clock _)) with (hd epoch (clock w)).
    change (count ctx') with (Int.incr32 (count context)). reflexivity.
  - rewrite length_app. rewrite length_seq in Lrows. lia.
  - rewrite Hm. reflexivity.
  - rewrite Hd. reflexivity.
  - intros Hwf Hok.
    assert (Hok0 : io_ok (12 + Z.to_nat (Length s)) (replies w0)).
    { subst w0. cbn [replies set_files set_replies set_clock set_console].
      apply io_ok_tl. exact Hok. }
    destruct (Ehdr _ Hok0) as [Hok3 ->].
    rewrite length_seq in Erows. rewrite (Erows Hok3).
    rewrite (rows_handed_over s Hwf). reflexivity.
Qed.

(** ** The loop over a dataset *)

Lemma last_cons_default {A} (a d : A) (l : list A) : List.last (a :: l) d = List.last l a.
Proof.
  revert a d. induction l as [|b l IH]; intros a d; [reflexivity|].
  change (List.last (a :: b :: l) d) with (List.last (b :: l) d).
  rewrite (IH b d), (IH b a). reflexivity.
Qed.

Lemma last_app_default {A} (l1 l2 : list A) (d : A) :
  List.last (l1 ++ l2) d = List.last l2 (List.last l1 d).
Proof.
  revert d. induction l1 as [|a l1 IH]; intros d; [reflexivity|].
  rewrite <- app_comm_cons, !last_cons_default. apply IH.
Qed.

Lemma handle_stamp_spec context stampMsg :
  handle_stamp context stampMsg =
    set_timeStamp (List.last (map timestamp stampMsg) (timeStamp context)) context.
Proof.
  unfold handle_stamp. revert context.
  induction stampMsg as [|st l IH]; intros context.
  - destruct context; reflexivity.
  - cbn [fold_left map]. rewrite IH, last_cons_default. reflexivity.
Qed.

Lemma handle_measurement_log context m : forall w,
  handle_measurement context m w =
    (tt, set_measLog
           (fun l => l ++ map (fun d => Printf.sprintf ("%4.0u;%4.0u; %.2f" +:+ CRLF)
                                          [Printf.UInt (count context); Printf.UInt (Id m);
                                           Printf.Double (value d)])
                              (measurements m)) w).
Proof.
  unfold handle_measurement.
  generalize (measurements m) as ds. intros ds.
  induction ds as [|d ds IH] using rev_ind; intros w.
  - destruct w. unfold set_measLog. cbn. rewrite app_nil_r. reflexivity.
  - rewrite fold_left_app. cbn [fold_left]. rewrite bind_eq, IH. cbn [fst snd].
    unfold fprintf_meas, set_measLog. cbn. rewrite map_app, app_assoc. reflexivity.
Qed.

(** What one message does to the context. *)
Lemma handle_msg_context context dataObj w :
  fst (fst (handle_msg context dataObj w)) =
    match dataObj with
    | GO_DATA_MESSAGE_TYPE_STAMP stampMsg =>
        set_timeStamp (List.last (map timestamp stampMsg) (timeStamp context)) context
    | GO_DATA_MESSAGE_TYPE_SURFACE _ => set_count (Int.incr32 (count context)) context
    | _ => context
    end.
Proof.
  destruct dataObj as [stampMsg|s|m|t]; cbn [handle_msg].
  - rewrite ret_eq. cbn [fst]. apply handle_stamp_spec.
  - destruct (open_fails w) eqn:E.
    + destruct (handle_surface_fail context s w E) as (w' & -> & _). reflexivity.
    + destruct (handle_surface_open context s w E) as (bs & w' & -> & _). reflexivity.
  - rewrite bind_eq. reflexivity.
  - reflexivity.
Qed.

Lemma handle_msg_count context dataObj w :
  count (fst (fst (handle_msg context dataObj w))) =
    if is_surface dataObj then Int.incr32 (count context) else count context.
Proof. rewrite handle_msg_context. destruct dataObj; reflexivity. Qed.

Lemma handle_msg_timeStamp context dataObj w :
  timeStamp (fst (fst (handle_msg context dataObj w))) =
    List.last (stamp_records [dataObj]) (timeStamp context).
Proof.
  rewrite handle_msg_context. destruct dataObj; cbn [stamp_records flat_map]; try reflexivity.
  rewrite app_nil_r. reflexivity.
Qed.

Lemma dispatch_count dataset : forall context w,
  Int.wrap 32 (count (fst (fst (dispatch context dataset w)))) =
    Int.wrap 32 (count context + surfaces_in (handled context dataset w)).
Proof.
  induction dataset as [|m rest IH]; intros context w.
  - cbn. f_equal. unfold surfaces_in. cbn. lia.
  - cbn [dispatch handled]. rewrite bind_eq.
    set (r := handle_msg context m w).
    pose proof (handle_msg_count context m w) as Hc. fold r in Hc.
    destruct (snd (fst r)).
    + rewrite IH, Hc. unfold surfaces_in. cbn [List.filter].
      destruct (is_surface m); cbn [length].
      * unfold Int.incr32, Int.wrap.
        rewrite Zplus_mod_idemp_l. f_equal. lia.
      * reflexivity.
    + rewrite ret_eq. cbn [fst]. rewrite Hc. unfold surfaces_in. cbn [List.filter].
      destruct (is_surface m); cbn [length].
      * unfold Int.incr32, Int.wrap. rewrite Z.mod_mod by lia. reflexivity.
      * f_equal. lia.
Qed.

Lemma wrap_range z : 0 <= Int.wrap 32 z < 2 ^ 32.
Proof. unfold Int.wrap. apply Z.mod_pos_bound. lia. Qed.

Lemma wrap_small z : 0 <= z < 2 ^ 32 -> Int.wrap 32 z = z.
Proof. intros H. unfold Int.wrap. apply Z.mod_small. exact H. Qed.

Lemma handle_msg_range context dataObj w :
  count_in_range context -> count_in_range (fst (fst (handle_msg context dataObj w))).
Proof.
  unfold count_in_range. rewrite handle_msg_count.
  destruct (is_surface dataObj); [intros _; apply wrap_range|trivial].
Qed.

Lemma dispatch_range dataset : forall context w,
  count_in_range context -> count_in_range (fst (fst (dispatch context dataset w))).
Proof.
  induction dataset as [|m rest IH]; intros context w H; [exact H|].
  cbn [dispatch]. rewrite bind_eq.
  pose proof (handle_msg_range context m w H) as H'.
  destruct (snd (fst (handle_msg context m w))); [apply IH; exact H'|exact H'].
Qed.

Lemma stamp_records_app l1 l2 :
  stamp_records (l1 ++ l2) = stamp_records l1 ++ stamp_records l2.
Proof. unfold stamp_records. rewrite !flat_map_concat_map, map_app, concat_app. reflexivity. Qed.

Lemma dispatch_timeStamp dataset : forall context w,
  timeStamp (fst (fst (dispatch context dataset w))) =
    List.last (stamp_records (handled context dataset w)) (timeStamp context).
Proof.
  induction dataset as [|m rest IH]; intros context w; [reflexivity|].
  cbn [dispatch handled]. rewrite bind_eq.
  pose proof (handle_msg_timeStamp context m w) as Ht.
  destruct (snd (fst (handle_msg context m w))).
  - rewrite IH, Ht.
    change (m :: handled ?c rest ?v) with ([m] ++ handled c rest v).
    rewrite stamp_records_app, last_app_default. reflexivity.
  - rewrite ret_eq. cbn [fst]. exact Ht.
Qed.

Lemma onData_context context dataset w :
  fst (fst (onData context dataset w)) = fst (fst (dispatch context dataset w)).
Proof.
  unfold onData. rewrite bind_eq.
  destruct (snd (fst (dispatch context dataset w))); [rewrite bind_eq|]; reflexivity.
Qed.

Lemma surfaces_in_app l1 l2 : surfaces_in (l1 ++ l2) = surfaces_in l1 + surfaces_in l2.
Proof. unfold surfaces_in. rewrite List.filter_app, length_app. lia. Qed.

Lemma surfaces_in_nonneg l : 0 <= surfaces_in l.
Proof. unfold surfaces_in. lia. Qed.

Lemma deliver_range datasets : forall context w,
  count_in_range context -> count_in_range (fst (deliver context datasets w)).
Proof.
  induction datasets as [|d rest IH]; intros context w H; [exact H|].
  cbn [deliver]. rewrite bind_eq. apply IH.
  rewrite onData_context. apply dispatch_range. exact H.
Qed.

Lemma deliver_count datasets : forall context w,
  Int.wrap 32 (count (fst (deliver context datasets w))) =
    Int.wrap 32 (count context + surfaces_in (handled_all context datasets w)).
Proof.
  induction datasets as [|d rest IH]; intros context w.
  - cbn. f_equal. unfold surfaces_in. cbn. lia.
  - cbn [deliver handled_all]. rewrite bind_eq, IH, surfaces_in_app.
    rewrite onData_context.
    unfold Int.wrap. rewrite Z.add_assoc.
    rewrite <- (Zplus_mod_idemp_l (count context + _)).
    rewrite <- (Zplus_mod_idemp_l (count (fst (fst (dispatch context d w))))).
    f_equal. f_equal. apply dispatch_count.
Qed.

Lemma deliver_timeStamp datasets : forall context w,
  timeStamp (fst (deliver context datasets w)) =
    List.last (stamp_records (handled_all context datasets w)) (timeStamp context).
Proof.
  induction datasets as [|d rest IH]; intros context w; [reflexivity|].
  cbn [deliver handled_all]. rewrite bind_eq, IH, stamp_records_app, last_app_default.
  rewrite onData_context, dispatch_timeStamp. reflexivity.
Qed.

(** ** The layout of the file *)

Lemma length_header_bytes context s : length (header_bytes context s) = 96%nat.
Proof.
  unfold header_bytes, bytes_k64u, bytes_k32u, bytes_k64f.
  rewrite !length_app, !length_le_split. reflexivity.
Qed.

Lemma length_flat_map_const {A B} (g : A -> list B) (n : nat) (l : list A) :
  Forall (fun a => length (g a) = n) l -> length (flat_map g l) = (length l * n)%nat.
Proof.
  induction 1 as [|a l Ha _ IH]; [reflexivity|].
  cbn [flat_map length]. rewrite length_app, IH, Ha. lia.
Qed.

Lemma length_row_data s :
  surface_wf s -> Z.of_nat (length (row_data s)) = 2 * Width s * Length s.
Proof.
  intros (Hw & Hl & Hrows & Hall). unfold row_data.
  rewrite (length_flat_map_const bytes_row (2 * Z.to_nat (Width s))).
  - rewrite Hrows. lia.
  - eapply Forall_impl; [exact Hall|]. cbn beta. intros r Hr.
    rewrite length_bytes_row, Hr. reflexivity.
Qed.

Lemma row_data_concat s : row_data s = flat_map bytes_k16s (concat (rows s)).
Proof.
  unfold row_data, bytes_row. induction (rows s) as [|r l IH]; [reflexivity|].
  cbn [flat_map concat]. rewrite IH, flat_map_app. reflexivity.
Qed.

Lemma length_concat_uniform {A} (n : nat) (ls : list (list A)) :
  Forall (fun l => length l = n) ls -> length (concat ls) = (length ls * n)%nat.
Proof.
  induction 1 as [|l ls Hl _ IH]; [reflexivity|].
  cbn [concat length]. rewrite length_app, IH, Hl. lia.
Qed.

Lemma nth_concat_uniform {A} (n : nat) (d : A) (ls : list (list A)) :
  Forall (fun l => length l = n) ls ->
  forall r c, (r < length ls)%nat -> (c < n)%nat ->
  nth (r * n + c) (concat ls) d = nth c (nth r ls []) d.
Proof.
  induction 1 as [|l ls Hl _ IH]; intros r c Hr Hc; [cbn in Hr; lia|].
  cbn [concat]. destruct r as [|r].
  - cbn [Nat.mul Nat.add nth]. apply app_nth1. lia.
  - cbn [nth]. replace (S r * n + c)%nat with (length l + (r * n + c))%nat by lia.
    rewrite app_nth2_plus. apply IH; [cbn in Hr; lia|exact Hc].
Qed.

Lemma field_sample (l : list Z) (i : nat) (tail_ : list byte) :
  (i < length l)%nat ->
  field (2 * i) 2 (flat_map bytes_k16s l ++ tail_) = bytes_k16s (nth i l 0).
Proof.
  revert i. induction l as [|v l IH]; intros i Hi; [cbn in Hi; lia|].
  destruct i as [|i].
  - reflexivity.
  - replace (2 * S i)%nat with (S (S (2 * i))) by lia.
    cbn [flat_map nth]. unfold field in *. cbn [bytes_k16s le_split app skipn].
    apply IH. cbn in Hi. lia.
Qed.

Lemma field_after (pre : list byte) (off len : nat) (bs : list byte) :
  field (length pre + off) len (pre ++ bs) = field off len bs.
Proof.
  unfold field. f_equal. induction pre as [|b pre IH]; [reflexivity|exact IH].
Qed.

Lemma signed16_of_split v :
  - 32768 <= v < 32768 -> Int.signed 16 (le_combine (bytes_k16s v)) = v.
Proof.
  intros Hv. unfold bytes_k16s. rewrite le_combine_split.
  change (2 ^ (Z.of_nat 2 * 8)) with 65536.
  unfold Int.signed, Int.wrap. change (2 ^ 16) with 65536. change (2 ^ (16 - 1)) with 32768.
  rewrite Z.mod_mod by lia.
  destruct (Z.ltb_spec (v mod 65536) 32768) as [H|H].
  - destruct (Z_lt_le_dec v 0) as [Hn|Hp].
    + rewrite <- (Z.mod_add v 1 65536) in H by lia. rewrite Z.mod_small in H by lia. lia.
    + apply Z.mod_small. lia.
  - destruct (Z_lt_le_dec v 0) as [Hn|Hp].
    + rewrite <- (Z.mod_add v 1 65536) by lia. rewrite Z.mod_small by lia. lia.
    + rewrite Z.mod_small in H by lia. lia.
Qed.

(** The header fields, at the offsets of the file format. *)
Lemma header_fields context s (rest : list byte) :
  let bs := header_bytes context s ++ rest in
  field 0 16 bs = bytes_of_chars HEADERTEXT /\
  field 16 8 bs = bytes_k64u (timeStamp context) /\
  field 24 4 bs = bytes_k32u (Width s) /\
  field 28 4 bs = bytes_k32u (Length s) /\
  field 32 8 bs = bytes_k64f (UM_TO_MM (XOffset s)) /\
  field 40 8 bs = bytes_k64f (NM_TO_MM (XResolution s)) /\
  field 48 8 bs = bytes_k64f (UM_TO_MM (YOffset s)) /\
  field 56 8 bs = bytes_k64f (NM_TO_MM (YResolution s)) /\
  field 64 8 bs = bytes_k64f (UM_TO_MM (ZOffset s)) /\
  field 72 8 bs = bytes_k64f (NM_TO_MM (ZResolution s)) /\
  field 80 8 bs = bytes_k64f (frameRate context) /\
  field 88 8 bs = bytes_k64f (exposureTime context).
Proof.
  intros bs. subst bs.
  unfold header_bytes, bytes_k64f, bytes_k64u, bytes_k32u.
  generalize (K64f.bits (UM_TO_MM (XOffset s))) (K64f.bits (NM_TO_MM (XResolution s)))
             (K64f.bits (UM_TO_MM (YOffset s))) (K64f.bits (NM_TO_MM (YResolution s)))
             (K64f.bits (UM_TO_MM (ZOffset s))) (K64f.bits (NM_TO_MM (ZResolution s)))
             (K64f.bits (frameRate context)) (K64f.bits (exposureTime context))
             (timeStamp context) (Width s) (Length s).
  intros. repeat split; reflexivity.
Qed.

Lemma surface_written context s w :
  surface_wf s -> io_ok (13 + Z.to_nat (Length s)) (replies w) ->
  exists w',
    handle_surface context s w =
      ((set_count (Int.incr32 (count context)) context, Break), w') /\
    files w' !! surface_path context w = Some (artifact context s).
Proof.
  intros Hwf Hok.
  destruct (handle_surface_open context s w (io_ok_open _ _ Hok))
    as (bs & w' & Heq & Hf & _ & _ & _ & Hbs).
  exists w'. split; [exact Heq|].
  rewrite Hf, lookup_insert_eq, (Hbs Hwf Hok). reflexivity.
Qed.

Lemma main_setup_context stack fr ex w0 context w :
  main_setup stack fr ex w0 = (Some context, w) ->
  context = set_camera fr ex (set_count 0 stack).
Proof.
  unfold main_setup. rewrite !bind_eq.
  unfold GetSystemTime, printf at 1. cbn [fst snd].
  match goal with |- context [fopen_meas ?n ?v] => destruct (fopen_meas n v) as [[f|] w1] end;
    cbn [fst snd]; rewrite !bind_eq, ret_eq; intros H; inversion H; reflexivity.
Qed.

Lemma deliver_app ds1 : forall ds2 context w,
  deliver context (ds1 ++ ds2) w =
    deliver (fst (deliver context ds1 w)) ds2 (snd (deliver context ds1 w)).
Proof.
  induction ds1 as [|d ds1 IH]; intros ds2 context w; [reflexivity|].
  cbn [app deliver]. rewrite !bind_eq. apply IH.
Qed.

Lemma handled_all_app ds1 : forall ds2 context w,
  handled_all context (ds1 ++ ds2) w =
    handled_all context ds1 w ++
    handled_all (fst (deliver context ds1 w)) ds2 (snd (deliver context ds1 w)).
Proof.
  induction ds1 as [|d ds1 IH]; intros ds2 context w; [reflexivity|].
  cbn [app handled_all deliver]. rewrite bind_eq, IH, app_assoc. reflexivity.
Qed.

Lemma handled_break dataset : forall context w,
  snd (fst (dispatch context dataset w)) = Break -> handled context dataset w = dataset.
Proof.
  induction dataset as [|m rest IH]; intros context w; [reflexivity|].
  cbn [dispatch handled]. rewrite bind_eq.
  destruct (snd (fst (handle_msg context m w))) eqn:E.
  - intros H. rewrite (IH _ _ H). reflexivity.
  - rewrite ret_eq. cbn [fst]. rewrite E. discriminate.
Qed.

Lemma dispatch_app pre : forall rest context w,
  snd (fst (dispatch context pre w)) = Break ->
  dispatch context (pre ++ rest) w =
    dispatch (fst (fst (dispatch context pre w))) rest (snd (dispatch context pre w)).
Proof.
  induction pre as [|m pre IH]; intros rest context w; [reflexivity|].
  cbn [app dispatch]. rewrite !bind_eq.
  destruct (snd (fst (handle_msg context m w))) eqn:E.
  - apply IH.
  - rewrite ret_eq. cbn [fst]. rewrite E. discriminate.
Qed.

(** ** Lengths of formatted fields *)

Lemma length_append (a b : string) :
  String.length (a +:+ b) = (String.length a + String.length b)%nat.
Proof. induction a as [|c a IH]; simpl; [reflexivity|f_equal; exact IH]. Qed.

Lemma length_replicate_char n c : String.length (Printf.replicate_char n c) = n.
Proof. induction n as [|n IH]; simpl; [reflexivity|f_equal; exact IH]. Qed.

Lemma length_pad_left w c s :
  String.length (Printf.pad_left w c s) = Nat.max w (String.length s).
Proof. unfold Printf.pad_left. rewrite length_append, length_replicate_char. lia. Qed.

Lemma length_dec_two_digits k :
  0 <= k < 100 -> (String.length (Printf.dec k) <= 2)%nat.
Proof.
  intros Hk. unfold Printf.dec. cbn [Printf.dec_aux].
  destruct (Z.ltb_spec k 10) as [Hlt|Hge]; [cbn; lia|].
  assert (Hlog : 3 <= Z.log2 k).
  { change 3 with (Z.log2 8). apply Z.log2_le_mono. lia. }
  destruct (Z.to_nat (Z.log2 k)) as [|fuel] eqn:E; [lia|].
  cbn [Printf.dec_aux].
  destruct (Z.ltb_spec (k / 10) 10) as [_|Hbig]; [cbn; lia|].
  exfalso. assert (k / 10 < 10) by (apply Z.div_lt_upper_bound; lia). lia.
Qed.

Lemma fmt_f_two_decimals s m e :
  exists whole frac,
    Printf.fmt_f two_decimals (S754_finite s m e) = whole +:+ "." +:+ frac /\
    String.length frac = 2%nat.
Proof.
  exists ((if s then "-" else "") +:+ Printf.dec (Printf.scaled_round m e 2 / 10 ^ Z.of_nat 2)).
  exists (Printf.pad_left 2 "0" (Printf.dec (Printf.scaled_round m e 2 mod 10 ^ Z.of_nat 2))).
  split.
  - unfold Printf.fmt_f, two_decimals, Printf.pad_left at 1.
    cbn [Printf.precision Printf.width Printf.zero_flag Nat.sub Printf.replicate_char].
    destruct s; reflexivity.
  - rewrite length_pad_left.
    pose proof (length_dec_two_digits (Printf.scaled_round m e 2 mod 10 ^ Z.of_nat 2)) as H.
    assert (0 <= Printf.scaled_round m e 2 mod 10 ^ Z.of_nat 2 < 100).
    { apply Z.mod_pos_bound. reflexivity. }
    lia.
Qed.

(** ** The example inputs *)

Lemma grid_wf : surface_wf Example.grid.
Proof. repeat split; try (cbn; lia). repeat constructor. Qed.

Lemma quiet_ok n : io_ok n (replies Example.quiet).
Proof. unfold io_ok. cbn [replies Example.quiet]. rewrite firstn_nil. constructor. Qed.

(** ** Double arithmetic *)

Lemma digits2_size p : digits2_pos p = Pos.size p.
Proof. induction p as [p IH|p IH|]; cbn; rewrite ?IH; reflexivity. Qed.

Lemma digits2_bounds p :
  2 ^ (Z.pos (digits2_pos p) - 1) <= Z.pos p < 2 ^ Z.pos (digits2_pos p).
Proof.
  rewrite digits2_size. split.
  - pose proof (Pos.size_le p) as H.
    apply Pos2Z.pos_le_pos in H. rewrite Pos2Z.inj_pow in H.
    change (Z.pos p~0) with (2 * Z.pos p) in H.
    replace (Z.pos (Pos.size p)) with (Z.succ (Z.pos (Pos.size p) - 1)) in H by lia.
    rewrite Z.pow_succ_r in H by lia. change (Z.pos 2) with 2 in H. lia.
  - pose proof (Pos.size_gt p) as H.
    apply Pos2Z.pos_lt_pos in H. rewrite Pos2Z.inj_pow in H. exact H.
Qed.

Lemma digits2_of_bounds p d :
  2 ^ (Z.pos d - 1) <= Z.pos p < 2 ^ Z.pos d -> digits2_pos p = d.
Proof.
  intros [Hl Hu]. pose proof (digits2_bounds p) as [Hl' Hu'].
  set (d' := digits2_pos p) in *.
  destruct (Z.lt_trichotomy (Z.pos d') (Z.pos d)) as [H|[H|H]].
  - exfalso. assert (2 ^ Z.pos d' <= 2 ^ (Z.pos d - 1)) by (apply Z.pow_le_mono_r; lia). lia.
  - injection H as H. exact H.
  - exfalso. assert (2 ^ Z.pos d <= 2 ^ (Z.pos d' - 1)) by (apply Z.pow_le_mono_r; lia). lia.
Qed.

Lemma iter_xO p n : Z.pos (Pos.iter xO p n) = Z.pos p * 2 ^ Z.pos n.
Proof.
  induction n as [|n IH] using Pos.peano_ind.
  - cbn [Pos.iter]. change (2 ^ 1) with 2. lia.
  - rewrite Pos.iter_succ, Pos2Z.inj_succ, Z.pow_succ_r by lia.
    change (Z.pos (Pos.iter xO p n)~0) with (2 * Z.pos (Pos.iter xO p n)). lia.
Qed.

Lemma normal_digits m : normal m -> digits2_pos m = 53%positive.
Proof. intros H. apply digits2_of_bounds. exact H. Qed.

Lemma fexp_normal e : - 1074 <= e -> fexp 53 1024 (53 + e) = e.
Proof. intros H. unfold fexp, emin. lia. Qed.

(** Rounding a mantissa that needs no rounding. *)
Lemma binary_round_aux_exact s m e :
  normal m -> - 1074 <= e <= 971 ->
  binary_round_aux 53 1024 s (Z.pos m) e loc_Exact = S754_finite s m e.
Proof.
  intros Hm He. unfold binary_round_aux, shr_fexp.
  cbn [Zdigits2 shr_record_of_loc]. rewrite (normal_digits m Hm).
  rewrite fexp_normal by lia. rewrite Z.sub_diag. cbn [shr shr_m loc_of_shr_record round_nearest_even].
  cbn [Zdigits2 shr_record_of_loc]. rewrite (normal_digits m Hm).
  rewrite fexp_normal by lia. rewrite Z.sub_diag. cbn [shr shr_m].
  destruct (Z.leb_spec e (1024 - 53)); [reflexivity|lia].
Qed.
Lemma new_location_ok d r : 0 < d -> 0 <= r < d -> loc_ok d r (new_location d r).
Proof.
  intros Hd Hr. unfold new_location, new_location_even, new_location_odd.
  destruct (Z.even d) eqn:Ev.
  - destruct (Z.eqb_spec r 0) as [E|E]; [exact E|].
    destruct (Z.compare_spec (2 * r) d); cbn [loc_ok]; lia.
  - destruct (Z.eqb_spec r 0) as [E|E]; [exact E|].
    assert (Hodd : Z.Odd d) by (apply Z.odd_spec; rewrite <- Z.negb_even, Ev; reflexivity).
    destruct Hodd as [k Hk].
    destruct (Z.compare_spec (2 * r + 1) d); cbn [loc_ok]; lia.
Qed.

Lemma loc_of_record m l : loc_of_shr_record (shr_record_of_loc m l) = l.
Proof. destruct l as [|[| |]]; reflexivity. Qed.

Lemma shr_m_of_loc m l : shr_m (shr_record_of_loc m l) = m.
Proof. destruct l as [|[| |]]; reflexivity. Qed.

(** The last step of the rounding: a rounded mantissa of 53 bits, or 2^53. *)
Lemma shr_fexp_final s (n : positive) e :
  2 ^ 52 <= Z.pos n <= 2 ^ 53 -> - 1074 <= e <= 970 ->
  exists m k,
    (let '(mrs, e'') := shr_fexp 53 1024 (Z.pos n) e loc_Exact in
     match shr_m mrs with
     | Z0 => S754_zero s
     | Z.pos m => if e'' <=? 1024 - 53 then S754_finite s m e'' else S754_infinity s
     | Z.neg _ => S754_nan
     end) = S754_finite s m (e + k) /\
    normal m /\ 0 <= k <= 1 /\ Z.pos m * 2 ^ k = Z.pos n.
Proof.
  intros Hn He.
  destruct (Z.eq_dec (Z.pos n) (2 ^ 53)) as [E|E].
  - assert (En : n = 9007199254740992%positive) by lia. subst n.
    exists 4503599627370496%positive, 1.
    split; [|split; [|split]]; try (unfold normal; lia); try reflexivity.
    unfold shr_fexp. change (Zdigits2 (Z.pos 9007199254740992)) with 54.
    replace (fexp 53 1024 (54 + e)) with (e + 1) by (unfold fexp, emin; lia).
    replace (e + 1 - e) with 1 by lia. cbn [shr iter_pos shr_record_of_loc shr_1 shr_m].
    destruct (Z.leb_spec (e + 1) (1024 - 53)); [reflexivity|lia].
  - assert (Hnorm : normal n) by (unfold normal; lia).
    exists n, 0. split; [|split; [exact Hnorm|split; lia]].
    unfold shr_fexp. cbn [Zdigits2]. rewrite (normal_digits n Hnorm).
    rewrite fexp_normal by lia. rewrite Z.sub_diag.
    cbn [shr shr_record_of_loc shr_m]. rewrite Z.add_0_r.
    destruct (Z.leb_spec e (1024 - 53)); [reflexivity|lia].
Qed.

(** Rounding to nearest, ties to even, stays within half a unit. *)
Lemma round_nearest_even_ok d r q l :
  0 < d -> 0 <= r < d -> loc_ok d r l -> 0 < q ->
  let n := round_nearest_even q l in
  (n = q \/ n = q + 1) /\ 2 * Z.abs (q * d + r - n * d) <= d.
Proof.
  intros Hd Hr Hl Hq n. subst n.
  destruct l as [|[| |]]; cbn [round_nearest_even loc_ok] in *.
  - split; [left; reflexivity|]. lia.
  - destruct (Z.even q); (split; [auto|]); lia.
  - split; [left; reflexivity|]. lia.
  - split; [right; reflexivity|]. lia.
Qed.

(** The first step of the rounding of a quotient of 53 or 54 bits: at most
    one bit is shifted out, and the location follows. *)
Lemma shr_fexp_first (q : positive) e l d r :
  2 ^ 52 <= Z.pos q < 2 ^ 54 -> - 1074 <= e ->
  0 < d -> 0 <= r < d -> loc_ok d r l ->
  exists mrs p j,
    shr_fexp 53 1024 (Z.pos q) e l = (mrs, e + j) /\
    shr_m mrs = Z.pos p /\ normal p /\ 0 <= j <= 1 /\
    exists r', 0 <= r' < 2 ^ j * d /\ loc_ok (2 ^ j * d) r' (loc_of_shr_record mrs) /\
               Z.pos q * d + r = Z.pos p * (2 ^ j * d) + r'.
Proof.
  intros Hq He Hd Hr Hl.
  destruct (Z.lt_ge_cases (Z.pos q) (2 ^ 53)) as [Hlt|Hge].
  - assert (Hn : normal q) by (unfold normal; lia).
    exists (shr_record_of_loc (Z.pos q) l), q, 0.
    split; [|split; [apply shr_m_of_loc|split; [exact Hn|split; [lia|]]]].
    + unfold shr_fexp. cbn [Zdigits2]. rewrite (normal_digits q Hn).
      rewrite fexp_normal by lia. rewrite Z.sub_diag. cbn [shr]. rewrite Z.add_0_r. reflexivity.
    + exists r. rewrite loc_of_record. change (2 ^ 0) with 1. rewrite !Z.mul_1_l.
      split; [exact Hr|split; [exact Hl|reflexivity]].
  - assert (Hdig : digits2_pos q = 54%positive) by (apply digits2_of_bounds; lia).
    assert (Hsh : shr_fexp 53 1024 (Z.pos q) e l = (shr_1 (shr_record_of_loc (Z.pos q) l), e + 1)).
    { unfold shr_fexp. cbn [Zdigits2]. rewrite Hdig.
      replace (fexp 53 1024 (54 + e)) with (e + 1) by (unfold fexp, emin; lia).
      replace (e + 1 - e) with 1 by lia. reflexivity. }
    change (2 ^ 1) with 2.
    destruct q as [p|p|]; [| |lia].
    + exists (shr_1 (shr_record_of_loc (Z.pos p~1) l)), p, 1.
      split; [exact Hsh|].
      split; [destruct l as [|[| |]]; reflexivity|].
      split; [unfold normal; lia|]. split; [lia|].
      exists (d + r). change (2 ^ 1) with 2.
      split; [lia|]. split; [|lia].
      destruct l as [|[| |]]; cbn [loc_ok loc_of_shr_record shr_1 shr_record_of_loc orb] in Hl |- *; lia.
    + exists (shr_1 (shr_record_of_loc (Z.pos p~0) l)), p, 1.
      split; [exact Hsh|].
      split; [destruct l as [|[| |]]; reflexivity|].
      split; [unfold normal; lia|]. split; [lia|].
      exists r. change (2 ^ 1) with 2.
      split; [lia|]. split; [|lia].
      destruct l as [|[| |]]; cbn [loc_ok loc_of_shr_record shr_1 shr_record_of_loc orb] in Hl |- *; lia.
Qed.

(** Rounding the quotient [q] with remainder [r] of a division by [d]: the
    result is a normal double within half a unit in the last place of
    [q + r/d]. *)
Lemma binary_round_aux_quotient s (q : positive) e l d r :
  2 ^ 52 <= Z.pos q < 2 ^ 54 -> - 1074 <= e <= 968 ->
  0 < d -> 0 <= r < d -> loc_ok d r l ->
  exists m k,
    binary_round_aux 53 1024 s (Z.pos q) e l = S754_finite s m (e + k) /\
    normal m /\ 0 <= k <= 2 /\
    2 * Z.abs (Z.pos q * d + r - Z.pos m * 2 ^ k * d) <= 2 ^ k * d.
Proof.
  intros Hq He Hd Hr Hl.
  destruct (shr_fexp_first q e l d r Hq ltac:(lia) Hd Hr Hl)
    as (mrs & p & j & Hsh & Hm & Hp & Hj & r' & Hr' & Hl' & Heq).
  unfold binary_round_aux. rewrite Hsh, Hm.
  assert (Hd' : 0 < 2 ^ j * d) by (assert (0 < 2 ^ j) by (apply Z.pow_pos_nonneg; lia); nia).
  destruct (round_nearest_even_ok (2 ^ j * d) r' (Z.pos p) _ Hd' Hr' Hl' ltac:(lia))
    as (Hn & Herr).
  set (n := round_nearest_even (Z.pos p) (loc_of_shr_record mrs)) in *.
  assert (Hnpos : 2 ^ 52 <= n <= 2 ^ 53) by (unfold normal in Hp; lia).
  destruct n as [|n|n]; try lia.
  destruct (shr_fexp_final s n (e + j) Hnpos ltac:(lia)) as (m & k & Hfin & Hnm & Hk & Hmk).
  exists m, (j + k). split; [|split; [exact Hnm|split; [lia|]]].
  - rewrite Hfin. f_equal. lia.
  - rewrite Z.pow_add_r by lia. rewrite Heq.
    replace (Z.pos m * (2 ^ j * 2 ^ k) * d) with (Z.pos m * 2 ^ k * (2 ^ j * d)) by ring.
    rewrite Hmk.
    assert (1 <= 2 ^ k) by (assert (0 < 2 ^ k) by (apply Z.pow_pos_nonneg; lia); lia).
    nia.
Qed.

(** Division of two normal doubles whose quotient is far from the ends of
    the exponent range. *)
Lemma SFdiv_normal s1 m1 e1 s2 m2 e2 :
  normal m1 -> normal m2 -> - 1074 <= e1 - e2 - 53 <= 968 ->
  exists m k,
    SFdiv 53 1024 (S754_finite s1 m1 e1) (S754_finite s2 m2 e2) =
      S754_finite (xorb s1 s2) m (e1 - e2 - 53 + k) /\
    normal m /\ 0 <= k <= 2 /\
    2 * Z.abs (Z.pos m1 * 2 ^ 53 - Z.pos m * 2 ^ k * Z.pos m2) <= 2 ^ k * Z.pos m2.
Proof.
  intros H1 H2 He. unfold SFdiv, SFdiv_core_binary. cbn [Zdigits2].
  rewrite (normal_digits m1 H1), (normal_digits m2 H2).
  replace (fexp 53 1024 (53 + e1 - (53 + e2))) with (e1 - e2 - 53)
    by (unfold fexp, emin; lia).
  replace (Z.min (e1 - e2 - 53) (e1 - e2)) with (e1 - e2 - 53) by lia.
  replace (e1 - e2 - (e1 - e2 - 53)) with 53 by lia.
  cbv iota beta. rewrite Z.shiftl_mul_pow2 by lia.
  pose proof (Z_div_mod (Z.pos m1 * 2 ^ 53) (Z.pos m2) ltac:(lia)) as Hdiv.
  destruct (Z.div_eucl (Z.pos m1 * 2 ^ 53) (Z.pos m2)) as [q r].
  destruct Hdiv as [Hqr Hr].
  assert (Hq : 2 ^ 52 <= q < 2 ^ 54).
  { unfold normal in H1, H2. change (2 ^ 54) with (2 * 2 ^ 53). change (2 ^ 53) with (2 * 2 ^ 52) in *.
    set (P := 2 ^ 52) in *. assert (0 < P) by (subst P; lia). clearbody P. nia. }
  destruct q as [|q|q]; try lia.
  assert (Hpos : 0 < Z.pos m2) by lia.
  destruct (binary_round_aux_quotient (xorb s1 s2) q (e1 - e2 - 53)
              (new_location (Z.pos m2) r) (Z.pos m2) r Hq He Hpos Hr
              (new_location_ok (Z.pos m2) r Hpos Hr))
    as (m & k & Heq & Hm & Hk & Herr).
  exists m, k. split; [exact Heq|]. split; [exact Hm|]. split; [exact Hk|].
  rewrite Hqr. replace (Z.pos m2 * Z.pos q + r) with (Z.pos q * Z.pos m2 + r) by ring.
  exact Herr.
Qed.

(** An integer of at most 53 bits is converted without rounding. *)
Lemma binary_normalize_normal (p : positive) s :
  Z.pos p < 2 ^ 53 ->
  exists m a,
    binary_round 53 1024 s p 0 = S754_finite s m (- a) /\
    normal m /\ 0 <= a <= 52 /\ Z.pos m = Z.pos p * 2 ^ a.
Proof.
  intros Hp. unfold binary_round.
  pose proof (digits2_bounds p) as Hd.
  set (d := digits2_pos p) in *.
  assert (Hd53 : Z.pos d <= 53).
  { destruct (Z.le_gt_cases (Z.pos d) 53) as [H|H]; [exact H|].
    assert (2 ^ 53 <= 2 ^ (Z.pos d - 1)) by (apply Z.pow_le_mono_r; lia). lia. }
  rewrite Z.add_0_r.
  replace (fexp 53 1024 (Z.pos d)) with (Z.pos d - 53) by (unfold fexp, emin; lia).
  unfold shl_align. rewrite Z.sub_0_r.
  destruct (Z.eq_dec (Z.pos d) 53) as [E|E].
  - replace (Z.pos d - 53) with 0 by lia. cbv iota beta.
    assert (Hn : normal p) by (unfold normal; rewrite E in Hd; exact Hd).
    exists p, 0. rewrite binary_round_aux_exact by (try exact Hn; lia).
    split; [reflexivity|]. split; [exact Hn|]. split; [lia|]. change (2 ^ 0) with 1. lia.
  - assert (Hneg : Z.pos d - 53 = Z.neg (Z.to_pos (53 - Z.pos d))).
    { rewrite <- Pos2Z.opp_pos, Z2Pos.id by lia. lia. }
    rewrite Hneg. cbv iota beta.
    set (a := Z.to_pos (53 - Z.pos d)) in *.
    assert (Ha : Z.pos a = 53 - Z.pos d) by (subst a; rewrite Z2Pos.id; lia).
    assert (Hval : Z.pos (Pos.iter xO p a) = Z.pos p * 2 ^ Z.pos a) by apply iter_xO.
    assert (Hn : normal (Pos.iter xO p a)).
    { unfold normal. rewrite Hval, Ha.
      destruct Hd as [Hl Hu].
      assert (H52 : 2 ^ 52 = 2 ^ (Z.pos d - 1) * 2 ^ (53 - Z.pos d))
        by (rewrite <- Z.pow_add_r by lia; f_equal; lia).
      assert (H53 : 2 ^ 53 = 2 ^ Z.pos d * 2 ^ (53 - Z.pos d))
        by (rewrite <- Z.pow_add_r by lia; f_equal; lia).
      assert (HX : 0 < 2 ^ (53 - Z.pos d)) by (apply Z.pow_pos_nonneg; lia).
      rewrite H52, H53.
      set (X := 2 ^ (53 - Z.pos d)) in *. set (L := 2 ^ (Z.pos d - 1)) in *.
      set (U := 2 ^ Z.pos d) in *. clearbody X L U. split; nia. }
    exists (Pos.iter xO p a), (Z.pos a).
    rewrite binary_round_aux_exact by (try exact Hn; lia).
    split; [reflexivity|]. split; [exact Hn|]. split; [lia|]. exact Hval.
Qed.

Lemma of_Z_normal (p : positive) (s : bool) :
  Z.pos p < 2 ^ 53 ->
  exists m a,
    K64f.of_Z (if s then Z.neg p else Z.pos p) = S754_finite s m (- a) /\
    normal m /\ 0 <= a <= 52 /\ Z.pos m = Z.pos p * 2 ^ a.
Proof.
  intros Hp. destruct (binary_normalize_normal p s Hp) as (m & a & H).
  exists m, a. destruct s; exact H.
Qed.

Lemma quotient_nearest_pos (p : positive) (s : bool) den :
  Z.pos p < 2 ^ 53 -> 2 <= den < 2 ^ 53 ->
  nearest_to (K64f.div (K64f.of_Z (if s then Z.neg p else Z.pos p)) (K64f.of_Z den))
             (if s then Z.neg p else Z.pos p) den.
Proof.
  intros Hp Hden.
  destruct (of_Z_normal p s Hp) as (m1 & a & -> & Hm1 & Ha & Hv1).
  destruct den as [|d|d]; try lia.
  destruct (of_Z_normal d false ltac:(lia)) as (m2 & b & -> & Hm2 & Hb & Hv2).
  assert (Hb51 : b <= 51).
  { destruct (Z.eq_dec b 52) as [->|]; [|lia]. unfold normal in Hm2.
    change (2 ^ 53) with (2 * 2 ^ 52) in *. lia. }
  destruct (SFdiv_normal s m1 (- a) false m2 (- b) Hm1 Hm2 ltac:(lia))
    as (m & k & Heq & Hm & Hk & Herr).
  unfold K64f.div, K64f.prec, K64f.emax. rewrite Heq. cbn [nearest_to].
  split; [destruct s; reflexivity|]. split; [exact Hm|]. split; [lia|].
  replace (Z.abs (if s then Z.neg p else Z.pos p)) with (Z.pos p) by (destruct s; reflexivity).
  rewrite Hv1, Hv2 in Herr.
  set (ne := - (- a - - b - 53 + k)).
  assert (Hne : 0 <= ne) by (subst ne; lia).
  assert (Hpow : 2 ^ a * 2 ^ 53 = 2 ^ ne * (2 ^ k * 2 ^ b)).
  { rewrite <- !Z.pow_add_r by lia. f_equal. subst ne. lia. }
  assert (HT : 0 < 2 ^ k * 2 ^ b).
  { apply Z.mul_pos_pos; apply Z.pow_pos_nonneg; lia. }
  set (T := 2 ^ k * 2 ^ b) in *.
  replace (Z.pos p * 2 ^ a * 2 ^ 53 - Z.pos m * 2 ^ k * (Z.pos d * 2 ^ b))
    with ((Z.pos p * 2 ^ ne - Z.pos m * Z.pos d) * T) in Herr
    by (rewrite <- (Z.mul_assoc (Z.pos p) (2 ^ a) (2 ^ 53)), Hpow; subst T; ring).
  replace (2 ^ k * (Z.pos d * 2 ^ b)) with (Z.pos d * T) in Herr by (subst T; ring).
  rewrite Z.abs_mul, (Z.abs_eq T) in Herr by lia.
  set (A := Z.abs (Z.pos p * 2 ^ ne - Z.pos m * Z.pos d)) in *.
  clearbody A T. nia.
Qed.

(** The quotient of two integers in double arithmetic is the double nearest
    to the quotient of the integers. *)
Lemma quotient_nearest num den :
  Z.abs num < 2 ^ 53 -> 2 <= den < 2 ^ 53 ->
  nearest_to (K64f.div (K64f.of_Z num) (K64f.of_Z den)) num den.
Proof.
  intros Hn Hd. destruct num as [|p|p].
  - destruct den as [|d|d]; try lia.
    destruct (of_Z_normal d false ltac:(lia)) as (m2 & b & -> & _).
    cbn. split; reflexivity.
  - apply (quotient_nearest_pos p false den); lia.
  - apply (quotient_nearest_pos p true den); lia.
Qed.

(** A normal double in the exponent range, and zero, are read back from
    their bits. *)
Lemma k64f_of_bits_normal s m e :
  normal m -> - 1074 <= e <= 971 ->
  0 <= K64f.bits (S754_finite s m e) < 2 ^ 64 /\
  k64f_of_bits (K64f.bits (S754_finite s m e)) = S754_finite s m e.
Proof.
  intros Hm He. unfold normal in Hm. unfold K64f.bits.
  destruct (Z.leb_spec (2 ^ 52) (Z.pos m)) as [_|H]; [|lia].
  set (b := K64f.sign_bit s + (e + 1075) * 2 ^ 52 + (Z.pos m - 2 ^ 52)).
  assert (Hs : K64f.sign_bit s = (if s then 2 ^ 11 else 0) * 2 ^ 52) by (destruct s; reflexivity).
  assert (Hdiv : b / 2 ^ 52 = (if s then 2 ^ 11 else 0) + (e + 1075)).
  { symmetry. apply (Z.div_unique_pos b (2 ^ 52) _ (Z.pos m - 2 ^ 52)).
    - change (2 ^ 53) with (2 * 2 ^ 52) in Hm. lia.
    - subst b. rewrite Hs. ring. }
  assert (Hmod : b mod 2 ^ 52 = Z.pos m - 2 ^ 52).
  { symmetry. apply (Z.mod_unique_pos b (2 ^ 52) ((if s then 2 ^ 11 else 0) + (e + 1075))).
    - change (2 ^ 53) with (2 * 2 ^ 52) in Hm. lia.
    - subst b. rewrite Hs. ring. }
  assert (HE : (b / 2 ^ 52) mod 2 ^ 11 = e + 1075).
  { rewrite Hdiv. symmetry.
    apply (Z.mod_unique_pos _ (2 ^ 11) (if s then 1 else 0)).
    - change (2 ^ 11) with 2048. lia.
    - destruct s; ring. }
  assert (Hrange : 0 <= b < 2 ^ 64 /\ (2 ^ 63 <=? b) = s).
  { subst b. change (2 ^ 53) with (2 * 2 ^ 52) in Hm.
    change (2 ^ 64) with (4096 * 2 ^ 52). change (2 ^ 63) with (2048 * 2 ^ 52).
    destruct s; unfold K64f.sign_bit; change (2 ^ 63) with (2048 * 2 ^ 52);
      (split; [lia|]); [destruct (Z.leb_spec (2048 * 2 ^ 52)
         (2048 * 2 ^ 52 + (e + 1075) * 2 ^ 52 + (Z.pos m - 2 ^ 52)))
       |destruct (Z.leb_spec (2048 * 2 ^ 52)
         (0 + (e + 1075) * 2 ^ 52 + (Z.pos m - 2 ^ 52)))]; try reflexivity; lia. }
  destruct Hrange as [Hr Hsign]. split; [exact Hr|].
  unfold k64f_of_bits. cbv zeta. rewrite HE, Hmod, Hsign.
  destruct (Z.eqb_spec (e + 1075) 0) as [E0|_]; [lia|].
  destruct (Z.eqb_spec (e + 1075) 2047) as [E1|_]; [lia|].
  replace (Z.pos m - 2 ^ 52 + 2 ^ 52) with (Z.pos m) by lia.
  f_equal. lia.
Qed.

Lemma k64f_of_bits_nearest f num den :
  nearest_to f num den ->
  0 <= K64f.bits f < 2 ^ 64 /\ k64f_of_bits (K64f.bits f) = f.
Proof.
  destruct f as [s|s| |s m e]; cbn [nearest_to]; try contradiction.
  - intros [-> _]. split; [cbn; lia|reflexivity].
  - intros (_ & Hm & He & _). apply k64f_of_bits_normal; [exact Hm|lia].
Qed.

(** ** Reading the header doubles back *)

(** A quotient written as a double is read back as the double nearest to
    the quotient of the integers. *)
Lemma read_k64f_quotient (bs : list byte) (off : nat) (raw den : Z) :
  field off 8 bs = bytes_k64f (K64f.div (K64f.of_Z raw) (K64f.of_Z den)) ->
  Z.abs raw < 2 ^ 53 -> 2 <= den < 2 ^ 53 ->
  nearest_to (read_k64f off bs) raw den.
Proof.
  intros Hf Hraw Hden.
  pose proof (quotient_nearest raw den Hraw Hden) as Hn.
  destruct (k64f_of_bits_nearest _ _ _ Hn) as (Hrange & Hback).
  unfold read_k64f, read_unsigned. rewrite Hf. unfold bytes_k64f.
  rewrite le_combine_split. change (Z.of_nat 8 * 8) with 64.
  rewrite Z.mod_small by exact Hrange. rewrite Hback. exact Hn.
Qed.

Lemma read_bits (bs : list byte) (off : nat) (f : k64f) (b : Z) :
  field off 8 bs = bytes_k64f f -> K64f.bits f = b -> 0 <= b < 2 ^ 64 ->
  read_unsigned off 8 bs = b.
Proof.
  intros Hf Hb Hr. unfold read_unsigned. rewrite Hf. unfold bytes_k64f.
  rewrite le_combine_split, Hb. apply Z.mod_small. exact Hr.
Qed.

(** When the open and the twelve header writes succeed, the file begins
    with the header, whatever becomes of the rows. *)
Lemma handle_surface_header context s w :
  io_ok 13 (replies w) ->
  exists rest,
    files (snd (handle_surface context s w)) !! surface_path context w =
      Some (header_bytes context s ++ rest).
Proof.
  intros Hok. pose proof (io_ok_open _ _ Hok) as Hopen.
  unfold handle_surface. rewrite !bind_eq.
  unfold printf, GetSystemTime, fclose. cbn [fst snd].
  rewrite fopen_ok by exact Hopen. cbn [fst snd].
  rewrite !bind_eq. rewrite !ret_eq. cbn [fst snd].
  set (ctx' := set_count _ context).
  set (path := data_filename _ _).
  set (w0 := set_files _ _) in *.
  destruct (header_written ctx' s path w0) as (hb & Ahdr & Lhdr & Ehdr).
  cbv zeta in *.
  match goal with
  | |- context [write_rows s (Width s) path ?idxs ?w] =>
      set (w3 := w) in *;
      destruct (write_rows_any s (Width s) path idxs w3) as (rb & Arows & Lrows & Erows);
      set (w4 := snd (write_rows s (Width s) path idxs w3)) in *
  end.
  exists rb.
  pose proof (appended_trans _ _ _ _ _ _ Ahdr Arows) as (Hf & Hm & Hd).
  change (files (set_console _ w4)) with (files w4).
  assert (Hok0 : io_ok (12 + 0) (replies w0)).
  { subst w0. cbn [replies set_files set_replies set_clock set_console].
    apply io_ok_tl. exact Hok. }
  destruct (Ehdr _ Hok0) as [_ Ehb].
  rewrite Hf, Ehb. subst w0. cbn [files set_files set_replies set_clock set_console].
  rewrite alter_insert_eq. unfold surface_path. subst path.
  change (hd epoch (clock _)) with (hd epoch (clock w)).
  change (count ctx') with (Int.incr32 (count context)).
  rewrite lookup_insert_eq. reflexivity.
Qed.

(** * The specified properties *)

(** ** Size of the surface file *)

(** C1, as stated, fails: for the 2 x 2 surface [Example.grid], written
    without any failure, the file is 104 bytes long, not 80 + 2*2*2 = 88. *)
Lemma surface_file_is_not_80_plus_rows :
  surface_wf Example.grid /\ 0 < Width Example.grid /\ 0 < Length Example.grid /\
  io_ok (13 + Z.to_nat (Length Example.grid)) (replies Example.quiet) /\
  exists bs,
    files (snd (handle_surface Example.armed Example.grid Example.quiet))
      !! surface_path Example.armed Example.quiet = Some bs /\
    Z.of_nat (length bs) = 104 /\
    Z.of_nat (length bs) <> 80 + 2 * Width Example.grid * Length Example.grid.
Proof.
  split; [exact grid_wf|]. split; [reflexivity|]. split; [reflexivity|].
  split; [apply quiet_ok|].
  eexists. split; [vm_compute; reflexivity|]. split; [reflexivity|]. discriminate.
Qed.

(** C1, amended: a surface message with positive width and length that is
    written without a failure gives a file of exactly 96 + 2*width*length
    bytes: the 96-byte header, then the rows. *)
Theorem surface_file_size context s w :
  surface_wf s -> 0 < Width s -> 0 < Length s ->
  io_ok (13 + Z.to_nat (Length s)) (replies w) ->
  exists bs,
    files (snd (handle_surface context s w)) !! surface_path context w = Some bs /\
    bs = header_bytes context s ++ row_data s /\
    length (header_bytes context s) = 96%nat /\
    Z.of_nat (length (row_data s)) = 2 * Width s * Length s /\
    Z.of_nat (length bs) = 96 + 2 * Width s * Length s.
Proof.
  intros Hwf _ _ Hok.
  destruct (surface_written context s w Hwf Hok) as (w' & -> & Hf).
  exists (artifact context s). split; [exact Hf|]. split; [reflexivity|].
  split; [apply length_header_bytes|]. split; [apply length_row_data; exact Hwf|].
  unfold artifact. rewrite length_app, length_header_bytes, Nat2Z.inj_add.
  rewrite (length_row_data s Hwf). reflexivity.
Qed.

(** The 2 x 2 example surface, written in the world without failures. *)
Lemma surface_file_size_witness :
  exists bs,
    files (snd (handle_surface Example.armed Example.grid Example.quiet))
      !! surface_path Example.armed Example.quiet = Some bs /\
    Z.of_nat (length bs) = 96 + 2 * 2 * 2.
Proof.
  destruct (surface_file_size Example.armed Example.grid Example.quiet)
    as (bs & Hf & _ & _ & _ & Hlen).
  - repeat split; try (cbn; lia); repeat constructor.
  - reflexivity.
  - reflexivity.
  - vm_compute. constructor.
  - exists bs. split; [exact Hf|exact Hlen].
Defined.

(** ** A surface file that cannot be opened *)

(** C2 at the input where it fails: when the surface file cannot be opened
    the callback leaves by [return;]: the measurement that follows in the
    same dataset is not logged, the dataset is not destroyed, and the caller
    gets no status. *)
Theorem open_failure_drops_rest_of_dataset :
  let dataset := [GO_DATA_MESSAGE_TYPE_SURFACE Example.grid;
                  GO_DATA_MESSAGE_TYPE_MEASUREMENT Example.reading] in
  let w := Example.failing [IoFail 0] in
  snd (fst (onData Example.armed dataset w)) = None /\
  measLog (snd (onData Example.armed dataset w)) = [] /\
  destroyed (snd (onData Example.armed dataset w)) = 0%nat /\
  handled Example.armed dataset w = [GO_DATA_MESSAGE_TYPE_SURFACE Example.grid] /\
  measLog (snd (onData Example.armed dataset Example.quiet)) <> [].
Proof. vm_compute. repeat split. discriminate. Qed.

(** ** The timestamp of a surface file *)

(** C3 at the input where it fails: [main] declares the context without
    initialising it and sets the counter and the camera settings only, so
    with no stamp received the first surface file carries what the stack
    held, here 0xCCCCCCCCCCCCCCCC, and not 0. *)
Theorem timestamp_without_stamp_is_stack_garbage :
  exists context w1 bs,
    main_setup Example.stack (K64f.of_Z 5) (K64f.of_Z 100) Example.quiet = (Some context, w1) /\
    count context = 0 /\
    files (snd (deliver context [[GO_DATA_MESSAGE_TYPE_SURFACE Example.grid]] w1))
      !! surface_path context w1 = Some bs /\
    read_unsigned 16 8 bs = 14757395258967641292 /\
    read_unsigned 16 8 bs <> 0.
Proof.
  do 3 eexists. split; [vm_compute; reflexivity|]. split; [reflexivity|].
  split; [vm_compute; reflexivity|]. split; [vm_compute; reflexivity|].
  vm_compute. discriminate.
Qed.

(** ** Partial files *)

(** C4, as stated, fails: when the write of a row is short the file stays
    under its final name with the bytes that got through, here the header,
    the first row and one byte of the second row. *)
Lemma short_write_leaves_truncated_file :
  let w := Example.failing (repeat IoOk 14 ++ [IoFail 1]) in
  ~ all_or_nothing Example.armed Example.grid w /\
  exists bs,
    files (snd (handle_surface Example.armed Example.grid w))
      !! surface_path Example.armed w = Some bs /\
    length bs = 101%nat /\ length (artifact Example.armed Example.grid) = 104%nat.
Proof.
  split.
  - intros [H|H]; vm_compute in H; discriminate.
  - eexists. split; [vm_compute; reflexivity|]. split; reflexivity.
Qed.

(** C4, amended: the surface file is created under its final name when it is
    opened and is written in place.  When the open fails no file is created
    or changed; when it succeeds the file exists under that name from then
    on, holds at most 96 + 2*width*length bytes, and is the complete
    artifact when no write fails. *)
Theorem surface_file_written_in_place context s w :
  (open_fails w = true -> files (snd (handle_surface context s w)) = files w) /\
  (open_fails w = false ->
   exists bs,
     files (snd (handle_surface context s w)) = <[surface_path context w := bs]> (files w) /\
     (length bs <= 96 + Z.to_nat (Length s) * Z.to_nat (Width s * 2))%nat /\
     (surface_wf s -> io_ok (13 + Z.to_nat (Length s)) (replies w) ->
      bs = artifact context s)).
Proof.
  split; intros E.
  - destruct (handle_surface_fail context s w E) as (w' & -> & Hf & _). exact Hf.
  - destruct (handle_surface_open context s w E) as (bs & w' & -> & Hf & Hlen & _ & _ & Hbs).
    exists bs. split; [exact Hf|]. split; [exact Hlen|exact Hbs].
Qed.

(** Both cases on the example surface: the open refused, and nothing
    refused. *)
Lemma surface_file_written_in_place_witness :
  files (snd (handle_surface Example.armed Example.grid (Example.failing [IoFail 0]))) = ∅ /\
  exists bs,
    files (snd (handle_surface Example.armed Example.grid Example.quiet)) =
      <[surface_path Example.armed Example.quiet := bs]> ∅ /\
    bs = artifact Example.armed Example.grid.
Proof.
  split.
  - apply (surface_file_written_in_place Example.armed Example.grid
             (Example.failing [IoFail 0])).
    reflexivity.
  - destruct (surface_file_written_in_place Example.armed Example.grid Example.quiet)
      as [_ Hopen].
    destruct (Hopen eq_refl) as (bs & Hf & _ & Hbs).
    exists bs. split; [exact Hf|]. apply Hbs.
    + repeat split; try (cbn; lia); repeat constructor.
    + vm_compute. constructor.
Defined.

(** ** The line of a measurement *)

(** C5, as stated, fails: the format has no blank after the first
    semicolon.  For count 2, id 7 and value 3.14159 the line is
    "   2;   7; 3.14" and not "   2;    7; 3.14". *)
Lemma measurement_line_has_no_blank_after_count :
  let context := set_count 2 Example.armed in
  measLog (snd (handle_measurement context Example.reading Example.quiet)) =
    ["   2;   7; 3.14" +:+ CRLF] /\
  measLog (snd (handle_measurement context Example.reading Example.quiet)) <>
    ["   2;    7; 3.14" +:+ CRLF].
Proof. split; [vm_compute; reflexivity|vm_compute; discriminate]. Qed.

(** C5, amended: every measurement record appends one line, in arrival
    order, of the form count, ";", id, "; ", value, CR LF, with no blank
    after the first semicolon: count and id are right-aligned in at least
    four columns (no digit at all for zero), a finite value has two
    decimals, rounded to nearest.
    For count 2, id 7, value 3.14159 the line is "   2;   7; 3.14" CR LF. *)
Theorem measurement_log_line context m w :
  measLog (snd (handle_measurement context m w)) =
    measLog w ++
    map (fun d => Printf.fmt_int four_wide (count context) +:+ ";" +:+
                  Printf.fmt_int four_wide (Id m) +:+ "; " +:+
                  Printf.fmt_f two_decimals (value d) +:+ CRLF)
        (measurements m) /\
  (forall n, (4 <= String.length (Printf.fmt_int four_wide n))%nat) /\
  (forall sgn mant e,
     exists whole frac,
       Printf.fmt_f two_decimals (S754_finite sgn mant e) = whole +:+ "." +:+ frac /\
       String.length frac = 2%nat) /\
  Printf.fmt_int four_wide 2 = "   2" /\
  Printf.fmt_int four_wide 7 = "   7" /\
  Printf.fmt_int four_wide 0 = "    " /\
  Printf.fmt_int four_wide 12345 = "12345" /\
  Printf.fmt_f two_decimals Example.pi_ish = "3.14".
Proof.
  split.
  - rewrite handle_measurement_log. reflexivity.
  - split.
    + intros n. unfold Printf.fmt_int, four_wide.
      cbn [Printf.zero_flag Printf.precision Printf.width].
      rewrite length_pad_left. lia.
    + split; [exact fmt_f_two_decimals|].
      repeat split; vm_compute; reflexivity.
Qed.

(** ** The scan counter *)

(** C6, as stated, fails: the counter is a [k32u]; at 4294967295 the next
    surface message takes it to 0, which is neither one more nor at least
    as much as before. *)
Lemma scan_count_wraps_to_zero :
  let context := set_count Int.k32u_max Example.armed in
  let context' := fst (fst (handle_msg context (GO_DATA_MESSAGE_TYPE_SURFACE Example.grid)
                              Example.quiet)) in
  count_in_range context /\
  count context' = 0 /\ count context' <> count context + 1 /\ count context' < count context.
Proof. vm_compute. repeat split; congruence. Qed.

(** C6, amended: [main] sets the counter to zero; a surface message adds
    one modulo 2^32 and no other message changes it; after any number of
    datasets the counter is the number of surface messages handled, modulo
    2^32, and so it never decreases as long as fewer than 2^32 surfaces were
    handled. *)
Theorem scan_count_counts_surfaces stack fr ex w0 context w datasets :
  main_setup stack fr ex w0 = (Some context, w) ->
  count context = 0 /\
  (forall c m v,
     count (fst (fst (handle_msg c m v))) =
       if is_surface m then Int.wrap 32 (count c + 1) else count c) /\
  count (fst (deliver context datasets w)) =
    Int.wrap 32 (surfaces_in (handled_all context datasets w)) /\
  (surfaces_in (handled_all context datasets w) < 2 ^ 32 ->
   count (fst (deliver context datasets w)) = surfaces_in (handled_all context datasets w) /\
   forall ds1 ds2, datasets = ds1 ++ ds2 ->
     count (fst (deliver context ds1 w)) <= count (fst (deliver context datasets w))).
Proof.
  intros Hsetup. apply main_setup_context in Hsetup.
  assert (H0 : count context = 0) by (subst context; reflexivity).
  assert (Hr : count_in_range context) by (unfold count_in_range; rewrite H0; lia).
  assert (Hcount : forall ds, count (fst (deliver context ds w)) =
                              Int.wrap 32 (surfaces_in (handled_all context ds w))).
  { intros ds. rewrite <- (wrap_small (count _)) by (apply deliver_range; exact Hr).
    rewrite deliver_count, H0. reflexivity. }
  split; [exact H0|]. split; [exact handle_msg_count|]. split; [apply Hcount|].
  intros Hlt. pose proof (surfaces_in_nonneg (handled_all context datasets w)) as Hge.
  split; [rewrite Hcount; apply wrap_small; lia|].
  intros ds1 ds2 ->. rewrite !Hcount.
  rewrite handled_all_app, surfaces_in_app in *.
  pose proof (surfaces_in_nonneg (handled_all context ds1 w)).
  pose proof (surfaces_in_nonneg
                (handled_all (fst (deliver context ds1 w)) ds2 (snd (deliver context ds1 w)))).
  rewrite !wrap_small by lia. lia.
Qed.

(** A session of two datasets with one surface message each, started from
    the example stack. *)
Lemma scan_count_counts_surfaces_witness :
  let context := set_camera (K64f.of_Z 5) (K64f.of_Z 100) (set_count 0 Example.stack) in
  let w := snd (main_setup Example.stack (K64f.of_Z 5) (K64f.of_Z 100) Example.quiet) in
  let datasets := [[GO_DATA_MESSAGE_TYPE_STAMP [{| timestamp := 100 |}];
                    GO_DATA_MESSAGE_TYPE_SURFACE Example.grid;
                    GO_DATA_MESSAGE_TYPE_MEASUREMENT Example.reading];
                   [GO_DATA_MESSAGE_TYPE_SURFACE Example.grid]] in
  count context = 0 /\ count (fst (deliver context datasets w)) = 2.
Proof.
  intros context w datasets.
  destruct (scan_count_counts_surfaces Example.stack (K64f.of_Z 5) (K64f.of_Z 100)
              Example.quiet context w datasets) as (H0 & _ & Hn & _).
  - vm_compute. reflexivity.
  - split; [exact H0|]. rewrite Hn. vm_compute. reflexivity.
Defined.

(** ** Units of the header *)

(** C7: when the file opens and the twelve header writes succeed, the six
    doubles at offsets 32..79 are, in the order x-offset, x-resolution,
    y-offset, y-resolution, z-offset, z-resolution, the raw offsets
    (micrometres) divided by 1000 and the raw resolutions (nanometres)
    divided by 1000000, in double arithmetic.  Read back from the bytes of
    the file, each is the binary64 number nearest to the quotient of the
    integers, with the sign of the raw value.  A resolution of 1000000 nm
    and an offset of 1000 um are both written as 1.0, that is as the 64 bits
    3FF0000000000000; 500000 nm is written as 0.5, -2000 um as -2.0, and
    1000 nm as the double nearest to 0.001. *)
Theorem resolutions_and_offsets_in_mm context s w :
  io_ok 13 (replies w) ->
  exists bs,
    files (snd (handle_surface context s w)) !! surface_path context w = Some bs /\
    field 32 8 bs = bytes_k64f (K64f.div (K64f.of_Z (XOffset s)) (K64f.of_Z 1000)) /\
    field 40 8 bs = bytes_k64f (K64f.div (K64f.of_Z (XResolution s)) (K64f.of_Z 1000000)) /\
    field 48 8 bs = bytes_k64f (K64f.div (K64f.of_Z (YOffset s)) (K64f.of_Z 1000)) /\
    field 56 8 bs = bytes_k64f (K64f.div (K64f.of_Z (YResolution s)) (K64f.of_Z 1000000)) /\
    field 64 8 bs = bytes_k64f (K64f.div (K64f.of_Z (ZOffset s)) (K64f.of_Z 1000)) /\
    field 72 8 bs = bytes_k64f (K64f.div (K64f.of_Z (ZResolution s)) (K64f.of_Z 1000000)) /\
    (Z.abs (XOffset s) < 2 ^ 53 -> nearest_to (read_k64f 32 bs) (XOffset s) 1000) /\
    (Z.abs (XResolution s) < 2 ^ 53 -> nearest_to (read_k64f 40 bs) (XResolution s) 1000000) /\
    (Z.abs (YOffset s) < 2 ^ 53 -> nearest_to (read_k64f 48 bs) (YOffset s) 1000) /\
    (Z.abs (YResolution s) < 2 ^ 53 -> nearest_to (read_k64f 56 bs) (YResolution s) 1000000) /\
    (Z.abs (ZOffset s) < 2 ^ 53 -> nearest_to (read_k64f 64 bs) (ZOffset s) 1000) /\
    (Z.abs (ZResolution s) < 2 ^ 53 -> nearest_to (read_k64f 72 bs) (ZResolution s) 1000000) /\
    K64f.div (K64f.of_Z 1000000) (K64f.of_Z 1000000) = K64f.one /\
    K64f.div (K64f.of_Z 1000) (K64f.of_Z 1000) = K64f.one /\
    (XResolution s = 1000000 -> field 40 8 bs = bytes_k64f K64f.one) /\
    (XOffset s = 1000 -> field 32 8 bs = bytes_k64f K64f.one) /\
    (XResolution s = 1000000 -> read_unsigned 40 8 bs = 0x3FF0000000000000) /\
    (XOffset s = 1000 -> read_unsigned 32 8 bs = 0x3FF0000000000000) /\
    (YResolution s = 500000 -> read_unsigned 56 8 bs = 0x3FE0000000000000) /\
    (YOffset s = - 2000 -> read_unsigned 48 8 bs = 0xC000000000000000) /\
    (ZResolution s = 1000 -> read_unsigned 72 8 bs = 0x3F50624DD2F1A9FC).
Proof.
  intros Hok.
  destruct (handle_surface_header context s w Hok) as (rest & Hf).
  exists (header_bytes context s ++ rest). split; [exact Hf|].
  destruct (header_fields context s rest)
    as (_ & _ & _ & _ & Hxo & Hxr & Hyo & Hyr & Hzo & Hzr & _).
  cbv zeta in Hxo, Hxr, Hyo, Hyr, Hzo, Hzr.
  unfold UM_TO_MM in Hxo, Hyo, Hzo. unfold NM_TO_MM in Hxr, Hyr, Hzr.
  set (bs := header_bytes context s ++ rest) in *. clearbody bs.
  repeat (split; [assumption|]).
  split; [intros H; apply (read_k64f_quotient bs 32 _ _ Hxo H); lia|].
  split; [intros H; apply (read_k64f_quotient bs 40 _ _ Hxr H); lia|].
  split; [intros H; apply (read_k64f_quotient bs 48 _ _ Hyo H); lia|].
  split; [intros H; apply (read_k64f_quotient bs 56 _ _ Hyr H); lia|].
  split; [intros H; apply (read_k64f_quotient bs 64 _ _ Hzo H); lia|].
  split; [intros H; apply (read_k64f_quotient bs 72 _ _ Hzr H); lia|].
  split; [vm_compute; reflexivity|]. split; [vm_compute; reflexivity|].
  split; [intros E; rewrite Hxr, E; vm_compute; reflexivity|].
  split; [intros E; rewrite Hxo, E; vm_compute; reflexivity|].
  split; [intros E; rewrite E in Hxr; apply (read_bits bs 40 _ _ Hxr);
          [vm_compute; reflexivity|lia]|].
  split; [intros E; rewrite E in Hxo; apply (read_bits bs 32 _ _ Hxo);
          [vm_compute; reflexivity|lia]|].
  split; [intros E; rewrite E in Hyr; apply (read_bits bs 56 _ _ Hyr);
          [vm_compute; reflexivity|lia]|].
  split; [intros E; rewrite E in Hyo; apply (read_bits bs 48 _ _ Hyo);
          [vm_compute; reflexivity|lia]|].
  intros E; rewrite E in Hzr; apply (read_bits bs 72 _ _ Hzr); [vm_compute; reflexivity|lia].
Qed.

(** The example surface: x-resolution 1000000 nm, x-offset 1000 um,
    y-resolution 500000 nm, y-offset -2000 um, z-resolution 1000 nm and
    z-offset 0. *)
Lemma resolutions_and_offsets_in_mm_witness :
  exists bs,
    files (snd (handle_surface Example.armed Example.grid Example.quiet))
      !! surface_path Example.armed Example.quiet = Some bs /\
    field 40 8 bs = bytes_k64f K64f.one /\ field 32 8 bs = bytes_k64f K64f.one /\
    read_unsigned 40 8 bs = 0x3FF0000000000000 /\
    read_unsigned 32 8 bs = 0x3FF0000000000000 /\
    read_unsigned 56 8 bs = 0x3FE0000000000000 /\
    read_unsigned 48 8 bs = 0xC000000000000000 /\
    read_unsigned 72 8 bs = 0x3F50624DD2F1A9FC /\
    nearest_to (read_k64f 72 bs) 1000 1000000 /\
    nearest_to (read_k64f 64 bs) 0 1000.
Proof.
  destruct (resolutions_and_offsets_in_mm Example.armed Example.grid Example.quiet)
    as (bs & Hf & _ & _ & _ & _ & _ & _ & _ & _ & _ & _ & Hzo & Hzr & _ & _ &
        Hres & Hoff & Hxr & Hxo & Hyr & Hyo & Hzb).
  - vm_compute. repeat constructor.
  - exists bs. split; [exact Hf|].
    split; [apply Hres; reflexivity|]. split; [apply Hoff; reflexivity|].
    split; [apply Hxr; reflexivity|]. split; [apply Hxo; reflexivity|].
    split; [apply Hyr; reflexivity|]. split; [apply Hyo; reflexivity|].
    split; [apply Hzb; reflexivity|].
    split; [apply Hzr; vm_compute; reflexivity|apply Hzo; vm_compute; reflexivity].
Defined.

(** ** Samples *)

(** C8: in a file written without a failure, the two bytes at offset
    96 + 2*(r*width + c) are the sample of row [r], column [c] as the sensor
    gave it: rows follow each other without padding, and reading the bytes
    back as a [k16s] gives the sample again, the invalid-range value
    -32768 included. *)
Theorem samples_written_unchanged context s w (r c : nat) :
  surface_wf s -> samples_in_range s ->
  io_ok (13 + Z.to_nat (Length s)) (replies w) ->
  (r < Z.to_nat (Length s))%nat -> (c < Z.to_nat (Width s))%nat ->
  exists bs,
    files (snd (handle_surface context s w)) !! surface_path context w = Some bs /\
    Z.of_nat (length bs) = 96 + 2 * Width s * Length s /\
    field (96 + 2 * (r * Z.to_nat (Width s) + c)) 2 bs = bytes_k16s (nth c (RowAt s r) 0) /\
    read_k16s (96 + 2 * (r * Z.to_nat (Width s) + c)) bs = nth c (RowAt s r) 0 /\
    (nth c (RowAt s r) 0 = INVALID_RANGE_16BIT ->
     read_k16s (96 + 2 * (r * Z.to_nat (Width s) + c)) bs = - 32768).
Proof.
  intros Hwf Hrange Hok Hr Hc.
  destruct (surface_written context s w Hwf Hok) as (w' & -> & Hf).
  exists (artifact context s). split; [exact Hf|].
  assert (Hlen : Z.of_nat (length (artifact context s)) = 96 + 2 * Width s * Length s).
  { unfold artifact. rewrite length_app, length_header_bytes, Nat2Z.inj_add.
    rewrite (length_row_data s Hwf). reflexivity. }
  split; [exact Hlen|].
  destruct Hwf as (Hw & Hl & Hrows & Hall).
  assert (Hfield : field (96 + 2 * (r * Z.to_nat (Width s) + c)) 2 (artifact context s)
                   = bytes_k16s (nth c (RowAt s r) 0)).
  { unfold artifact. rewrite <- (length_header_bytes context s) at 1.
    rewrite field_after, row_data_concat.
    rewrite <- (app_nil_r (flat_map bytes_k16s (concat (rows s)))).
    rewrite field_sample.
    - rewrite (nth_concat_uniform (Z.to_nat (Width s)) 0 (rows s) Hall r c); [reflexivity| |exact Hc].
      rewrite Hrows. exact Hr.
    - rewrite (length_concat_uniform (Z.to_nat (Width s)) (rows s) Hall), Hrows. nia. }
  split; [exact Hfield|].
  assert (Hsample : - 32768 <= nth c (RowAt s r) 0 < 32768).
  { unfold samples_in_range in Hrange. rewrite Forall_forall in Hrange.
    assert (Hin : In (RowAt s r) (rows s)).
    { unfold RowAt. apply nth_In. rewrite Hrows. exact Hr. }
    specialize (Hrange _ (proj2 (list_elem_of_In _ _) Hin)).
    rewrite Forall_forall in Hrange. apply Hrange. apply list_elem_of_In.
    apply nth_In. rewrite Forall_forall in Hall.
    rewrite (Hall _ (proj2 (list_elem_of_In _ _) Hin)). exact Hc. }
  assert (Hread : read_k16s (96 + 2 * (r * Z.to_nat (Width s) + c)) (artifact context s)
                  = nth c (RowAt s r) 0).
  { unfold read_k16s, read_unsigned. rewrite Hfield. apply signed16_of_split. exact Hsample. }
  split; [exact Hread|].
  intros Hinv. rewrite Hread, Hinv. reflexivity.
Qed.

(** The invalid sample of the example surface, row 0, column 1. *)
Lemma samples_written_unchanged_witness :
  exists bs,
    files (snd (handle_surface Example.armed Example.grid Example.quiet))
      !! surface_path Example.armed Example.quiet = Some bs /\
    read_k16s (96 + 2 * (0 * 2 + 1)) bs = - 32768.
Proof.
  destruct (samples_written_unchanged Example.armed Example.grid Example.quiet 0 1)
    as (bs & Hf & _ & _ & Hread & _).
  - repeat split; try (cbn; lia); repeat constructor.
  - repeat constructor; cbn; lia.
  - vm_compute. constructor.
  - cbn. lia.
  - cbn. lia.
  - exists bs. split; [exact Hf|exact Hread].
Defined.

(** ** The counter and the file *)



(** ** Several stamp records in one call *)

(** C10, as stated, fails: in the dataset stamp 100, surface, stamp 200 the
    context ends with 200, and the earlier value 100 is in the header of
    the surface file. *)
Lemma earlier_stamp_reaches_surface_file :
  let dataset := [GO_DATA_MESSAGE_TYPE_STAMP [{| timestamp := 100 |}];
                  GO_DATA_MESSAGE_TYPE_SURFACE Example.grid;
                  GO_DATA_MESSAGE_TYPE_STAMP [{| timestamp := 200 |}]] in
  timeStamp (fst (fst (onData Example.armed dataset Example.quiet))) = 200 /\
  ~ earlier_stamps_unattached Example.armed dataset Example.quiet.
Proof.
  split; [vm_compute; reflexivity|].
  intros H. apply (H 100).
  - vm_compute. left. reflexivity.
  - exists (surface_path Example.armed Example.quiet). eexists.
    split; [vm_compute; reflexivity|]. split; vm_compute; reflexivity.
Qed.

(** C10, amended: after a call the context holds the timestamp of the last
    stamp record handled (its old value when there was none); a stamp
    message changes nothing but the context, so within one stamp message
    every record but the last is overwritten without reaching any output;
    a surface file written without a failure carries the timestamp of the
    last stamp record handled before the surface message. *)
Theorem last_stamp_record_wins context dataset w :
  timeStamp (fst (fst (onData context dataset w))) =
    List.last (stamp_records (handled context dataset w)) (timeStamp context) /\
  (forall c stampMsg v,
     handle_msg c (GO_DATA_MESSAGE_TYPE_STAMP stampMsg) v =
       ((set_timeStamp (List.last (map timestamp stampMsg) (timeStamp c)) c, Break), v)) /\
  (forall pre s post,
     dataset = pre ++ GO_DATA_MESSAGE_TYPE_SURFACE s :: post ->
     let r := dispatch context pre w in
     snd (fst r) = Break ->
     surface_wf s -> io_ok (13 + Z.to_nat (Length s)) (replies (snd r)) ->
     dispatch context dataset w =
       (r' ← handle_surface (fst (fst r)) s;
        match snd r' with
        | Break => dispatch (fst r') post
        | Return => mret r'
        end) (snd r) /\
     exists bs,
       files (snd (handle_surface (fst (fst r)) s (snd r)))
         !! surface_path (fst (fst r)) (snd r) = Some bs /\
       field 16 8 bs = bytes_k64u (List.last (stamp_records pre) (timeStamp context))).
Proof.
  split; [|split].
  - rewrite onData_context. apply dispatch_timeStamp.
  - intros c stampMsg v. cbn [handle_msg]. rewrite ret_eq, handle_stamp_spec. reflexivity.
  - intros pre s post -> r Hbreak Hwf Hok. split.
    + rewrite (dispatch_app pre _ context w Hbreak). reflexivity.
    + destruct (surface_written (fst (fst r)) s (snd r) Hwf Hok) as (w' & -> & Hf).
      exists (artifact (fst (fst r)) s). split; [exact Hf|].
      destruct (header_fields (fst (fst r)) s (row_data s)) as (_ & Hts & _).
      fold (artifact (fst (fst r)) s) in Hts. rewrite Hts. subst r.
      rewrite dispatch_timeStamp, (handled_break pre context w Hbreak). reflexivity.
Qed.

(** A stamp message with the records 100 and 150, the example surface, and
    a second stamp message: the surface file carries 150. *)
Lemma last_stamp_record_wins_witness :
  let pre := [GO_DATA_MESSAGE_TYPE_STAMP [{| timestamp := 100 |}; {| timestamp := 150 |}]] in
  let post := [GO_DATA_MESSAGE_TYPE_STAMP [{| timestamp := 200 |}]] in
  let r := dispatch Example.armed pre Example.quiet in
  exists bs,
    files (snd (handle_surface (fst (fst r)) Example.grid (snd r)))
      !! surface_path (fst (fst r)) (snd r) = Some bs /\
    field 16 8 bs = bytes_k64u 150.
Proof.
  intros pre post r.
  destruct (last_stamp_record_wins Example.armed
              (pre ++ GO_DATA_MESSAGE_TYPE_SURFACE Example.grid :: post) Example.quiet)
    as (_ & _ & Hsurf).
  destruct (Hsurf pre Example.grid post eq_refl) as (_ & bs & Hf & Hts).
  - reflexivity.
  - repeat split; try (cbn; lia); repeat constructor.
  - vm_compute. constructor.
  - exists bs. split; [exact Hf|exact Hts].
Defined.

(** * Further properties of the code *)

(** ** What one message may touch *)

Lemma set_measLog_nil w : set_measLog (fun l => l ++ []) w = w.
Proof. destruct w. unfold set_measLog. cbn. rewrite app_nil_r. reflexivity. Qed.

Lemma set_measLog_app l1 l2 w :
  set_measLog (fun l => l ++ l2) (set_measLog (fun l => l ++ l1) w) =
  set_measLog (fun l => l ++ (l1 ++ l2)) w.
Proof. destruct w. unfold set_measLog. cbn. rewrite app_assoc. reflexivity. Qed.

(** A message that is no surface message changes the measurement log at
    most. *)
Lemma handle_msg_other context m w :
  is_surface m = false ->
  handle_msg context m w =
    ((fst (fst (handle_msg context m w)), Break),
     set_measLog (fun l => l ++ log_lines (count context) [m]) w).
Proof.
  destruct m as [stampMsg|s|mm|t]; cbn [is_surface]; [intros _|discriminate|intros _|intros _].
  - cbn [handle_msg log_lines]. rewrite ret_eq, set_measLog_nil. reflexivity.
  - cbn [handle_msg log_lines]. rewrite bind_eq, handle_measurement_log, ret_eq.
    cbn [fst snd]. rewrite app_nil_r. reflexivity.
  - cbn [handle_msg log_lines]. rewrite ret_eq, set_measLog_nil. reflexivity.
Qed.

(** A surface message leaves the measurement log and the datasets alone;
    it ends by [return;] exactly when the file cannot be opened. *)
Lemma handle_surface_frame context s w :
  measLog (snd (handle_surface context s w)) = measLog w /\
  destroyed (snd (handle_surface context s w)) = destroyed w /\
  snd (fst (handle_surface context s w)) = (if open_fails w then Return else Break).
Proof.
  destruct (open_fails w) eqn:E.
  - destruct (handle_surface_fail context s w E) as (w' & -> & _ & Hm & Hd & _).
    repeat split; assumption.
  - destruct (handle_surface_open context s w E) as (bs & w' & -> & _ & _ & Hm & Hd & _).
    repeat split; assumption.
Qed.

Lemma handle_msg_frame context m w :
  measLog (snd (handle_msg context m w)) = measLog w ++ log_lines (count context) [m] /\
  destroyed (snd (handle_msg context m w)) = destroyed w /\
  snd (fst (handle_msg context m w)) =
    (if is_surface m && open_fails w then Return else Break).
Proof.
  destruct (is_surface m) eqn:E.
  - destruct m as [?|s|?|?]; try discriminate. cbn [handle_msg log_lines andb].
    rewrite app_nil_r. apply handle_surface_frame.
  - rewrite (handle_msg_other context m w E). cbn [fst snd andb]. repeat split.
Qed.

Lemma count_after_cons c m l :
  count_after c (m :: l) = count_after (if is_surface m then Int.incr32 c else c) l.
Proof. reflexivity. Qed.

Lemma count_after_app c l1 l2 :
  count_after c (l1 ++ l2) = count_after (count_after c l1) l2.
Proof. unfold count_after. apply fold_left_app. Qed.

Lemma log_lines_cons c m l :
  log_lines c (m :: l) =
    log_lines c [m] ++ log_lines (if is_surface m then Int.incr32 c else c) l.
Proof.
  destruct m; cbn [log_lines is_surface app]; try reflexivity.
  rewrite app_nil_r. reflexivity.
Qed.

Lemma log_lines_app c l1 : forall l2,
  log_lines c (l1 ++ l2) = log_lines c l1 ++ log_lines (count_after c l1) l2.
Proof.
  revert c. induction l1 as [|m l1 IH]; intros c l2; [reflexivity|].
  rewrite <- app_comm_cons, (log_lines_cons c m (l1 ++ l2)), (log_lines_cons c m l1).
  rewrite IH, count_after_cons, app_assoc. reflexivity.
Qed.

(** ** What one dataset does, message by message *)

Lemma dispatch_count_after dataset : forall context w,
  count (fst (fst (dispatch context dataset w))) =
    count_after (count context) (handled context dataset w).
Proof.
  induction dataset as [|m rest IH]; intros context w; [reflexivity|].
  cbn [dispatch handled]. rewrite bind_eq, count_after_cons.
  rewrite <- (handle_msg_count context m w).
  destruct (snd (fst (handle_msg context m w))); [apply IH|reflexivity].
Qed.

Lemma dispatch_frame dataset : forall context w,
  measLog (snd (dispatch context dataset w)) =
    measLog w ++ log_lines (count context) (handled context dataset w) /\
  destroyed (snd (dispatch context dataset w)) = destroyed w.
Proof.
  induction dataset as [|m rest IH]; intros context w.
  - cbn. rewrite app_nil_r. split; reflexivity.
  - cbn [dispatch handled]. rewrite bind_eq.
    destruct (handle_msg_frame context m w) as (Hm & Hd & _).
    pose proof (handle_msg_count context m w) as Hc.
    rewrite log_lines_cons.
    destruct (snd (fst (handle_msg context m w))).
    + destruct (IH (fst (fst (handle_msg context m w))) (snd (handle_msg context m w)))
        as (Hm' & Hd').
      rewrite Hm', Hd', Hm, Hd, Hc, app_assoc. split; reflexivity.
    + rewrite ret_eq. cbn [snd log_lines]. rewrite app_nil_r. split; assumption.
Qed.

Lemma onData_status context dataset w :
  snd (fst (onData context dataset w)) =
    match snd (fst (dispatch context dataset w)) with
    | Break => Some kOK
    | Return => None
    end.
Proof.
  unfold onData. rewrite bind_eq.
  destruct (snd (fst (dispatch context dataset w))); [rewrite bind_eq|]; reflexivity.
Qed.

Lemma onData_frame context dataset w :
  measLog (snd (onData context dataset w)) =
    measLog w ++ log_lines (count context) (handled context dataset w) /\
  destroyed (snd (onData context dataset w)) =
    match snd (fst (dispatch context dataset w)) with
    | Break => S (destroyed w)
    | Return => destroyed w
    end.
Proof.
  destruct (dispatch_frame dataset context w) as (Hm & Hd).
  unfold onData. rewrite bind_eq.
  destruct (snd (fst (dispatch context dataset w))).
  - rewrite bind_eq, ret_eq. cbn [snd]. unfold GoDestroy_dataset. cbn [snd].
    cbn [measLog destroyed set_destroyed]. rewrite Hm, Hd. split; reflexivity.
  - rewrite ret_eq. cbn [snd]. split; assumption.
Qed.

(** Where a dataset is left by [return;]. *)
Lemma dispatch_return dataset : forall context w,
  snd (fst (dispatch context dataset w)) = Return ->
  exists pre s post,
    dataset = pre ++ GO_DATA_MESSAGE_TYPE_SURFACE s :: post /\
    handled context dataset w = pre ++ [GO_DATA_MESSAGE_TYPE_SURFACE s] /\
    snd (fst (dispatch context pre w)) = Break /\
    open_fails (snd (dispatch context pre w)) = true.
Proof.
  induction dataset as [|m rest IH]; intros context w; [discriminate|].
  cbn [dispatch handled]. rewrite bind_eq.
  destruct (handle_msg_frame context m w) as (_ & _ & Hfl).
  destruct (snd (fst (handle_msg context m w))) eqn:E.
  - intros H. destruct (IH _ _ H) as (pre & s & post & -> & Hh & Hb & Ho).
    exists (m :: pre), s, post. split; [reflexivity|]. split; [rewrite Hh; reflexivity|].
    cbn [dispatch]. rewrite bind_eq, E. split; assumption.
  - intros _. destruct (is_surface m) eqn:Es; [|discriminate].
    destruct (open_fails w) eqn:Eo; [|discriminate].
    destruct m as [?|s|?|?]; try discriminate.
    exists [], s, rest. repeat split. exact Eo.
Qed.

Lemma deliver_frame datasets : forall context w,
  measLog (snd (deliver context datasets w)) =
    measLog w ++ log_lines (count context) (handled_all context datasets w) /\
  count (fst (deliver context datasets w)) =
    count_after (count context) (handled_all context datasets w).
Proof.
  induction datasets as [|d rest IH]; intros context w.
  - cbn. rewrite app_nil_r. split; reflexivity.
  - cbn [deliver handled_all]. rewrite bind_eq.
    destruct (IH (fst (fst (onData context d w))) (snd (onData context d w))) as (Hm & Hc).
    destruct (onData_frame context d w) as (Hm1 & _).
    pose proof (dispatch_count_after d context w) as Hc1.
    rewrite <- onData_context in Hc1.
    rewrite Hm, Hc, Hm1, Hc1, log_lines_app, count_after_app, app_assoc.
    split; reflexivity.
Qed.

(** ** The measurement log of a session *)

(** X1: over a whole session the callback only appends to the measurement
    log: one line per measurement record handled, in arrival order, each
    with the counter as it stands when the record is handled, that is the
    number of the last surface message handled before it. *)
Theorem measurement_lines_follow_the_counter context datasets w :
  measLog (snd (deliver context datasets w)) =
    measLog w ++ log_lines (count context) (handled_all context datasets w).
Proof. apply deliver_frame. Qed.

(** ** Datasets without a surface message *)

Lemma handled_no_surface dataset : forall context w,
  has_no_surface dataset ->
  handled context dataset w = dataset /\
  snd (fst (dispatch context dataset w)) = Break /\
  snd (dispatch context dataset w) =
    set_measLog (fun l => l ++ log_lines (count context) dataset) w.
Proof.
  induction dataset as [|m rest IH]; intros context w Hns.
  - cbn. rewrite set_measLog_nil. repeat split.
  - inversion Hns as [|? ? Hm Hrest]; subst.
    cbn [dispatch handled]. rewrite bind_eq.
    rewrite (handle_msg_other context m w Hm). cbn [fst snd].
    pose proof (handle_msg_count context m w) as Hc. rewrite Hm in Hc.
    destruct (IH (fst (fst (handle_msg context m w)))
                 (set_measLog (fun l => l ++ log_lines (count context) [m]) w) Hrest)
      as (Hh & Hb & Hw).
    rewrite Hh, Hb, Hw, Hc, set_measLog_app.
    rewrite (log_lines_cons (count context) m rest), Hm. repeat split.
Qed.

(** X2: a dataset without a surface message touches neither files nor
    console nor clock: the callback returns kOK, releases the dataset once,
    leaves the counter as it is, takes the last stamp record as the
    timestamp, and appends the measurement lines to the log. *)
Theorem dataset_without_surface context dataset w :
  has_no_surface dataset ->
  exists context',
    onData context dataset w =
      ((context', Some kOK),
       set_destroyed S (set_measLog (fun l => l ++ log_lines (count context) dataset) w)) /\
    count context' = count context /\
    timeStamp context' = List.last (stamp_records dataset) (timeStamp context) /\
    frameRate context' = frameRate context /\ exposureTime context' = exposureTime context.
Proof.
  intros Hns. destruct (handled_no_surface dataset context w Hns) as (Hh & Hb & Hw).
  exists (fst (fst (dispatch context dataset w))).
  split; [|split; [|split]].
  - unfold onData. rewrite bind_eq, Hb, bind_eq, ret_eq. cbn [fst snd].
    unfold GoDestroy_dataset. cbn [snd]. rewrite Hw. reflexivity.
  - rewrite dispatch_count_after, Hh. clear Hh Hb Hw.
    revert Hns. generalize (count context) as c.
    induction dataset as [|m rest IH]; intros c Hns; [reflexivity|].
    inversion Hns; subst. rewrite count_after_cons. rewrite H1. apply IH. assumption.
  - rewrite dispatch_timeStamp, Hh. reflexivity.
  - clear Hh Hb Hw Hns. revert context w.
    induction dataset as [|m rest IH]; intros context w; [split; reflexivity|].
    cbn [dispatch]. rewrite bind_eq.
    pose proof (handle_msg_context context m w) as Hctx.
    assert (Hfr : frameRate (fst (fst (handle_msg context m w))) = frameRate context /\
                  exposureTime (fst (fst (handle_msg context m w))) = exposureTime context).
    { rewrite Hctx. destruct m; split; reflexivity. }
    destruct (snd (fst (handle_msg context m w))).
    + destruct (IH (fst (fst (handle_msg context m w))) (snd (handle_msg context m w)))
        as (H1 & H2).
      destruct Hfr as (H3 & H4). split; congruence.
    + rewrite ret_eq. exact Hfr.
Qed.

(** A stamp and a measurement. *)
Lemma dataset_without_surface_witness :
  let dataset := [GO_DATA_MESSAGE_TYPE_STAMP [{| timestamp := 100 |}];
                  GO_DATA_MESSAGE_TYPE_MEASUREMENT Example.reading] in
  exists context',
    onData Example.armed dataset Example.quiet =
      ((context', Some kOK),
       set_destroyed S
         (set_measLog (fun l => l ++ log_lines (count Example.armed) dataset) Example.quiet)) /\
    count context' = count Example.armed /\
    timeStamp context' = List.last (stamp_records dataset) (timeStamp Example.armed) /\
    frameRate context' = frameRate Example.armed /\
    exposureTime context' = exposureTime Example.armed.
Proof.
  intros dataset. apply (dataset_without_surface Example.armed dataset Example.quiet).
  repeat constructor.
Defined.

(** ** The status of the callback *)

(** X3: the callback returns kOK and releases the dataset exactly once when
    every message was handled; otherwise it has left by [return;] at a
    surface message whose file could not be opened: the messages after it
    were not handled, the dataset is not released and no status is
    returned. *)
Theorem callback_status context dataset w :
  (snd (fst (onData context dataset w)) = Some kOK /\
   handled context dataset w = dataset /\
   destroyed (snd (onData context dataset w)) = S (destroyed w)) \/
  (snd (fst (onData context dataset w)) = None /\
   destroyed (snd (onData context dataset w)) = destroyed w /\
   exists pre s post,
     dataset = pre ++ GO_DATA_MESSAGE_TYPE_SURFACE s :: post /\
     handled context dataset w = pre ++ [GO_DATA_MESSAGE_TYPE_SURFACE s] /\
     snd (fst (dispatch context pre w)) = Break /\
     open_fails (snd (dispatch context pre w)) = true).
Proof.
  destruct (onData_frame context dataset w) as (_ & Hd).
  rewrite onData_status, Hd.
  destruct (snd (fst (dispatch context dataset w))) eqn:E.
  - left. split; [reflexivity|]. split; [apply handled_break; exact E|reflexivity].
  - right. split; [reflexivity|]. split; [reflexivity|]. apply dispatch_return. exact E.
Qed.

(** ** The console of the surface case *)

Lemma fwrite_console p n f w : console (snd (fwrite p n f w)) = console w.
Proof.
  unfold fwrite. destruct n as [|n]; [reflexivity|].
  destruct (replies w) as [|[|k] rs]; reflexivity.
Qed.

Lemma fwrite_replies p n f w :
  (0 < n)%nat -> replies (snd (fwrite p n f w)) = tl (replies w).
Proof.
  intros Hn. unfold fwrite. destruct n as [|n]; [lia|].
  destruct (replies w) as [|[|k] rs] eqn:E; cbn; rewrite E; reflexivity.
Qed.

Lemma fwrite_result p n f w :
  fst (fwrite p n f w) =
    match n with
    | O => 0
    | S _ => if is_fail (hd IoOk (replies w)) then 0 else 1
    end.
Proof.
  unfold fwrite. destruct n as [|n]; [reflexivity|].
  destruct (replies w) as [|[|k] rs]; reflexivity.
Qed.

Lemma skipn_tl {A} (n : nat) (l : list A) : skipn n (tl l) = skipn (S n) l.
Proof. destruct l; [destruct n; reflexivity|reflexivity]. Qed.

Lemma warn_unless_written (v : Z) (w : World) :
  (if v =? 1 then mret tt
   else printf ("WARNING: Error while writing surface to file" +:+ LF) []) w =
  (tt, if v =? 1 then w else set_console (fun c => c ++ [warning_line]) w).
Proof. destruct (v =? 1); [reflexivity|]. unfold printf, warning_line. reflexivity. Qed.

Lemma write_rows_console s surfaceWidth f idxs : forall w,
  console (snd (write_rows s surfaceWidth f idxs w)) =
    console w ++
    repeat warning_line
      (row_failures (Z.to_nat (surfaceWidth * sizeof_k16s)) (length idxs) (replies w)).
Proof.
  induction idxs as [|i idxs IH]; intros w.
  - cbn [write_rows length]. rewrite ret_eq. cbn [snd].
    unfold row_failures. destruct (Z.to_nat _); cbn [firstn List.filter length repeat];
      rewrite app_nil_r; reflexivity.
  - cbn [write_rows length]. rewrite !bind_eq, IH, warn_unless_written. cbn [snd].
    generalize (bytes_row (RowAt s i)) as p. intros p.
    generalize (Z.to_nat (surfaceWidth * sizeof_k16s)) as n. intros n.
    rewrite fwrite_result.
    destruct n as [|n'].
    + change (0 =? 1) with false. cbn iota. unfold fwrite. cbn [snd].
      unfold row_failures. cbn [console replies set_console repeat].
      rewrite <- app_assoc. reflexivity.
    + unfold row_failures.
      assert (Hr : forall b : bool,
                replies (if b then snd (fwrite p (S n') f w)
                         else set_console (fun c => c ++ [warning_line])
                                (snd (fwrite p (S n') f w))) = tl (replies w)).
      { intros [|]; [|change (replies (set_console ?g ?v)) with (replies v)];
          apply fwrite_replies; lia. }
      rewrite Hr.
      assert (Hc : forall b : bool,
                console (if b then snd (fwrite p (S n') f w)
                         else set_console (fun c => c ++ [warning_line])
                                (snd (fwrite p (S n') f w))) =
                console w ++ (if b then [] else [warning_line])).
      { intros [|]; [|change (console (set_console ?g ?v)) with (g (console v))];
          rewrite fwrite_console; [rewrite app_nil_r|]; reflexivity. }
      rewrite Hc.
      destruct (replies w) as [|r rs]; cbn [hd tl firstn].
      * rewrite firstn_nil. cbn [is_fail List.filter length repeat].
        change (1 =? 1) with true. cbn iota. rewrite !app_nil_r. reflexivity.
      * destruct r as [|k]; cbn [is_fail List.filter length repeat].
        -- change (1 =? 1) with true. cbn iota. rewrite app_nil_r. reflexivity.
        -- change (0 =? 1) with false. cbn iota. rewrite <- app_assoc. reflexivity.
Qed.

(** X4: when the file opens, the surface case prints the line of the
    received surface, then one warning for each row whose write did not
    return 1, then the line saying that the surface was written: the last
    is printed whatever the writes did, failures of the twelve header
    writes are never reported, and a surface of width zero gives a warning
    for every row. *)
Theorem surface_console context s w :
  open_fails w = false ->
  console (snd (handle_surface context s w)) =
    console w ++
    [received_line (Int.incr32 (count context)) s] ++
    repeat warning_line
      (row_failures (Z.to_nat (Width s * sizeof_k16s)) (Z.to_nat (Length s))
                    (skipn 13 (replies w))) ++
    [written_line (surface_path context w)].
Proof.
  intros Hopen. unfold handle_surface. rewrite !bind_eq.
  unfold printf, GetSystemTime, fclose. cbn [fst snd].
  rewrite fopen_ok by exact Hopen. cbn [fst snd].
  rewrite !bind_eq, !ret_eq. cbn [fst snd].
  change (console (set_console ?g ?v)) with (g (console v)). cbn beta.
  rewrite write_rows_console, !fwrite_console, length_seq.
  rewrite !fwrite_replies by (cbn; lia).
  cbn [console replies clock set_files set_replies set_clock set_console count set_count].
  rewrite <- !skipn_tl. change (skipn 0 ?l) with l.
  unfold received_line, written_line, surface_path.
  rewrite <- !app_assoc. reflexivity.
Qed.

(** The example surface when the write of its first row fails. *)
Lemma surface_console_witness :
  let w := Example.failing (repeat IoOk 13 ++ [IoFail 0]) in
  console (snd (handle_surface Example.armed Example.grid w)) =
    console w ++
    [received_line (Int.incr32 (count Example.armed)) Example.grid] ++
    repeat warning_line
      (row_failures (Z.to_nat (Width Example.grid * sizeof_k16s))
                    (Z.to_nat (Length Example.grid)) (skipn 13 (replies w))) ++
    [written_line (surface_path Example.armed w)].
Proof.
  intros w. apply (surface_console Example.armed Example.grid w). reflexivity.
Defined.

(** ** Reading a surface file back *)

Lemma read_split (pre : list byte) (n : nat) (v : Z) (rest : list byte) (off : nat) :
  off = length pre ->
  read_unsigned off n (pre ++ le_split n v ++ rest) = v mod 2 ^ (Z.of_nat n * 8).
Proof.
  intros ->. unfold read_unsigned.
  replace (length pre) with (length pre + 0)%nat by lia.
  rewrite field_after. unfold field. change (skipn 0 ?l) with l.
  rewrite firstn_app, length_le_split, Nat.sub_diag, firstn_le_split.
  cbn [firstn]. rewrite app_nil_r. apply le_combine_split.
Qed.

(** X5: a file written without a failure can be read back from its header
    alone: the first sixteen bytes are the tag without a terminator, the
    integers at offsets 16, 24 and 28 are the timestamp, the width and the
    length, and the size of the file is 96 plus twice the product of the
    two dimensions read. *)
Theorem header_reads_back context s w :
  surface_wf s -> io_ok (13 + Z.to_nat (Length s)) (replies w) ->
  0 <= timeStamp context < 2 ^ 64 -> Width s < 2 ^ 32 -> Length s < 2 ^ 32 ->
  exists bs,
    files (snd (handle_surface context s w)) !! surface_path context w = Some bs /\
    field 0 16 bs = bytes_of_chars "MHSKJELV VER0001" /\
    read_unsigned 16 8 bs = timeStamp context /\
    read_unsigned 24 4 bs = Width s /\
    read_unsigned 28 4 bs = Length s /\
    Z.of_nat (length bs) = 96 + 2 * read_unsigned 24 4 bs * read_unsigned 28 4 bs.
Proof.
  intros Hwf Hok Hts Hw Hl.
  destruct (surface_written context s w Hwf Hok) as (w' & -> & Hf).
  exists (artifact context s). split; [exact Hf|]. cbn [snd].
  destruct (header_fields context s (row_data s)) as (Htag & _).
  fold (artifact context s) in Htag.
  destruct Hwf as (Hw0 & Hl0 & Hrows).
  assert (Ht : read_unsigned 16 8 (artifact context s) = timeStamp context).
  { unfold artifact, header_bytes, bytes_k64u. rewrite <- !app_assoc.
    rewrite (read_split (bytes_of_chars HEADERTEXT) 8) by reflexivity.
    apply Z.mod_small. exact Hts. }
  assert (HW : read_unsigned 24 4 (artifact context s) = Width s).
  { unfold artifact, header_bytes, bytes_k32u. rewrite <- !app_assoc.
    rewrite (app_assoc (bytes_of_chars HEADERTEXT)).
    rewrite (read_split _ 4).
    - apply Z.mod_small. change (2 ^ (Z.of_nat 4 * 8)) with (2 ^ 32). lia.
    - rewrite length_app. unfold bytes_k64u. rewrite length_le_split. reflexivity. }
  assert (HL : read_unsigned 28 4 (artifact context s) = Length s).
  { unfold artifact, header_bytes. rewrite <- !app_assoc.
    rewrite (app_assoc (bytes_of_chars HEADERTEXT)).
    rewrite (app_assoc (bytes_of_chars HEADERTEXT ++ _)).
    unfold bytes_k32u at 2. rewrite (read_split _ 4).
    - apply Z.mod_small. change (2 ^ (Z.of_nat 4 * 8)) with (2 ^ 32). lia.
    - rewrite !length_app. unfold bytes_k64u, bytes_k32u. rewrite !length_le_split.
      reflexivity. }
  split; [exact Htag|]. split; [exact Ht|]. split; [exact HW|]. split; [exact HL|].
  rewrite HW, HL. unfold artifact.
  rewrite length_app, length_header_bytes, Nat2Z.inj_add.
  rewrite (length_row_data s (conj Hw0 (conj Hl0 Hrows))). reflexivity.
Qed.

(** The example surface, written in the world without failures. *)
Lemma header_reads_back_witness :
  exists bs,
    files (snd (handle_surface Example.armed Example.grid Example.quiet))
      !! surface_path Example.armed Example.quiet = Some bs /\
    field 0 16 bs = bytes_of_chars "MHSKJELV VER0001" /\
    read_unsigned 16 8 bs = timeStamp Example.armed /\
    read_unsigned 24 4 bs = Width Example.grid /\
    read_unsigned 28 4 bs = Length Example.grid /\
    Z.of_nat (length bs) = 96 + 2 * read_unsigned 24 4 bs * read_unsigned 28 4 bs.
Proof.
  apply (header_reads_back Example.armed Example.grid Example.quiet).
  - repeat split; try (cbn; lia); repeat constructor.
  - vm_compute. constructor.
  - cbn. lia.
  - cbn. lia.
  - cbn. lia.
Defined.

(** X6: a surface without rows or without columns, written without a
    failure, gives a file that is the 96-byte header and nothing else. *)
Theorem empty_surface_is_header_only context s w :
  surface_wf s -> Width s = 0 \/ Length s = 0 ->
  io_ok (13 + Z.to_nat (Length s)) (replies w) ->
  files (snd (handle_surface context s w)) !! surface_path context w =
    Some (header_bytes context s) /\
  length (header_bytes context s) = 96%nat.
Proof.
  intros Hwf Hempty Hok.
  destruct (surface_written context s w Hwf Hok) as (w' & -> & Hf).
  split; [|apply length_header_bytes].
  cbn [snd]. rewrite Hf. unfold artifact.
  assert (Hrows : row_data s = []).
  { apply length_zero_iff_nil. pose proof (length_row_data s Hwf) as Hlen.
    destruct Hempty as [E|E]; rewrite E in Hlen; lia. }
  rewrite Hrows, app_nil_r. reflexivity.
Qed.

(** Three columns and no rows. *)
Lemma empty_surface_is_header_only_witness :
  files (snd (handle_surface Example.armed Bench.blank Example.quiet))
    !! surface_path Example.armed Example.quiet = Some (header_bytes Example.armed Bench.blank) /\
  length (header_bytes Example.armed Bench.blank) = 96%nat.
Proof.
  apply (empty_surface_is_header_only Example.armed Bench.blank Example.quiet).
  - repeat split; try (cbn; lia); repeat constructor.
  - right. reflexivity.
  - vm_compute. constructor.
Defined.

(** ** What a session keeps *)

Lemma handle_msg_camera context m w :
  frameRate (fst (fst (handle_msg context m w))) = frameRate context /\
  exposureTime (fst (fst (handle_msg context m w))) = exposureTime context.
Proof. rewrite handle_msg_context. destruct m; split; reflexivity. Qed.

Lemma dispatch_camera dataset : forall context w,
  frameRate (fst (fst (dispatch context dataset w))) = frameRate context /\
  exposureTime (fst (fst (dispatch context dataset w))) = exposureTime context.
Proof.
  induction dataset as [|m rest IH]; intros context w; [split; reflexivity|].
  cbn [dispatch]. rewrite bind_eq.
  destruct (handle_msg_camera context m w) as (H1 & H2).
  destruct (snd (fst (handle_msg context m w))).
  - destruct (IH (fst (fst (handle_msg context m w))) (snd (handle_msg context m w)))
      as (H3 & H4). split; congruence.
  - rewrite ret_eq. split; assumption.
Qed.

Lemma deliver_camera datasets : forall context w,
  frameRate (fst (deliver context datasets w)) = frameRate context /\
  exposureTime (fst (deliver context datasets w)) = exposureTime context.
Proof.
  induction datasets as [|d rest IH]; intros context w; [split; reflexivity|].
  cbn [deliver]. rewrite bind_eq.
  destruct (IH (fst (fst (onData context d w))) (snd (onData context d w))) as (H1 & H2).
  destruct (dispatch_camera d context w) as (H3 & H4).
  rewrite H1, H2, onData_context. split; assumption.
Qed.

(** X7: the callback never changes the frame rate and the exposure time of
    the context: after any number of datasets a surface file written
    without a failure carries, at offsets 80 and 88, the two values the
    context had at the start. *)
Theorem camera_settings_in_every_file context datasets w s :
  let r := deliver context datasets w in
  surface_wf s -> io_ok (13 + Z.to_nat (Length s)) (replies (snd r)) ->
  frameRate (fst r) = frameRate context /\
  exposureTime (fst r) = exposureTime context /\
  exists bs,
    files (snd (handle_surface (fst r) s (snd r))) !! surface_path (fst r) (snd r) = Some bs /\
    field 80 8 bs = bytes_k64f (frameRate context) /\
    field 88 8 bs = bytes_k64f (exposureTime context).
Proof.
  intros r Hwf Hok.
  destruct (deliver_camera datasets context w) as (Hfr & Hex). fold r in Hfr, Hex.
  split; [exact Hfr|]. split; [exact Hex|].
  destruct (surface_written (fst r) s (snd r) Hwf Hok) as (w' & -> & Hf).
  exists (artifact (fst r) s). split; [exact Hf|].
  destruct (header_fields (fst r) s (row_data s))
    as (_ & _ & _ & _ & _ & _ & _ & _ & _ & _ & H80 & H88).
  fold (artifact (fst r) s) in H80, H88. rewrite H80, H88, Hfr, Hex. split; reflexivity.
Qed.

(** The example surface after the two example datasets. *)
Lemma camera_settings_in_every_file_witness :
  let r := deliver Example.armed Bench.datasets Example.quiet in
  frameRate (fst r) = frameRate Example.armed /\
  exposureTime (fst r) = exposureTime Example.armed /\
  exists bs,
    files (snd (handle_surface (fst r) Example.grid (snd r))) !! surface_path (fst r) (snd r)
      = Some bs /\
    field 80 8 bs = bytes_k64f (frameRate Example.armed) /\
    field 88 8 bs = bytes_k64f (exposureTime Example.armed).
Proof.
  apply (camera_settings_in_every_file Example.armed Bench.datasets Example.quiet Example.grid).
  - repeat split; try (cbn; lia); repeat constructor.
  - vm_compute. constructor.
Defined.

(** X8: the timestamp is kept from one dataset to the next: a surface file
    written without a failure after any number of datasets carries the
    last stamp record handled in any of them, and the value the context
    started with when no stamp record was handled. *)
Theorem stamp_kept_across_datasets context datasets w s :
  let r := deliver context datasets w in
  surface_wf s -> io_ok (13 + Z.to_nat (Length s)) (replies (snd r)) ->
  exists bs,
    files (snd (handle_surface (fst r) s (snd r))) !! surface_path (fst r) (snd r) = Some bs /\
    field 16 8 bs =
      bytes_k64u (List.last (stamp_records (handled_all context datasets w))
                            (timeStamp context)).
Proof.
  intros r Hwf Hok.
  destruct (surface_written (fst r) s (snd r) Hwf Hok) as (w' & -> & Hf).
  exists (artifact (fst r) s). split; [exact Hf|].
  destruct (header_fields (fst r) s (row_data s)) as (_ & Hts & _).
  fold (artifact (fst r) s) in Hts. rewrite Hts. subst r.
  rewrite deliver_timeStamp. reflexivity.
Qed.

(** The example surface after the two example datasets: the stamp of the
    first dataset is still there after the second. *)
Lemma stamp_kept_across_datasets_witness :
  let r := deliver Example.armed Bench.datasets Example.quiet in
  exists bs,
    files (snd (handle_surface (fst r) Example.grid (snd r))) !! surface_path (fst r) (snd r)
      = Some bs /\
    field 16 8 bs =
      bytes_k64u (List.last (stamp_records (handled_all Example.armed Bench.datasets Example.quiet))
                            (timeStamp Example.armed)).
Proof.
  apply (stamp_kept_across_datasets Example.armed Bench.datasets Example.quiet Example.grid).
  - repeat split; try (cbn; lia); repeat constructor.
  - vm_compute. constructor.
Defined.

(** ** The names of the surface files *)

Lemma append_cons (c : ascii) (a b : string) : String c a +:+ b = String c (a +:+ b).
Proof. reflexivity. Qed.

Lemma append_nil_l (b : string) : "" +:+ b = b.
Proof. reflexivity. Qed.

Lemma append_assoc (a b c : string) : (a +:+ b) +:+ c = a +:+ (b +:+ c).
Proof.
  induction a as [|x a IH]; [reflexivity|]. rewrite !append_cons. f_equal. exact IH.
Qed.

Lemma append_nil_r (a : string) : a +:+ "" = a.
Proof. induction a as [|x a IH]; [reflexivity|]. rewrite append_cons. f_equal. exact IH. Qed.

Lemma data_filename_shape str_t c :
  data_filename str_t c =
    name_prefix str_t +:+
    (Printf.fmt_int zero_padded_4 (Int.signed 32 c) +:+ ("_" +:+ DATAFILENAMESUFFIX)).
Proof.
  unfold data_filename, name_prefix.
  generalize (Int.signed 32 c) (wYear str_t) (wMonth str_t) (wDay str_t)
             (wHour str_t) (wMinute str_t) (wSecond str_t).
  intros n y mo d h mi sec.
  cbv -[Printf.fmt_int String.append].
  rewrite !append_assoc, !append_nil_r, ?append_nil_l, ?append_cons.
  repeat (rewrite ?append_cons, ?append_nil_l; f_equal).
Qed.

Lemma append_inv_head (a x y : string) : a +:+ x = a +:+ y -> x = y.
Proof.
  induction a as [|c a IH]; [trivial|]. rewrite !append_cons. intros H. injection H. exact IH.
Qed.

Lemma append_inv_tail (r : string) : forall x y, x +:+ r = y +:+ r -> x = y.
Proof.
  intros x y H.
  assert (Hlen : String.length x = String.length y).
  { apply (f_equal String.length) in H. rewrite !length_append in H. lia. }
  revert y H Hlen. induction x as [|c x IH]; intros [|d y] H Hlen; try discriminate.
  - reflexivity.
  - rewrite !append_cons in H. injection H as Hc Hr. f_equal; [exact Hc|].
    apply IH; [exact Hr|]. cbn [String.length] in Hlen. lia.
Qed.

Lemma read_digits_append (a b : string) : forall x,
  read_digits (a +:+ b) x = read_digits b (read_digits a x).
Proof.
  induction a as [|c a IH]; intros x; [reflexivity|].
  rewrite append_cons. cbn [read_digits]. apply IH.
Qed.

Lemma digit_char_value d :
  0 <= d < 10 -> Z.of_nat (nat_of_ascii (Printf.digit_char d)) - 48 = d.
Proof. intros Hd. unfold Printf.digit_char. rewrite nat_ascii_embedding; lia. Qed.

Lemma read_zeros n : read_digits (Printf.replicate_char n "0") 0 = 0.
Proof. induction n as [|n IH]; [reflexivity|exact IH]. Qed.

(** The digits [dec_aux] puts before its accumulator, read back. *)
Lemma dec_aux_digits fuel : forall n acc,
  0 <= n < 2 ^ Z.of_nat (S fuel) ->
  exists ds d,
    Printf.dec_aux (S fuel) n acc = String (Printf.digit_char d) ds +:+ acc /\
    0 <= d < 10 /\
    forall x, read_digits (String (Printf.digit_char d) ds) x =
              x * 10 ^ Z.of_nat (S (String.length ds)) + n.
Proof.
  induction fuel as [|fuel IH]; intros n acc Hn.
  - exists "", n. change (2 ^ Z.of_nat 1) with 2 in Hn.
    cbn [Printf.dec_aux]. destruct (Z.ltb_spec n 10) as [_|Hge]; [|lia].
    rewrite Z.mod_small by lia. split; [reflexivity|]. split; [lia|].
    intros x. cbn [read_digits String.length]. rewrite digit_char_value by lia.
    change (10 ^ Z.of_nat 1) with 10. lia.
  - remember (S fuel) as fuel' eqn:Ef. cbn [Printf.dec_aux].
    destruct (Z.ltb_spec n 10) as [Hlt|Hge].
    + exists "", n. rewrite Z.mod_small by lia. split; [reflexivity|]. split; [lia|].
      intros x. cbn [read_digits String.length]. rewrite digit_char_value by lia.
      change (10 ^ Z.of_nat 1) with 10. lia.
    + subst fuel'.
      assert (Hdiv : 0 <= n / 10 < 2 ^ Z.of_nat (S fuel)).
      { split; [apply Z.div_pos; lia|].
        apply Z.div_lt_upper_bound; [lia|].
        rewrite (Nat2Z.inj_succ (S fuel)), Z.pow_succ_r in Hn by lia. lia. }
      destruct (IH (n / 10) (String (Printf.digit_char (n mod 10)) acc) Hdiv)
        as (ds & d & Heq & Hd & Hread).
      exists (ds +:+ String (Printf.digit_char (n mod 10)) ""), d.
      split; [|split; [exact Hd|]].
      * rewrite Heq, !append_cons, append_assoc. reflexivity.
      * intros x.
        change (String (Printf.digit_char d) (ds +:+ String (Printf.digit_char (n mod 10)) ""))
          with (String (Printf.digit_char d) ds +:+ String (Printf.digit_char (n mod 10)) "").
        rewrite read_digits_append, Hread. cbn [read_digits].
        rewrite digit_char_value by (apply Z.mod_pos_bound; lia).
        rewrite length_append. cbn [String.length].
        replace (Z.of_nat (S (String.length ds + 1)))
          with (Z.succ (Z.of_nat (S (String.length ds)))) by lia.
        rewrite Z.pow_succ_r by lia.
        pose proof (Z.div_mod n 10). lia.
Qed.

Lemma dec_digits n :
  0 <= n ->
  exists ds d,
    Printf.dec n = String (Printf.digit_char d) ds /\ 0 <= d < 10 /\
    read_digits (Printf.dec n) 0 = n.
Proof.
  intros Hn. unfold Printf.dec.
  destruct (dec_aux_digits (Z.to_nat (Z.log2 n)) n "") as (ds & d & Heq & Hd & Hread).
  - split; [exact Hn|]. rewrite Nat2Z.inj_succ, Z2Nat.id by apply Z.log2_nonneg.
    destruct (Z.eq_dec n 0) as [->|Hne]; [reflexivity|].
    apply Z.log2_spec. lia.
  - exists ds, d. rewrite Heq, append_nil_r. split; [reflexivity|]. split; [exact Hd|].
    rewrite Hread. lia.
Qed.

Lemma digit_char_not_minus d ds s : 0 <= d < 10 -> String (Printf.digit_char d) ds <> String "-" s.
Proof.
  intros Hd H. injection H as Hc _.
  apply (f_equal (fun c => Z.of_nat (nat_of_ascii c) - 48)) in Hc.
  rewrite digit_char_value in Hc by exact Hd.
  change (Z.of_nat (nat_of_ascii "-") - 48) with (-3) in Hc. lia.
Qed.

(** The digits of a non-negative number under [%0<w>d]. *)
Lemma zero_padded_digits (w : nat) n :
  0 <= n ->
  read_digits (Printf.pad_left w "0" (Printf.dec n)) 0 = n /\
  forall s, Printf.pad_left w "0" (Printf.dec n) <> String "-" s.
Proof.
  intros Hn. destruct (dec_digits n Hn) as (ds & d & Heq & Hd & Hread).
  unfold Printf.pad_left. split.
  - rewrite read_digits_append, read_zeros. exact Hread.
  - intros s. destruct (w - String.length (Printf.dec n))%nat as [|k].
    + rewrite append_nil_l, Heq. apply digit_char_not_minus. exact Hd.
    + cbn [Printf.replicate_char]. rewrite append_cons. intros H. discriminate H.
Qed.

Lemma fmt_zero_padded_inj (w : nat) z1 z2 :
  let sp := {| Printf.zero_flag := true; Printf.width := w; Printf.precision := None |} in
  Printf.fmt_int sp z1 = Printf.fmt_int sp z2 -> z1 = z2.
Proof.
  intros sp. unfold Printf.fmt_int, sp.
  cbn [Printf.zero_flag Printf.precision Printf.width Printf.int_digits].
  assert (Hread : forall k n, 0 <= n ->
            read_digits (Printf.pad_left k "0" (Printf.dec n)) 0 = n)
    by (intros k n Hn; apply zero_padded_digits; exact Hn).
  assert (Hminus : forall k n s, 0 <= n ->
            Printf.pad_left k "0" (Printf.dec n) <> String "-" s)
    by (intros k n s Hn; apply zero_padded_digits; exact Hn).
  destruct (Z.ltb_spec z1 0) as [H1|H1], (Z.ltb_spec z2 0) as [H2|H2]; cbv zeta iota beta;
    rewrite ?append_cons, ?append_nil_l; intros H.
  - injection H as H. apply (f_equal (fun s => read_digits s 0)) in H.
    rewrite !Hread in H by lia. lia.
  - exfalso. symmetry in H. revert H. apply Hminus. lia.
  - exfalso. revert H. apply Hminus. lia.
  - apply (f_equal (fun s => read_digits s 0)) in H.
    rewrite !Hread in H by lia. lia.
Qed.

Lemma signed_inj z1 z2 : Int.signed 32 z1 = Int.signed 32 z2 <-> Int.wrap 32 z1 = Int.wrap 32 z2.
Proof.
  unfold Int.signed. pose proof (wrap_range z1). pose proof (wrap_range z2).
  change (2 ^ (32 - 1)) with 2147483648. change (2 ^ 32) with 4294967296 in *.
  split.
  - destruct (Z.ltb_spec (Int.wrap 32 z1) 2147483648), (Z.ltb_spec (Int.wrap 32 z2) 2147483648);
      lia.
  - intros ->. reflexivity.
Qed.

Lemma data_filename_inj str_t c1 c2 :
  data_filename str_t c1 = data_filename str_t c2 <-> Int.wrap 32 c1 = Int.wrap 32 c2.
Proof.
  rewrite <- signed_inj. split.
  - rewrite !data_filename_shape. intros H.
    apply append_inv_head, append_inv_tail in H.
    exact (fmt_zero_padded_inj 4 _ _ H).
  - intros H. rewrite !data_filename_shape, H. reflexivity.
Qed.

Lemma incr32_moves c : Int.wrap 32 (Int.incr32 c) <> Int.wrap 32 c.
Proof.
  intros H. unfold Int.incr32, Int.wrap in H.
  rewrite Z.mod_mod in H by lia. change (2 ^ 32) with 4294967296 in H.
  rewrite <- Zplus_mod_idemp_l in H.
  pose proof (Z.mod_pos_bound c 4294967296 ltac:(lia)) as Hb.
  remember (c mod 4294967296) as m eqn:Em. clear Em.
  destruct (Z.eq_dec m 4294967295) as [E|E].
  - subst m. vm_compute in H. discriminate H.
  - rewrite Z.mod_small in H by lia. lia.
Qed.

Lemma surface_name_moves str_t c :
  data_filename str_t (Int.incr32 c) <> data_filename str_t c.
Proof. intros H. apply data_filename_inj in H. exact (incr32_moves c H). Qed.

(** X9: at one reading of the clock two counters give the same file name
    exactly when they agree modulo 2^32; so the name of a surface differs
    from the name the counter before it gives at the same reading. *)
Theorem surface_names_follow_the_counter str_t c1 c2 :
  (data_filename str_t c1 = data_filename str_t c2 <-> Int.wrap 32 c1 = Int.wrap 32 c2) /\
  data_filename str_t (Int.incr32 c1) <> data_filename str_t c1.
Proof.
  split; [apply data_filename_inj|apply surface_name_moves].
Qed.

(** X10: two surfaces handled one after the other while the clock reads the
    same get two files: the second surface does not overwrite the first,
    and both artifacts are there after the second. *)
Theorem surfaces_of_one_second_kept context s1 s2 w :
  let r1 := handle_surface context s1 w in
  let r2 := handle_surface (fst (fst r1)) s2 (snd r1) in
  surface_wf s1 -> io_ok (13 + Z.to_nat (Length s1)) (replies w) ->
  surface_wf s2 -> io_ok (13 + Z.to_nat (Length s2)) (replies (snd r1)) ->
  hd epoch (clock (snd r1)) = hd epoch (clock w) ->
  surface_path (fst (fst r1)) (snd r1) <> surface_path context w /\
  files (snd r2) !! surface_path context w = Some (artifact context s1) /\
  files (snd r2) !! surface_path (fst (fst r1)) (snd r1) = Some (artifact (fst (fst r1)) s2).
Proof.
  intros r1 r2 Hwf1 Hok1 Hwf2 Hok2 Hclock.
  destruct (handle_surface_open context s1 w (io_ok_open _ _ Hok1))
    as (bs1 & w1 & Heq1 & Hf1 & _ & _ & _ & Hbs1).
  subst r2. subst r1. rewrite Heq1 in *. cbn [fst snd] in *.
  set (context1 := set_count _ context) in *.
  destruct (handle_surface_open context1 s2 w1 (io_ok_open _ _ Hok2))
    as (bs2 & w2 & Heq2 & Hf2 & _ & _ & _ & Hbs2).
  rewrite Heq2. cbn [snd].
  assert (Hne : surface_path context1 w1 <> surface_path context w).
  { unfold surface_path. rewrite Hclock. apply surface_name_moves. }
  split; [exact Hne|].
  rewrite Hf2, Hf1. split.
  - rewrite lookup_insert_ne by exact Hne.
    rewrite lookup_insert_eq, (Hbs1 Hwf1 Hok1). reflexivity.
  - rewrite lookup_insert_eq, (Hbs2 Hwf2 Hok2). reflexivity.
Qed.

(** The example surface twice. *)
Lemma surfaces_of_one_second_kept_witness :
  let r1 := handle_surface Example.armed Example.grid Example.quiet in
  let r2 := handle_surface (fst (fst r1)) Example.grid (snd r1) in
  surface_path (fst (fst r1)) (snd r1) <> surface_path Example.armed Example.quiet /\
  files (snd r2) !! surface_path Example.armed Example.quiet =
    Some (artifact Example.armed Example.grid) /\
  files (snd r2) !! surface_path (fst (fst r1)) (snd r1) =
    Some (artifact (fst (fst r1)) Example.grid).
Proof.
  apply (surfaces_of_one_second_kept Example.armed Example.grid Example.grid Example.quiet).
  - repeat split; try (cbn; lia); repeat constructor.
  - vm_compute. constructor.
  - repeat split; try (cbn; lia); repeat constructor.
  - vm_compute. constructor.
  - vm_compute. reflexivity.
Defined.

(** ** Files are only ever added *)

Lemma handle_msg_files context m w p :
  is_Some (files w !! p) -> is_Some (files (snd (handle_msg context m w)) !! p).
Proof.
  intros H. destruct m as [stampMsg|s|m|t]; cbn [handle_msg].
  - exact H.
  - destruct (open_fails w) eqn:E.
    + destruct (handle_surface_fail context s w E) as (w' & -> & Hf & _).
      cbn [snd]. rewrite Hf. exact H.
    + destruct (handle_surface_open context s w E) as (bs & w' & -> & Hf & _).
      cbn [snd]. rewrite Hf. apply lookup_insert_is_Some.
      destruct (decide (surface_path context w = p)) as [Hp|Hp]; [left|right; split]; assumption.
  - rewrite bind_eq, handle_measurement_log. exact H.
  - exact H.
Qed.

Lemma dispatch_files dataset p : forall context w,
  is_Some (files w !! p) -> is_Some (files (snd (dispatch context dataset w)) !! p).
Proof.
  induction dataset as [|m rest IH]; intros context w H; [exact H|].
  cbn [dispatch]. rewrite bind_eq.
  pose proof (handle_msg_files context m w p H) as H1.
  destruct (snd (fst (handle_msg context m w))); [apply IH|]; exact H1.
Qed.

Lemma onData_files context dataset w p :
  is_Some (files w !! p) -> is_Some (files (snd (onData context dataset w)) !! p).
Proof.
  intros H. unfold onData. rewrite bind_eq.
  pose proof (dispatch_files dataset p context w H) as H1.
  destruct (snd (fst (dispatch context dataset w))); [rewrite bind_eq|]; exact H1.
Qed.

(** X11: the callback never removes a file: whatever the datasets and
    whatever the replies of the file system, a file that exists before a
    session of the callback exists after it. *)
Theorem files_are_only_added context datasets w p :
  is_Some (files w !! p) -> is_Some (files (snd (deliver context datasets w)) !! p).
Proof.
  revert context w. induction datasets as [|d rest IH]; intros context w H; [exact H|].
  cbn [deliver]. rewrite bind_eq. apply IH, onData_files, H.
Qed.

(** The file of a first surface is there after a second one. *)
Lemma files_are_only_added_witness :
  let w := snd (handle_surface Example.armed Example.grid Example.quiet) in
  let p := surface_path Example.armed Example.quiet in
  is_Some (files (snd (deliver Example.armed Bench.datasets w)) !! p).
Proof.
  intros w p. apply (files_are_only_added Example.armed Bench.datasets w p).
  vm_compute. eexists. reflexivity.
Defined.

(** ** [main] *)

Lemma set_console_app l1 l2 w :
  set_console (fun c => c ++ l2) (set_console (fun c => c ++ l1) w) =
  set_console (fun c => c ++ (l1 ++ l2)) w.
Proof. destruct w. unfold set_console. cbn. rewrite app_assoc. reflexivity. Qed.

Lemma set_console_nil w : set_console (fun c => c ++ []) w = w.
Proof. destruct w. unfold set_console. cbn. rewrite app_nil_r. reflexivity. Qed.

Lemma printf_eq fmt args w :
  printf fmt args w = (tt, set_console (fun c => c ++ [Printf.sprintf fmt args]) w).
Proof. reflexivity. Qed.

(** With the sensor ready, [main] is the setup of the context and of the
    measurement file followed by the session. *)
Lemma main_ready sensor stack w :
  sensor_ready sensor ->
  main sensor stack w =
    (r ← main_setup stack (GoSetup_FrameRate sensor) (GoSetup_Exposure sensor);
     match r with
     | None => mret None
     | Some contextPointer =>
         or_return ("Error: GoSystem_Start:%d" +:+ LF) (GoSystem_Start sensor) (
         contextPointer ← deliver contextPointer (received sensor);
         or_return ("Error: GoSystem_Stop:%d" +:+ LF) (GoSystem_Stop sensor) (
         printf ("Logging stopped - %ld surfaces logged in total. Press ENTER key to close."
                 +:+ LF) [Printf.Int (Int.signed 32 (count contextPointer))];;
         mret (Some contextPointer)))
     end) (set_console (fun c => c ++ setup_notes sensor) w).
Proof.
  intros (E1 & E2 & E3 & E4 & E5 & E6 & E7).
  unfold main. rewrite E1, E2, E3, E4, E5, E6. cbn [or_return].
  assert (Enotes :
    forall (k : IO (option DataContext)),
      ((if GoSensor_Setup sensor then mret tt
        else printf ("Error: GoSensor_Setup: Invalid Handle" +:+ LF) []);;
       or_return ("Error: GoSetup_SetScanMode:%d" +:+ LF)
         (if GoSetup_ScanMode_is_surface sensor then SdkOk else GoSetup_SetScanMode sensor)
         ((if GoSetup_ScanMode_is_surface sensor then mret tt
           else printf ("Note: Scan mode changed to " +:+ DQUOTE +:+ "surface" +:+ DQUOTE +:+
                        " mode. " +:+ LF +:+ LF) []);; k)) w =
      k (set_console (fun c => c ++ setup_notes sensor) w)).
  { intros k. rewrite bind_eq. unfold setup_notes.
    destruct (GoSensor_Setup sensor), (GoSetup_ScanMode_is_surface sensor);
      try (destruct E7 as [E7|E7]; [discriminate|rewrite E7]);
      cbn [or_return]; rewrite bind_eq, ?ret_eq, ?printf_eq; cbn [fst snd app];
      rewrite ?set_console_app, ?set_console_nil; reflexivity. }
  rewrite Enotes. unfold main_setup.
  set (w0 := set_console _ w). rewrite !bind_eq.
  destruct (fopen_meas _ _) as [[f|] w1]; cbn [fst snd]; rewrite !bind_eq; [|reflexivity].
  rewrite !ret_eq. cbn [fst snd].
  destruct (GoSystem_Start sensor); cbn [or_return]; [|rewrite !bind_eq; reflexivity].
  rewrite !bind_eq.
  destruct (GoSystem_Stop sensor); cbn [or_return]; rewrite !bind_eq; reflexivity.
Qed.

Lemma main_setup_opened stack fr ex w :
  open_fails w = false ->
  exists w1,
    main_setup stack fr ex w = (Some (set_camera fr ex (set_count 0 stack)), w1) /\
    logging_ready w w1.
Proof.
  intros Ho. unfold main_setup. rewrite !bind_eq.
  unfold GetSystemTime, printf at 1. cbn [fst snd].
  unfold fopen_meas. cbn [replies set_console set_clock].
  unfold open_fails in Ho. 
  set (name := meas_filename _). clearbody name.
  destruct w as [fs con lg ck rs d]. cbn in Ho |- *.
  destruct rs as [|[|k] rs]; try discriminate Ho;
    (eexists; split; [reflexivity|]); repeat split.
Qed.

Lemma main_setup_failed stack fr ex w :
  open_fails w = true ->
  exists w1,
    main_setup stack fr ex w = (None, w1) /\
    measLog w1 = measLog w /\ files w1 = files w /\ destroyed w1 = destroyed w /\
    List.last (console w1) "" = "Error opening file".
Proof.
  intros Ho. unfold main_setup. rewrite !bind_eq.
  unfold GetSystemTime, printf at 1. cbn [fst snd].
  unfold fopen_meas. cbn [replies set_console set_clock].
  unfold open_fails in Ho.
  set (name := meas_filename _). clearbody name.
  destruct w as [fs con lg ck rs d]. cbn in Ho |- *.
  destruct rs as [|[|k] rs]; try discriminate Ho.
  eexists; split; [reflexivity|]. cbn. repeat split.
  rewrite last_app_default. reflexivity.
Qed.

Lemma or_return_error {A} fmt status (rest : IO (option A)) w :
  or_return fmt (SdkError status) rest w =
    (None, set_console (fun c => c ++ [Printf.sprintf fmt [Printf.Int status]]) w).
Proof. reflexivity. Qed.

Lemma or_return_ok {A} fmt (rest : IO (option A)) : or_return fmt SdkOk rest = rest.
Proof. reflexivity. Qed.

Lemma only_printed l w :
  l <> [] ->
  exists lines : list string,
    lines <> [] /\
    (@None DataContext, set_console (fun c => c ++ l) w) =
      (None, set_console (fun c => c ++ lines) w).
Proof. intros H. exists l. split; [exact H|reflexivity]. Qed.


(** X12: when one of the SDK calls that come before the context is set up
    answers with an error status, or the scan mode cannot be set, [main]
    ends without a context and has done nothing but print: the world
    differs from the one it started in by console lines only, and there is
    at least one. *)
Theorem sdk_error_ends_main sensor stack w :
  ~ sensor_ready sensor ->
  exists lines,
    lines <> [] /\
    main sensor stack w = (None, set_console (fun c => c ++ lines) w).
Proof.
  intros Hn. unfold main.
  destruct (GoSdk_Construct sensor) eqn:E1;
    [rewrite or_return_ok|rewrite or_return_error; apply only_printed; discriminate].
  destruct (GoSystem_Construct sensor) eqn:E2;
    [rewrite or_return_ok|rewrite or_return_error; apply only_printed; discriminate].
  destruct (GoSystem_FindSensorByIpAddress sensor) eqn:E3;
    [rewrite or_return_ok|rewrite or_return_error; apply only_printed; discriminate].
  destruct (GoSystem_Connect sensor) eqn:E4;
    [rewrite or_return_ok|rewrite or_return_error; apply only_printed; discriminate].
  destruct (GoSystem_EnableData sensor) eqn:E5;
    [rewrite or_return_ok|rewrite or_return_error; apply only_printed; discriminate].
  destruct (GoSystem_SetDataHandler sensor) eqn:E6;
    [rewrite or_return_ok|rewrite or_return_error; apply only_printed; discriminate].
  rewrite bind_eq.
  destruct (GoSetup_ScanMode_is_surface sensor) eqn:E7.
  { exfalso. apply Hn. unfold sensor_ready. rewrite E1, E2, E3, E4, E5, E6, E7. tauto. }
  destruct (GoSetup_SetScanMode sensor) eqn:E8.
  { exfalso. apply Hn. unfold sensor_ready. rewrite E1, E2, E3, E4, E5, E6, E8. tauto. }
  rewrite or_return_error.
  destruct (GoSensor_Setup sensor).
  - rewrite ret_eq. cbn [snd]. apply only_printed. discriminate.
  - rewrite printf_eq. cbn [snd]. rewrite set_console_app.
    apply only_printed. discriminate.
Qed.

(** A sensor that cannot be connected to. *)
Lemma sdk_error_ends_main_witness :
  exists lines,
    lines <> [] /\
    main (Bench.answering (SdkError 0) SdkOk SdkOk) Example.stack Example.quiet =
      (None, set_console (fun c => c ++ lines) Example.quiet).
Proof.
  apply (sdk_error_ends_main (Bench.answering (SdkError 0) SdkOk SdkOk)
           Example.stack Example.quiet).
  vm_compute. intros (_ & _ & _ & H & _). discriminate H.
Defined.

Lemma open_fails_console g w : open_fails (set_console g w) = open_fails w.
Proof. reflexivity. Qed.

Lemma logging_ready_console g w w1 :
  logging_ready (set_console g w) w1 -> logging_ready w w1.
Proof. intros H. exact H. Qed.

(** X13: with the sensor ready and the measurement file open, a started
    sensor has every received dataset handled by the callback, starting from
    counter 0 and the camera settings read from the sensor, on a log that
    holds the header line only.  Whatever [GoSystem_Stop] answers, the log
    and the files are those the callback left; [main] ends with the context
    and the report of the counter when the stop succeeded, and without a
    context after the error message otherwise.  A null setup handle does
    not change any of this. *)
Theorem session_of_a_started_sensor sensor stack w :
  sensor_ready sensor ->
  open_fails w = false ->
  GoSystem_Start sensor = SdkOk ->
  exists w1,
    logging_ready w w1 /\
    let context := initial_context sensor stack in
    let r := deliver context (received sensor) w1 in
    let m := main sensor stack w in
    measLog (snd m) = log_header :: log_lines 0 (handled_all context (received sensor) w1) /\
    files (snd m) = files (snd r) /\
    destroyed (snd m) = destroyed (snd r) /\
    match GoSystem_Stop sensor with
    | SdkOk =>
        fst m = Some (fst r) /\
        List.last (console (snd m)) "" = stopped_line (count (fst r))
    | SdkError status =>
        fst m = None /\
        List.last (console (snd m)) "" =
          Printf.sprintf ("Error: GoSystem_Stop:%d" +:+ LF) [Printf.Int status]
    end.
Proof.
  intros Hr Ho Hs.
  rewrite (main_ready sensor stack w Hr), bind_eq.
  destruct (main_setup_opened stack (GoSetup_FrameRate sensor) (GoSetup_Exposure sensor)
              (set_console (fun c => c ++ setup_notes sensor) w)) as (w1 & E & Hl).
  { rewrite open_fails_console. exact Ho. }
  rewrite E. cbn [fst snd]. rewrite Hs, or_return_ok, bind_eq.
  exists w1. split; [apply (logging_ready_console _ _ _ Hl)|].
  fold (initial_context sensor stack).
  set (context := initial_context sensor stack).
  set (r := deliver context (received sensor) w1).
  pose proof (deliver_frame (received sensor) context w1) as [Hlog _].
  fold r in Hlog. destruct Hl as (Hm & _). rewrite Hm in Hlog.
  change (count context) with 0 in Hlog.
  destruct (GoSystem_Stop sensor) as [|status].
  - rewrite or_return_ok, bind_eq, printf_eq, ret_eq. cbn [fst snd].
    change (measLog (set_console ?g ?v)) with (measLog v).
    change (files (set_console ?g ?v)) with (files v).
    change (destroyed (set_console ?g ?v)) with (destroyed v).
    change (console (set_console ?g ?v)) with (g (console v)).
    cbv beta. rewrite last_app_default.
    change (List.last [?x] ?d) with x.
    split; [exact Hlog|]. split; [reflexivity|]. split; [reflexivity|].
    split; [reflexivity|]. unfold stopped_line. reflexivity.
  - rewrite or_return_error. cbn [fst snd].
    change (measLog (set_console ?g ?v)) with (measLog v).
    change (files (set_console ?g ?v)) with (files v).
    change (destroyed (set_console ?g ?v)) with (destroyed v).
    change (console (set_console ?g ?v)) with (g (console v)).
    cbv beta. rewrite last_app_default.
    change (List.last [?x] ?d) with x.
    split; [exact Hlog|]. split; [reflexivity|]. split; [reflexivity|].
    split; [reflexivity|]. reflexivity.
Qed.

(** The example sensor, started and stopped. *)
Lemma session_of_a_started_sensor_witness :
  let sensor := Bench.answering SdkOk SdkOk SdkOk in
  exists w1,
    logging_ready Example.quiet w1 /\
    let context := initial_context sensor Example.stack in
    let r := deliver context (received sensor) w1 in
    let m := main sensor Example.stack Example.quiet in
    measLog (snd m) = log_header :: log_lines 0 (handled_all context (received sensor) w1) /\
    files (snd m) = files (snd r) /\
    destroyed (snd m) = destroyed (snd r) /\
    fst m = Some (fst r) /\
    List.last (console (snd m)) "" = stopped_line (count (fst r)).
Proof.
  intros sensor.
  apply (session_of_a_started_sensor sensor Example.stack Example.quiet).
  - repeat split; right; reflexivity.
  - reflexivity.
  - reflexivity.
Defined.

(** X14: the callback runs only for a started sensor.  When the
    measurement file cannot be opened, or [GoSystem_Start] answers with an
    error status, [main] ends without a context, no dataset is handled
    (none is destroyed, no surface file is created), and the log is
    untouched in the first case and holds the header line only in the
    second. *)
Theorem no_data_without_start sensor stack w :
  sensor_ready sensor ->
  open_fails w = true \/ GoSystem_Start sensor <> SdkOk ->
  let m := main sensor stack w in
  fst m = None /\
  files (snd m) = files w /\
  destroyed (snd m) = destroyed w /\
  measLog (snd m) = (if open_fails w then measLog w else [log_header]).
Proof.
  intros Hr H. cbv zeta.
  rewrite (main_ready sensor stack w Hr), bind_eq.
  destruct (open_fails w) eqn:Ho.
  - destruct (main_setup_failed stack (GoSetup_FrameRate sensor) (GoSetup_Exposure sensor)
                (set_console (fun c => c ++ setup_notes sensor) w)) as (w1 & E & Hm & Hf & Hd & _).
    { rewrite open_fails_console. exact Ho. }
    rewrite E. cbn [fst snd]. rewrite ret_eq. cbn [fst snd].
    repeat split; assumption.
  - destruct H as [H|H]; [discriminate H|].
    destruct (main_setup_opened stack (GoSetup_FrameRate sensor) (GoSetup_Exposure sensor)
                (set_console (fun c => c ++ setup_notes sensor) w)) as (w1 & E & Hl).
    { rewrite open_fails_console. exact Ho. }
    rewrite E. cbn [fst snd].
    destruct (GoSystem_Start sensor) as [|status]; [contradiction H; reflexivity|].
    rewrite or_return_error. cbn [fst snd].
    destruct Hl as (Hm & Hf & _ & _ & Hd).
    repeat split; assumption.
Qed.

(** The example sensor when it refuses to start. *)
Lemma no_data_without_start_witness :
  let m := main (Bench.answering SdkOk (SdkError 0) SdkOk) Example.stack Example.quiet in
  fst m = None /\
  files (snd m) = files Example.quiet /\
  destroyed (snd m) = destroyed Example.quiet /\
  measLog (snd m) = (if open_fails Example.quiet then measLog Example.quiet else [log_header]).
Proof.
  apply (no_data_without_start (Bench.answering SdkOk (SdkError 0) SdkOk)
           Example.stack Example.quiet).
  - repeat split; right; reflexivity.
  - right. discriminate.
Defined.
